(** * HR time-management core: timestamp ledger, auditor, attendance and
      timesheet aggregation

    A shallow embedding of the Lambda handlers under
    [lambda/time-management] and of [lambda/utils/authUtil.js].

    Conventions of the embedding.

    - A timestamp is held by the code as the ISO-8601 string produced by
      [Date.prototype.toISOString]; the embedding keeps the instant (epoch
      milliseconds, a [Z]) and renders it with [Iso.toISOString] wherever the
      code uses the text itself (the digest input, [split('T')[0]], the key
      attributes, key-range comparisons against caller-supplied text).
      [new Date(s)] of such a string is the instant back, and the order of the
      store on the sort key [SK] is the order of the instants: the rendering
      is fixed-width for years 0000 to 9999.
    - A JavaScript number is an IEEE 754 double. A difference of two
      instants, a sum of such differences and a comparison of one with a
      constant are whole numbers of milliseconds below 2^53 and are exact;
      they are kept as integers. Hours and minutes, which the code gets by
      division, are kept as the doubles they are ([Num]): each operation on
      them rounds as the engine does, and [toFixed] reads the exact value of
      the double. Not-a-number and the infinities are out of reach of
      quotients and sums of such differences and are not represented; the
      negative zero, which compares, adds and prints as zero, is zero.
    - A thrown [Error] is its message; every handler catches it and answers
      with a status code and that message. The store and the request
      plumbing do not fail: a request body is the parsed object, path and
      query parameters are present objects, and a [catch] is reached only by
      what the handler's own code throws.
    - What the handlers take from outside the files at hand is a parameter
      ([Utils.t]): [validateBody] and [encrypt] of [lambda/utils], and the
      engine's reading of a date text, [new Date(text)], for the texts that
      are not produced by [toISOString] (the dates of a request or of a stored
      leave request, which are kept as typed).
    - A query is its whole result: the [do ... while] loops over
      [LastEvaluatedKey] collect every page.
    - The clock reading of [new Date()] is an input of the handler that
      takes it. *)

From Stdlib Require Import ZArith List Bool Lia.
From Stdlib Require Import Strings.String Strings.Ascii Numbers.DecimalString.
From Stdlib Require Floats.PrimFloat Floats.FloatOps Floats.SpecFloat.
Import ListNotations.

Open Scope string_scope.
Open Scope Z_scope.

(* ------------------------------------------------------------------ *)
(** ** JavaScript primitives used by the handlers *)

Module JS.

(** [if (s)] on a possibly-absent string: absent and the empty string are
    falsy. *)
Definition truthy (o : option string) : bool :=
  match o with
  | Some s => negb (s =? "")%string
  | None => false
  end.

(** [a || b] on possibly-absent strings. *)
Definition or_else (a b : option string) : option string :=
  if truthy a then a else b.

(** [a || ''] inside a template literal. *)
Definition or_empty (a : option string) : string :=
  match or_else a (Some "") with Some s => s | None => "" end.

(** [a === b] where [a] is a string or [null] and [b] a string or
    [undefined] (or a literal): two absent operands are not equal. *)
Definition strict_eq (a b : option string) : bool :=
  match a, b with
  | Some x, Some y => (x =? y)%string
  | _, _ => false
  end.

(** [s.includes(sub)]. *)
Fixpoint includes (s sub : string) : bool :=
  String.prefix sub s ||
  match s with
  | EmptyString => false
  | String _ rest => includes rest sub
  end.

(** [arr.includes(x)] on an array of strings. *)
Definition array_includes (arr : list string) (x : string) : bool :=
  existsb (String.eqb x) arr.

(** [`${n}`] for an integer-valued number (below 1e21). *)
Definition number_to_string (n : Z) : string :=
  NilZero.string_of_int (Z.to_int n).

(** Left padding with zeros, as [toISOString] pads its fields. *)
Fixpoint zeros (n : nat) : string :=
  match n with
  | O => ""
  | S k => "0" ++ zeros k
  end.

Definition pad (width : nat) (n : Z) : string :=
  let s := number_to_string n in
  zeros (width - String.length s) ++ s.

(** Rounding to the nearest integer, ties away from zero: the integer that
    [Number.prototype.toFixed] picks for the quotient [num / den], [den > 0]. *)
Definition round_div (num den : Z) : Z :=
  if num <? 0 then - ((2 * (- num) + den) / (2 * den))
  else (2 * num + den) / (2 * den).

(** [s.toLowerCase()] on ASCII text. *)
Definition lower (c : ascii) : ascii :=
  let n := N_of_ascii c in
  if (65 <=? n)%N && (n <=? 90)%N then ascii_of_N (n + 32) else c.

Fixpoint toLowerCase (s : string) : string :=
  match s with
  | EmptyString => EmptyString
  | String c rest => String (lower c) (toLowerCase rest)
  end.

End JS.

(* ------------------------------------------------------------------ *)
(** ** Numbers

    A finite double is held by its exact value, counted in units of
    [2^-1074], the smallest positive double: every finite double is a whole
    number of them, and the order of the doubles is the order of these
    counts. An operation computes the exact result and rounds it to the
    nearest double, ties to the even significand. *)

Module Num.

Definition t := Z.

(** The number 1. *)
Definition one : Z := 2 ^ 1074.

(** The integer nearest to [a / b], ties to the even one; [0 <= a],
    [0 < b]. *)
Definition rne_div (a b : Z) : Z :=
  let q := a / b in
  let r := a mod b in
  if 2 * r <? b then q
  else if b <? 2 * r then q + 1
  else if Z.even q then q else q + 1.

(** The double nearest to [p / q] units, [0 <= p], [0 < q]: a quotient of
    more than 53 binary digits keeps its leading 53, rounded. (Below [2^53]
    units, the subnormal doubles and the first binade, every whole count is a
    double.) *)
Definition round_pos (p q : Z) : Z :=
  let s := Z.max 0 (Z.log2 (p / q) + 1 - 53) in
  rne_div p (q * 2 ^ s) * 2 ^ s.

Definition round (p q : Z) : t :=
  if p <? 0 then - round_pos (- p) q else round_pos p q.

(** The number nearest to an integer (exact below [2^53]). *)
Definition of_Z (n : Z) : t := round (n * one) 1.

(** [x + y], [x - y] and [x / y] for a positive [y]. *)
Definition add (x y : t) : t := round (x + y) 1.
Definition sub (x y : t) : t := round (x - y) 1.
Definition div (x y : t) : t := round (x * one) y.

(** A count that is a double: rounding leaves it as it is. *)
Definition is_double (x : t) : Prop := round x 1 = x.

(** [x > y], [Math.min(x, y)] and [Math.max(x, y)]. *)
Definition gtb (x y : t) : bool := x >? y.
Definition min (x y : t) : t := Z.min x y.
Definition max (x y : t) : t := Z.max x y.

(** The integer [n] that [x.toFixed(digits)] prints, with the decimal point
    [digits] places from its end: the one nearest to [x * 10^digits], the
    larger in magnitude of two equally near. *)
Definition fixed (digits : Z) (x : t) : Z :=
  JS.round_div (x * 10 ^ digits) one.

(** The number with the decimal notation [n / 10^digits], as
    [parseFloat] reads it. *)
Definition decimal (n digits : Z) : t := round (n * one) (10 ^ digits).

(** [parseFloat(x.toFixed(digits))]. *)
Definition toFixed (digits : Z) (x : t) : t := decimal (fixed digits x) digits.

(** The text [x.toFixed(digits)], [digits] being 0 or 2. *)
Definition toFixed_text (digits : Z) (x : t) : string :=
  let n := Z.abs (fixed digits x) in
  (if x <? 0 then "-" else "")
  ++ JS.number_to_string (n / 10 ^ digits)
  ++ (if digits =? 0 then ""
      else "." ++ JS.pad (Z.to_nat digits) (n mod 10 ^ digits)).

(** The count of units of a double of the proof assistant's own
    arithmetic, which is the processor's. *)
Definition of_float (f : PrimFloat.float) : t :=
  match FloatOps.Prim2SF f with
  | SpecFloat.S754_finite sign m e =>
      (if sign then - 1 else 1) * Zpos m * 2 ^ (e + 1074)
  | _ => 0
  end.

End Num.

(** Hours are numbers. *)
Module Hours.

Definition of_int (h : Z) : Num.t := Num.of_Z h.

(** [parseFloat(x.toFixed(digits))]. *)
Definition toFixed (digits : Z) (x : Num.t) : Num.t := Num.toFixed digits x.

(** The text [x.toFixed(2)]. *)
Definition toFixed2_text (x : Num.t) : string := Num.toFixed_text 2 x.

(** The hours of a whole number of milliseconds: [ms / 3600000]. *)
Definition of_ms (ms : Z) : Num.t := Num.div (Num.of_Z ms) (Num.of_Z 3600000).

End Hours.

(* ------------------------------------------------------------------ *)
(** ** SHA-256, hexadecimal digest

    [crypto.createHash('sha256').update(s).digest('hex')] of Node's standard
    library, on the bytes of [s]. *)

Module SHA256.

Definition mask : Z := 0xffffffff.
Definition add32 (a b : Z) : Z := Z.land (a + b) mask.
Definition rotr (n x : Z) : Z :=
  Z.land (Z.lor (Z.shiftr x n) (Z.shiftl x (32 - n))) mask.
Definition Ch (x y z : Z) : Z :=
  Z.lxor (Z.land x y) (Z.land (Z.lxor x mask) z).
Definition Maj (x y z : Z) : Z :=
  Z.lxor (Z.lxor (Z.land x y) (Z.land x z)) (Z.land y z).
Definition Sigma0 (x : Z) : Z := Z.lxor (Z.lxor (rotr 2 x) (rotr 13 x)) (rotr 22 x).
Definition Sigma1 (x : Z) : Z := Z.lxor (Z.lxor (rotr 6 x) (rotr 11 x)) (rotr 25 x).
Definition sigma0 (x : Z) : Z := Z.lxor (Z.lxor (rotr 7 x) (rotr 18 x)) (Z.shiftr x 3).
Definition sigma1 (x : Z) : Z := Z.lxor (Z.lxor (rotr 17 x) (rotr 19 x)) (Z.shiftr x 10).

(** The first 64 primes. *)
Definition is_prime (n : nat) : bool :=
  forallb (fun d => negb (Nat.eqb (Nat.modulo n d) 0)) (seq 2 (n - 2)).

Definition primes : list Z :=
  Eval vm_compute in map Z.of_nat (filter is_prime (seq 2 310)).

(** The integer cube root of [x] below [2 ^ n], bit by bit. *)
Fixpoint cube_root (n : nat) (x acc : Z) : Z :=
  match n with
  | O => acc
  | S k =>
      let c := acc + 2 ^ Z.of_nat k in
      if c * c * c <=? x then cube_root k x c else cube_root k x acc
  end.

(** The round constants: the first 32 bits of the fractional parts of the
    cube roots of the first 64 primes. *)
Definition K : list Z :=
  Eval vm_compute in
    map (fun p => Z.land (cube_root 36 (p * 2 ^ 96) 0) mask) primes.

(** The initial hash value: the same of the square roots of the first 8
    primes. *)
Definition H0 : list Z :=
  Eval vm_compute in
    map (fun p => Z.land (Z.sqrt (p * 2 ^ 64)) mask) (firstn 8 primes).

Definition bytes_of_string (s : string) : list Z :=
  map (fun c => Z.of_N (N_of_ascii c)) (list_ascii_of_string s).

(** Big-endian bytes of [x], [n] of them. *)
Fixpoint be_bytes (n : nat) (x : Z) : list Z :=
  match n with
  | O => []
  | S k => be_bytes k (Z.shiftr x 8) ++ [Z.land x 0xff]
  end.

Definition padding (msg : list Z) : list Z :=
  let len := Z.of_nat (List.length msg) in
  let k := (55 - len) mod 64 in
  msg ++ [0x80] ++ repeat 0 (Z.to_nat k) ++ be_bytes 8 (8 * len).

Fixpoint words (fuel : nat) (bs : list Z) : list Z :=
  match fuel, bs with
  | S f, b0 :: b1 :: b2 :: b3 :: rest =>
      (Z.shiftl b0 24 + Z.shiftl b1 16 + Z.shiftl b2 8 + b3) :: words f rest
  | _, _ => []
  end.

(** The message schedule, most recent word first. *)
Fixpoint schedule (n : nat) (w : list Z) : list Z :=
  match n with
  | O => w
  | S k =>
      let x :=
        add32 (add32 (sigma1 (nth 1 w 0)) (nth 6 w 0))
              (add32 (sigma0 (nth 14 w 0)) (nth 15 w 0)) in
      schedule k (x :: w)
  end.

Definition round (st : list Z) (kw : Z * Z) : list Z :=
  match st with
  | [a; b; c; d; e; f; g; h] =>
      let t1 := add32 (add32 (add32 h (Sigma1 e)) (add32 (Ch e f g) (fst kw))) (snd kw) in
      let t2 := add32 (Sigma0 a) (Maj a b c) in
      [add32 t1 t2; a; b; c; add32 d t1; e; f; g]
  | _ => st
  end.

Definition compress (h : list Z) (block : list Z) : list Z :=
  let w := rev (schedule 48 (rev block)) in
  let st := fold_left round (combine K w) h in
  map (fun p => add32 (fst p) (snd p)) (combine h st).

Fixpoint blocks (fuel : nat) (h : list Z) (ws : list Z) : list Z :=
  match fuel with
  | O => h
  | S f =>
      match ws with
      | [] => h
      | _ => blocks f (compress h (firstn 16 ws)) (skipn 16 ws)
      end
  end.

Definition hex_digit (d : Z) : string :=
  String.substring (Z.to_nat d) 1 "0123456789abcdef".

Fixpoint hex_of (n : nat) (x : Z) : string :=
  match n with
  | O => ""
  | S k => hex_of k (Z.shiftr x 4) ++ hex_digit (Z.land x 0xf)
  end.

Definition digest_hex (s : string) : string :=
  let bs := padding (bytes_of_string s) in
  let ws := words (List.length bs) bs in
  let h := blocks (List.length ws) H0 ws in
  String.concat "" (map (hex_of 8) h).

End SHA256.

(* ------------------------------------------------------------------ *)
(** ** ISO-8601 rendering of an instant *)

Module Iso.

Definition ms_per_day : Z := 86400000.

(** The proleptic Gregorian date of a day count since 1970-01-01. *)
Definition civil (days : Z) : Z * Z * Z :=
  let z := days + 719468 in
  let era := z / 146097 in
  let doe := z - era * 146097 in
  let yoe := (doe - doe / 1460 + doe / 36524 - doe / 146096) / 365 in
  let doy := doe - (365 * yoe + yoe / 4 - yoe / 100) in
  let mp := (5 * doy + 2) / 153 in
  let d := doy - (153 * mp + 2) / 5 + 1 in
  let m := if mp <? 10 then mp + 3 else mp - 9 in
  let y := yoe + era * 400 + (if m <=? 2 then 1 else 0) in
  (y, m, d).

(** [toISOString().split('T')[0]], years 0000 to 9999. *)
Definition dateOnly (t : Z) : string :=
  let '(y, m, d) := civil (t / ms_per_day) in
  JS.pad 4 y ++ "-" ++ JS.pad 2 m ++ "-" ++ JS.pad 2 d.

(** The part of [toISOString()] after the ['T']. *)
Definition timeOnly (t : Z) : string :=
  let r := t mod ms_per_day in
  JS.pad 2 (r / 3600000) ++ ":" ++ JS.pad 2 (r / 60000 mod 60) ++ ":" ++
  JS.pad 2 (r / 1000 mod 60) ++ "." ++ JS.pad 3 (r mod 1000) ++ "Z".

Definition toISOString (t : Z) : string :=
  dateOnly t ++ "T" ++ timeOnly t.

End Iso.

(* ------------------------------------------------------------------ *)
(** ** [lambda/utils/authUtil.js] *)

Module Auth.

(** The Cognito token claims the handlers read; an absent claim is [None]. *)
Record Claims := {
  custom_empId : option string;
  sub : option string;
  cognito_username : option string;
  email : option string;
  custom_role : option string
}.

(** [event.requestContext?.authorizer?.claims], absent when the request did
    not come through the authorizer. *)
Definition getRequestingUser (claims : option Claims) : option string :=
  match claims with
  | Some c =>
      if JS.truthy (custom_empId c) then custom_empId c
      else
        let fallbackIdentity :=
          JS.or_else (sub c) (JS.or_else (cognito_username c) (email c)) in
        if JS.truthy fallbackIdentity then fallbackIdentity else None
  | None => None
  end.

Definition getUserRole (claims : option Claims) : option string :=
  match claims with
  | Some c => custom_role c
  | None => None
  end.

Definition isAuthorized (claims : option Claims) (allowedRoles : list string) : bool :=
  match getUserRole claims with
  | Some userRole =>
      if (userRole =? "")%string then false
      else JS.array_includes allowedRoles userRole
  | None => false
  end.

End Auth.

(* ------------------------------------------------------------------ *)
(** ** The employee timestamp log table and the tables read beside it *)

Module Log.

(** An item of the log table, as [dev-createTimestamp.js] writes it. The key
    attributes are functions of the other fields and are given below. *)
Record Item := {
  employeeId : string;
  timestampType : string;
  timestamp : Z;
  previousTimestamp : option Z;
  sequenceNumber : Z;
  wbsCode : option string;
  location : option string;
  deviceId : option string;
  ipAddress : option string;
  hashChain : string;
  previousWbsCode : option string;
  wbsChangeReason : option string
}.

Definition PK (it : Item) : string := "EMP#" ++ employeeId it.
Definition SK (it : Item) : string := Iso.toISOString (timestamp it).
Definition GSI1PK (it : Item) : string := "DATE#" ++ Iso.dateOnly (timestamp it).
Definition GSI1SK (it : Item) : string :=
  "EMP#" ++ employeeId it ++ "#" ++ timestampType it.

Definition Table := list Item.

(** Items come back from a query in sort-key order. The same stable
    insertion sort stands for [logs.sort((a, b) => new Date(a.timestamp) -
    new Date(b.timestamp))]. *)
Fixpoint insert_by_SK (it : Item) (l : list Item) : list Item :=
  match l with
  | [] => [it]
  | x :: rest =>
      if timestamp it <=? timestamp x then it :: l
      else x :: insert_by_SK it rest
  end.

Fixpoint sort_by_SK (l : list Item) : list Item :=
  match l with
  | [] => []
  | x :: rest => insert_by_SK x (sort_by_SK rest)
  end.

(** [KeyConditionExpression: 'PK = :pk'], [ScanIndexForward: true], every
    page. *)
Definition queryPartition (tbl : Table) (pk : string) : list Item :=
  sort_by_SK (filter (fun it => (PK it =? pk)%string) tbl).

(** The same with [ScanIndexForward: false, Limit: 1]. *)
Definition queryLatest (tbl : Table) (pk : string) : list Item :=
  firstn 1 (rev (queryPartition tbl pk)).

(** Is there an item under this primary key? *)
Definition key_exists (tbl : Table) (pk : string) (sk : Z) : bool :=
  existsb (fun it => (PK it =? pk)%string && (timestamp it =? sk)) tbl.

(** [PutItem] under ['attribute_not_exists(PK) AND attribute_not_exists(SK)']:
    refused when an item is stored under the same primary key. *)
Definition putIfAbsent (tbl : Table) (it : Item) : option Table :=
  if key_exists tbl (PK it) (timestamp it) then None else Some (it :: tbl).

(** An item with its [hashChain] attribute overwritten, as an update made
    on the store from outside the handler leaves it. *)
Definition setHashChain (h : string) (it : Item) : Item :=
  {| employeeId := employeeId it;
     timestampType := timestampType it;
     timestamp := timestamp it;
     previousTimestamp := previousTimestamp it;
     sequenceNumber := sequenceNumber it;
     wbsCode := wbsCode it;
     location := location it;
     deviceId := deviceId it;
     ipAddress := ipAddress it;
     hashChain := h;
     previousWbsCode := previousWbsCode it;
     wbsChangeReason := wbsChangeReason it |}.

End Log.

Module Personnel.

Record PersonalData := { status : string }.
Record ContractDetails := { department : option string }.

(** The personnel table, by employee id: the [SECTION#PERSONAL_DATA] and
    [SECTION#CONTRACT_DETAILS] items. *)
Record Table := {
  personalData : string -> option PersonalData;
  contractDetails : string -> option ContractDetails
}.

End Personnel.

Module Org.

Record Wbs := {
  wbsCode : string;
  isActive : bool;
  departmentId : string;
  costCenter : option string
}.

(** The organizational table: the [ORG#WBS#code] metadata items and the
    [departmentId-index]. *)
Record Table := {
  wbsMetadata : string -> option Wbs;
  departmentIndex : string -> list Wbs
}.

End Org.

(* ------------------------------------------------------------------ *)
(** ** Utilities of the repository that the handlers import

    [lambda/utils/validationUtil.js] and [lambda/utils/cryptoUtil.js] are
    taken as given: every definition and theorem below holds for any
    [validateBody] and any [encrypt]. *)

Module Utils.

Record ValidationResult := { isValid : bool; message : string }.

Record t := {
  (** [validateBody(body, requiredFields)], the body read by field name. *)
  validateBody : (string -> option string) -> list string -> ValidationResult;
  encrypt : string -> string;
  (** [new Date(text).getTime()] of the engine; [None] is the invalid date,
      whose comparisons all fail. *)
  dateOf : string -> option Z
}.

End Utils.

(* ------------------------------------------------------------------ *)
(** ** [dev-createTimestamp.js]: the ledger append *)

Module Ledger.

Record Body := {
  employeeId : option string;
  timestampType : option string;
  wbsCode : option string;
  location : option string;
  deviceId : option string;
  ipAddress : option string;
  wbsChangeReason : option string
}.

Definition field (b : Body) (name : string) : option string :=
  if (name =? "employeeId")%string then employeeId b
  else if (name =? "timestampType")%string then timestampType b
  else if (name =? "wbsCode")%string then wbsCode b
  else if (name =? "location")%string then location b
  else if (name =? "deviceId")%string then deviceId b
  else if (name =? "ipAddress")%string then ipAddress b
  else if (name =? "wbsChangeReason")%string then wbsChangeReason b
  else None.

Record Request := { claims : option Auth.Claims; body : Body }.

Record Response := {
  statusCode : Z;
  message : string;
  r_timestamp : option Z
}.

(** A computation that may throw an [Error] with a message. *)
Definition throws (A : Type) : Type := (string + A)%type.
Definition throw {A : Type} (msg : string) : throws A := inl msg.
Definition ret {A : Type} (a : A) : throws A := inr a.
Definition bind {A B : Type} (c : throws A) (k : A -> throws B) : throws B :=
  match c with
  | inl msg => inl msg
  | inr a => k a
  end.

Notation "x <- c ;; k" := (bind c (fun x => k))
  (at level 61, c at next level, right associativity).
Notation "c ;;; k" := (bind c (fun _ => k))
  (at level 61, right associativity).

Definition generateHash (logEntry : Log.Item) : string :=
  let dataToHash :=
    Iso.toISOString (Log.timestamp logEntry) ++ Log.timestampType logEntry ++
    JS.number_to_string (Log.sequenceNumber logEntry) ++
    JS.or_empty (Log.wbsCode logEntry) in
  SHA256.digest_hex dataToHash.

Definition validateEmployee (personnel : Personnel.Table) (employeeId : string)
  : throws Personnel.PersonalData :=
  match Personnel.personalData personnel employeeId with
  | None => throw "Employee not found."
  | Some employee =>
      if negb (Personnel.status employee =? "ACTIVE")%string
      then throw "Employee is not active."
      else ret employee
  end.

Definition getLatestTimestamp (logTable : Log.Table) (employeeId : string)
  : option Log.Item :=
  hd_error (Log.queryLatest logTable ("EMP#" ++ employeeId)).

(** [lambda/utils/wbsValidationUtil.js]. *)
Definition validateWbsCodeForEmployee (personnel : Personnel.Table)
    (org : Org.Table) (wbsCode employeeId : string) : throws bool :=
  match Org.wbsMetadata org wbsCode with
  | None => throw ("The provided WBS code '" ++ wbsCode ++ "' does not exist.")
  | Some wbsData =>
      if negb (Org.isActive wbsData) then
        throw ("The provided WBS code '" ++ wbsCode ++ "' is not active.")
      else
        match Personnel.contractDetails personnel employeeId with
        | None =>
            throw ("Could not find contract details for employee '"
                   ++ employeeId ++ "'.")
        | Some contract =>
            if negb (JS.strict_eq (Some (Org.departmentId wbsData))
                                  (Personnel.department contract)) then
              throw ("You do not have permission to use WBS code '" ++ wbsCode
                     ++ "'. It is not assigned to your department.")
            else ret true
        end
  end.

(** [unmarshall(undefined)] throws in the SDK with this text. *)
Definition unmarshall_undefined : string := "No value defined: {}".

Definition resolveWbsCode (personnel : Personnel.Table) (org : Org.Table)
    (employeeId : string) : throws string :=
  match Personnel.contractDetails personnel employeeId with
  | None => throw unmarshall_undefined
  | Some contract =>
      match Personnel.department contract with
      | None => throw "Employee is not assigned to a department."
      | Some departmentId =>
          if (departmentId =? "")%string then
            throw "Employee is not assigned to a department."
          else
            match filter Org.isActive (Org.departmentIndex org departmentId) with
            | [] => throw "No active WBS code found for employee's department."
            | w :: _ => ret (Org.wbsCode w)
            end
      end
  end.

(** The table [validTransitions]; a type that is not one of its keys has no
    entry. (Names inherited from [Object.prototype] are never stored as a
    type by this handler and are left out of the model.) *)
Definition validTransitions (lastAction : string) : option (list string) :=
  if (lastAction =? "CLOCK_IN")%string then Some ["BREAK_START"; "WBS_CHANGE"; "CLOCK_OUT"]
  else if (lastAction =? "CLOCK_OUT")%string then Some ["CLOCK_IN"]
  else if (lastAction =? "BREAK_START")%string then Some ["BREAK_END"; "WBS_CHANGE"]
  else if (lastAction =? "BREAK_END")%string then Some ["BREAK_START"; "WBS_CHANGE"; "CLOCK_OUT"]
  else if (lastAction =? "WBS_CHANGE")%string then Some ["BREAK_START"; "WBS_CHANGE"; "CLOCK_OUT"]
  else None.

Definition transitionAllowed (lastAction timestampType : string) : bool :=
  match validTransitions lastAction with
  | None => false
  | Some next => JS.array_includes next timestampType
  end.

Definition InvalidTransition (timestampType lastAction : string) : string :=
  "Invalid action: Cannot perform '" ++ timestampType ++ "' after '"
  ++ lastAction ++ "'.".
Definition ExcessiveGap : string :=
  "Gap between timestamps cannot exceed 24 hours.".
Definition FirstEventMustBeClockIn : string :=
  "Invalid first action: The first timestamp for an employee must be a CLOCK_IN.".
Definition ConditionalCheckFailed : string := "The conditional request failed".

(** Step 3 of the handler: sequence number, previous timestamp and hash
    chain of the event to append after [latestLog]. *)
Definition chainFields (latestLog : option Log.Item) (timestampType : string)
    (timestamp : Z) : throws (Z * option Z * string) :=
  match latestLog with
  | Some latest =>
      let lastAction := Log.timestampType latest in
      if negb (transitionAllowed lastAction timestampType) then
        throw (InvalidTransition timestampType lastAction)
      else if timestamp - Log.timestamp latest >? 24 * 60 * 60 * 1000 then
        throw ExcessiveGap
      else
        ret (Log.sequenceNumber latest + 1,
             Some (Log.timestamp latest),
             generateHash latest)
  | None =>
      if negb (timestampType =? "CLOCK_IN")%string then
        throw FirstEventMustBeClockIn
      else ret (1, None, "GENESIS")
  end.

(** "WBS Code Validation Logic": the code the request goes on with. *)
Definition checkWbsCode (personnel : Personnel.Table) (org : Org.Table)
    (body : Body) (employeeId timestampType : string)
  : throws (option string) :=
  if JS.truthy (wbsCode body) then
    validateWbsCodeForEmployee personnel org (JS.or_empty (wbsCode body))
                               employeeId ;;;
    ret (wbsCode body)
  else if JS.array_includes ["CLOCK_IN"; "BREAK_END"] timestampType then
    resolved <- resolveWbsCode personnel org employeeId ;;
    ret (Some resolved)
  else ret (wbsCode body).

(** Steps 2 to 5 of the handler, inside its [try]: the value is the
    timestamp written and the table after the write. *)
Definition appendEvent (u : Utils.t) (personnel : Personnel.Table)
    (org : Org.Table) (logTable : Log.Table) (now : Z) (body : Body)
    (employeeId : string) : throws (Z * Log.Table) :=
  (* an absent type behaves in every test below as a string no table lists *)
  let timestampType :=
    match timestampType body with Some t => t | None => "undefined" end in
  validateEmployee personnel employeeId ;;;
  wbsCode <- checkWbsCode personnel org body employeeId timestampType ;;
  let timestamp := now in
  let latestLog := getLatestTimestamp logTable employeeId in
  chain <- chainFields latestLog timestampType timestamp ;;
  let '(sequenceNumber, previousTimestamp, hashChain) := chain in
  let latestWbs :=
    match latestLog with Some l => Log.wbsCode l | None => None end in
  let storedWbs := JS.or_else wbsCode latestWbs in
  let item :=
    {| Log.employeeId := employeeId;
       Log.timestampType := timestampType;
       Log.timestamp := timestamp;
       Log.previousTimestamp := previousTimestamp;
       Log.sequenceNumber := sequenceNumber;
       Log.wbsCode := if JS.truthy storedWbs then storedWbs else None;
       Log.location :=
         if JS.truthy (location body)
         then option_map (Utils.encrypt u) (location body) else None;
       Log.deviceId := deviceId body;
       Log.ipAddress := ipAddress body;
       Log.hashChain := hashChain;
       Log.previousWbsCode := None;
       Log.wbsChangeReason := None |} in
  item <-
    (if (timestampType =? "WBS_CHANGE")%string then
       if negb (JS.truthy (wbsChangeReason body)) then
         throw "wbsChangeReason is required for WBS_CHANGE timestamp type."
       else
         ret {| Log.employeeId := Log.employeeId item;
                Log.timestampType := Log.timestampType item;
                Log.timestamp := Log.timestamp item;
                Log.previousTimestamp := Log.previousTimestamp item;
                Log.sequenceNumber := Log.sequenceNumber item;
                Log.wbsCode := Log.wbsCode item;
                Log.location := Log.location item;
                Log.deviceId := Log.deviceId item;
                Log.ipAddress := Log.ipAddress item;
                Log.hashChain := Log.hashChain item;
                Log.previousWbsCode := latestWbs;
                Log.wbsChangeReason := wbsChangeReason body |}
     else ret item) ;;
  match Log.putIfAbsent logTable item with
  | None => throw ConditionalCheckFailed
  | Some logTable' => ret (timestamp, logTable')
  end.

Definition requiredFields : list string :=
  ["employeeId"; "timestampType"; "deviceId"; "ipAddress"].

(** [exports.handler], with the clock reading [now] of [new Date()] and the
    log table before the call; it answers with the response and the log table
    after the call. *)
Definition handler (u : Utils.t) (personnel : Personnel.Table)
    (org : Org.Table) (logTable : Log.Table) (now : Z) (event : Request)
  : Response * Log.Table :=
  if negb (Auth.isAuthorized (claims event) ["employee"]) then
    ({| statusCode := 403;
        message := "Forbidden: You do not have permission to perform this action.";
        r_timestamp := None |}, logTable)
  else
    let validationResult :=
      Utils.validateBody u (field (body event)) requiredFields in
    if negb (Utils.isValid validationResult) then
      ({| statusCode := 400;
          message := Utils.message validationResult;
          r_timestamp := None |}, logTable)
    else
      let requestingEmployeeId := Auth.getRequestingUser (claims event) in
      let forbidden :=
        ({| statusCode := 403;
            message := "Forbidden: You can only submit logs for your own account.";
            r_timestamp := None |}, logTable) in
      match employeeId (body event) with
      | None => forbidden
      | Some id =>
          if negb (JS.strict_eq requestingEmployeeId (Some id)) then forbidden
          else
            match appendEvent u personnel org logTable now (body event) id with
            | inl err =>
                ({| statusCode := 400;
                    message := if (err =? "")%string then "An error occurred." else err;
                    r_timestamp := None |}, logTable)
            | inr (timestamp, logTable') =>
                ({| statusCode := 201;
                    message := "Timestamp recorded successfully.";
                    r_timestamp := Some timestamp |}, logTable')
            end
      end.

(** The request gets through step 1 of the handler, for this employee. *)
Definition passesChecks (u : Utils.t) (event : Request) (id : string) : Prop :=
  Auth.isAuthorized (claims event) ["employee"] = true
  /\ Utils.isValid (Utils.validateBody u (field (body event)) requiredFields) = true
  /\ employeeId (body event) = Some id
  /\ Auth.getRequestingUser (claims event) = Some id.

(** A call of the handler: the tables it reads, its clock reading and the
    request. *)
Record Call := {
  c_personnel : Personnel.Table;
  c_org : Org.Table;
  c_now : Z;
  c_event : Request
}.

(** The log table after a history of calls, one after the other. *)
Definition run (u : Utils.t) (calls : list Call) (logTable : Log.Table)
  : Log.Table :=
  fold_left
    (fun tbl c => snd (handler u (c_personnel c) (c_org c) tbl (c_now c) (c_event c)))
    calls logTable.

(** The events a history writes, in the order of the calls. *)
Fixpoint accepted (u : Utils.t) (calls : list Call) (logTable : Log.Table)
  : list Log.Item :=
  match calls with
  | [] => []
  | c :: rest =>
      let answer :=
        handler u (c_personnel c) (c_org c) logTable (c_now c) (c_event c) in
      ((if statusCode (fst answer) =? 201 then firstn 1 (snd answer) else [])
       ++ accepted u rest (snd answer))%list
  end.


End Ledger.

(* ------------------------------------------------------------------ *)
(** ** [dev-validateTimestamps.js]: the chain integrity auditor *)

Module Auditor.

Definition generateHash (logEntry : Log.Item) : string :=
  let dataToHash :=
    Iso.toISOString (Log.timestamp logEntry) ++ Log.timestampType logEntry ++
    JS.number_to_string (Log.sequenceNumber logEntry) ++
    JS.or_empty (Log.wbsCode logEntry) in
  SHA256.digest_hex dataToHash.

(** The per-entry object [logValidation]. *)
Record LogValidation := {
  v_timestamp : Z;
  v_sequenceNumber : Z;
  v_timestampType : string;
  errors : list string
}.

(** What [errorDetails.state] holds: entries of the log and the two
    [{ timestamp: 'final', errors }] objects. *)
Inductive StateEntry :=
| OfLog (v : LogValidation)
| Final (errs : list string).

Record BreakEntry := { date : string; error : string }.

Record ErrorDetails := {
  sequence : list LogValidation;
  chronological : list LogValidation;
  hash : list LogValidation;
  state : list StateEntry;
  breaks : list BreakEntry
}.

(** [arr.push(x)] when [c] holds. *)
Definition push_if {A : Type} (c : bool) (x : A) (arr : list A) : list A :=
  if c then arr ++ [x] else arr.

Definition some_includes (errs : list string) (word : string) : bool :=
  existsb (fun e => JS.includes e word) errs.

(** The sequence, chronological and hash checks of one entry at index [i]. *)
Definition chainErrors (i : Z) (previous : option Log.Item)
    (current : Log.Item) : list string :=
  let e0 := [] in
  let e1 :=
    push_if (negb (Log.sequenceNumber current =? i + 1))
            ("Expected sequence " ++ JS.number_to_string (i + 1) ++ ".") e0 in
  let e2 :=
    match previous with
    | Some p =>
        push_if (Log.timestamp current <=? Log.timestamp p) "Not chronological." e1
    | None => e1
    end in
  match previous with
  | Some p =>
      push_if (negb (Log.hashChain current =? generateHash p)%string)
              "Hash mismatch." e2
  | None =>
      push_if (negb (Log.hashChain current =? "GENESIS")%string)
              "First hash should be GENESIS." e2
  end.

(** The state check of one entry: the errors it adds and the flags
    [(clockedIn, onBreak)] after it. *)
Definition stateStep (flags : bool * bool) (timestampType : string)
    (errs : list string) : list string * (bool * bool) :=
  let '(clockedIn, onBreak) := flags in
  if (timestampType =? "CLOCK_IN")%string then
    (push_if clockedIn "Cannot CLOCK_IN while already clocked in." errs,
     (true, false))
  else if (timestampType =? "CLOCK_OUT")%string then
    (push_if onBreak "Cannot CLOCK_OUT while on break."
       (push_if (negb clockedIn) "Cannot CLOCK_OUT if not clocked in." errs),
     (false, false))
  else if (timestampType =? "BREAK_START")%string then
    (push_if (negb clockedIn || onBreak) "Invalid state for BREAK_START." errs,
     (clockedIn, true))
  else if (timestampType =? "BREAK_END")%string then
    (push_if (negb onBreak) "Cannot END_BREAK if not on break." errs,
     (clockedIn, false))
  else (errs, flags).

(** Filing one entry under the classes whose words its errors contain. *)
Definition classify (logValidation : LogValidation) (d : ErrorDetails)
  : ErrorDetails :=
  let errs := errors logValidation in
  if (0 <? Z.of_nat (List.length errs)) then
    {| sequence :=
         push_if (some_includes errs "sequence") logValidation (sequence d);
       chronological :=
         push_if (some_includes errs "chronological") logValidation
                 (chronological d);
       hash := push_if (some_includes errs "Hash") logValidation (hash d);
       state :=
         push_if (some_includes errs "Cannot" || some_includes errs "Invalid state")
                 (OfLog logValidation) (state d);
       breaks := breaks d |}
  else d.

Record LoopState := {
  validationResults : list LogValidation;
  errorDetails : ErrorDetails;
  flags : bool * bool          (* clockedIn, onBreak *)
}.

(** The body of the [for] loop at index [i]. *)
Definition loopBody (i : Z) (previous : option Log.Item) (current : Log.Item)
    (st : LoopState) : LoopState :=
  let '(errs, flags') :=
    stateStep (flags st) (Log.timestampType current)
              (chainErrors i previous current) in
  let logValidation :=
    {| v_timestamp := Log.timestamp current;
       v_sequenceNumber := Log.sequenceNumber current;
       v_timestampType := Log.timestampType current;
       errors := errs |} in
  {| validationResults := validationResults st ++ [logValidation];
     errorDetails := classify logValidation (errorDetails st);
     flags := flags' |}.

Fixpoint loop (i : Z) (previous : option Log.Item) (logs : list Log.Item)
    (st : LoopState) : LoopState :=
  match logs with
  | [] => st
  | current :: rest =>
      loop (i + 1) (Some current) rest (loopBody i previous current st)
  end.

Definition finalState (st : LoopState) : ErrorDetails :=
  let d := errorDetails st in
  let '(clockedIn, onBreak) := flags st in
  {| sequence := sequence d;
     chronological := chronological d;
     hash := hash d;
     state :=
       push_if onBreak (Final ["Final State Error: Employee is still on break."])
         (push_if clockedIn
            (Final ["Final State Error: Employee is still clocked in."])
            (state d));
     breaks := breaks d |}.

(** [breaksByDate]: an object keyed by date text, in insertion order, the
    minutes being numbers. *)
Definition BreaksByDate := list (string * Num.t).

Fixpoint lookup (k : string) (m : BreaksByDate) : option Num.t :=
  match m with
  | [] => None
  | (k', v) :: rest => if (k' =? k)%string then Some v else lookup k rest
  end.

Fixpoint update (k : string) (f : Num.t -> Num.t) (m : BreaksByDate)
  : BreaksByDate :=
  match m with
  | [] => []
  | (k', v) :: rest =>
      if (k' =? k)%string then (k', f v) :: rest else (k', v) :: update k f rest
  end.


(** [if (!breaksByDate[dateOnly]) breaksByDate[dateOnly] = 0]. *)
Definition ensure (k : string) (m : BreaksByDate) : BreaksByDate :=
  match lookup k m with
  | None => (m ++ [(k, 0)])%list
  | Some v => if v =? 0 then update k (fun _ => 0) m else m
  end.

Fixpoint breakLoop (logs : list Log.Item) (currentBreakStart : option Z)
    (breaksByDate : BreaksByDate) : BreaksByDate :=
  match logs with
  | [] => breaksByDate
  | log :: rest =>
      let dateOnly := Iso.dateOnly (Log.timestamp log) in
      let breaksByDate := ensure dateOnly breaksByDate in
      if (Log.timestampType log =? "BREAK_START")%string then
        breakLoop rest (Some (Log.timestamp log)) breaksByDate
      else
        match currentBreakStart with
        | Some start =>
            if (Log.timestampType log =? "BREAK_END")%string then
              let durationMinutes :=
                Num.div (Num.of_Z (Log.timestamp log - start))
                        (Num.of_Z 60000) in
              breakLoop rest None
                (update dateOnly (fun v => Num.add v durationMinutes)
                        breaksByDate)
            else breakLoop rest currentBreakStart breaksByDate
        | None => breakLoop rest currentBreakStart breaksByDate
        end
  end.

(** 4 hours = 240 minutes. *)
Definition breakLimit : Num.t := Num.of_Z 240.

Definition breakErrors (breaksByDate : BreaksByDate) : list BreakEntry :=
  flat_map
    (fun '(d, totalMinutes) =>
       if Num.gtb totalMinutes breakLimit then
         [{| date := d;
             error := "Total break duration of "
                      ++ Num.toFixed_text 0 totalMinutes
                      ++ " minutes exceeds 4-hour limit." |}]
       else [])
    breaksByDate.

Definition initial : LoopState :=
  {| validationResults := [];
     errorDetails :=
       {| sequence := []; chronological := []; hash := []; state := [];
          breaks := [] |};
     flags := (false, false) |}.

(** Step 3 of the handler on the fetched logs. *)
Definition validate (timestampLogs : list Log.Item)
  : ErrorDetails * list LogValidation :=
  let st := loop 0 None timestampLogs initial in
  let d := finalState st in
  ({| sequence := sequence d;
      chronological := chronological d;
      hash := hash d;
      state := state d;
      breaks := (breaks d ++ breakErrors (breakLoop timestampLogs None []))%list |},
   validationResults st).

Definition overallValid (d : ErrorDetails) : bool :=
  (List.length (sequence d) =? 0)%nat && (List.length (chronological d) =? 0)%nat
  && (List.length (hash d) =? 0)%nat && (List.length (state d) =? 0)%nat
  && (List.length (breaks d) =? 0)%nat.

Record Summary := {
  totalLogs : Z;
  sequenceErrors : Z;
  chronologicalErrors : Z;
  hashChainErrors : Z;
  stateErrors : Z;
  breakValidationErrors : Z
}.

Record Report := {
  r_employeeId : string;
  validationStatus : string;
  summary : Summary;
  r_errorDetails : ErrorDetails;
  r_validationResults : list LogValidation;
  validatedAt : Z;
  validatedBy : option string
}.

Definition report (employeeId : string) (timestampLogs : list Log.Item)
    (now : Z) (validatedBy : option string) : Report :=
  let '(d, results) := validate timestampLogs in
  let count {A : Type} (l : list A) := Z.of_nat (List.length l) in
  {| r_employeeId := employeeId;
     validationStatus := if overallValid d then "VALID" else "INVALID";
     summary :=
       {| totalLogs := count timestampLogs;
          sequenceErrors := count (sequence d);
          chronologicalErrors := count (chronological d);
          hashChainErrors := count (hash d);
          stateErrors := count (state d);
          breakValidationErrors := count (breaks d) |};
     r_errorDetails := d;
     r_validationResults := results;
     validatedAt := now;
     validatedBy := validatedBy |}.

Record Request := {
  claims : option Auth.Claims;
  employeeId : option string          (* event.pathParameters.employeeId *)
}.

Inductive Body :=
| Message (message : string)
| NoLogs (validationStatus message : string)
| Validated (r : Report).

Record Response := { statusCode : Z; body : Body }.

Definition fetchAllTimestampLogs (logTable : Log.Table) (employeeId : string)
  : list Log.Item :=
  Log.queryPartition logTable ("EMP#" ++ employeeId).

Definition handler (personnel : Personnel.Table) (logTable : Log.Table)
    (now : Z) (event : Request) : Response :=
  if negb (Auth.isAuthorized (claims event) ["hr_admin"; "manager_admin"]) then
    {| statusCode := 403;
       body := Message "Forbidden: You do not have permission to perform this action." |}
  else if negb (JS.truthy (employeeId event)) then
    {| statusCode := 400;
       body := Message "employeeId is required in path parameters." |}
  else
    let id := JS.or_empty (employeeId event) in
    match Personnel.personalData personnel id with
    | None => {| statusCode := 404; body := Message "Employee not found." |}
    | Some _ =>
        let timestampLogs := fetchAllTimestampLogs logTable id in
        if (List.length timestampLogs =? 0)%nat then
          {| statusCode := 200; body := NoLogs "VALID" "No logs to validate." |}
        else
          {| statusCode := 200;
             body := Validated
               (report id timestampLogs now
                       (Auth.getRequestingUser (claims event))) |}
    end.

End Auditor.

(* ------------------------------------------------------------------ *)
(** ** [dev-createAttendanceRecord.js]: the attendance aggregator *)

Module Attendance.

(** [parseFloat(x.toFixed(2))]. *)
Definition hours2 (x : Num.t) : Num.t := Hours.toFixed 2 x.

Record Details := {
  checkInTime : Z;
  checkOutTime : Z;
  totalHours : Num.t;
  regularHours : Num.t;
  overtimeHours : Num.t;
  breaks : Z;
  wbsCode : option string;
  location : option string;
  costCenter : option string
}.

(** An attendance item of the time-management table. *)
Record Record_ := {
  attendanceId : string;
  employeeId : string;
  attendanceDate : string;
  details : Details;
  workMode : option string;
  projectCode : option string;
  taskCategory : option string;
  notes : option string;
  createdBy : option string;
  createdAt : Z
}.

(** What [validateLeaveConflict] reads of a leave request item. *)
Record Leave := {
  l_employeeId : string;
  approvalStatus : string;
  startDate : string;
  endDate : string
}.

Inductive Item :=
| AttendanceItem (a : Record_)
| LeaveItem (l : Leave).

Definition Table := list Item.

Definition PK (it : Item) : option string :=
  match it with
  | AttendanceItem a => Some ("TIME#ATT#" ++ attendanceId a)
  | LeaveItem _ => None       (* TIME#LEAVE#requestId, not compared here *)
  end.
Definition GSI1PK (it : Item) : string :=
  match it with
  | AttendanceItem a => "EMP#" ++ employeeId a
  | LeaveItem l => "EMP#" ++ l_employeeId l
  end.
Definition GSI4PK (it : Item) : option string :=
  match it with
  | AttendanceItem a => Some ("ATT#" ++ employeeId a)
  | LeaveItem _ => None
  end.
Definition GSI4SK (it : Item) : option string :=
  match it with
  | AttendanceItem a => Some ("DATE#" ++ attendanceDate a)
  | LeaveItem _ => None
  end.

Definition throws := Ledger.throws.
Definition throw {A : Type} (msg : string) : throws A := inl msg.
Definition ret {A : Type} (a : A) : throws A := inr a.
Notation "x <- c ;; k" := (Ledger.bind c (fun x => k))
  (at level 61, c at next level, right associativity).
Notation "c ;;; k" := (Ledger.bind c (fun _ => k))
  (at level 61, right associativity).

Definition IncompleteDay : string :=
  "Insufficient logs: A full workday must have at least a CLOCK_IN and CLOCK_OUT.".
Definition MissingClockBoundary : string :=
  "A valid CLOCK_IN and CLOCK_OUT event must exist for the specified date.".
Definition ExcessiveWorkDuration : string :=
  "Work duration cannot exceed 12 hours.".
Definition ExcessiveBreakDuration : string :=
  "A break duration cannot exceed the 30 minute maximum.".
Definition LeaveConflict (attendanceDate : string) : string :=
  "Conflict: An approved leave request exists for this date ("
  ++ attendanceDate ++ ").".
Definition Conflict (attendanceDate : string) : string :=
  "An attendance record for this date (" ++ attendanceDate ++ ") already exists.".

(** The logs of one employee on one [YYYY-MM-DD] date, through [GSI1]. *)
Definition getLogsForDate (logTable : Log.Table) (employeeId date : string)
  : throws (list Log.Item) :=
  let Items :=
    filter (fun it => (Log.GSI1PK it =? "DATE#" ++ date)%string
                      && (Log.employeeId it =? employeeId)%string) logTable in
  if (List.length Items <? 2)%nat then throw IncompleteDay
  else ret (Log.sort_by_SK Items).

Definition validateLeaveConflict (u : Utils.t) (timeTable : Table)
    (employeeId attendanceDate : string) : throws unit :=
  let approvedLeaves :=
    flat_map (fun it =>
                match it with
                | LeaveItem l =>
                    if (GSI1PK it =? "EMP#" ++ employeeId)%string
                       && (approvalStatus l =? "Approved")%string
                    then [l] else []
                | AttendanceItem _ => []     (* no approvalStatus attribute *)
                end) timeTable in
  let isConflict :=
    existsb (fun leave =>
               match Utils.dateOf u attendanceDate,
                     Utils.dateOf u (startDate leave),
                     Utils.dateOf u (endDate leave) with
               | Some attDate, Some leaveStart, Some leaveEnd =>
                   (attDate >=? leaveStart) && (attDate <=? leaveEnd)
               | _, _, _ => false
               end) approvedLeaves in
  if isConflict then throw (LeaveConflict attendanceDate) else ret tt.

(** The loop over the day's logs that sums the breaks. *)
Fixpoint breakTotal (logs : list Log.Item) (currentBreakStart : option Z)
    (totalBreakMs : Z) : throws Z :=
  match logs with
  | [] => ret totalBreakMs
  | log :: rest =>
      if (Log.timestampType log =? "BREAK_START")%string then
        breakTotal rest (Some (Log.timestamp log)) totalBreakMs
      else
        match currentBreakStart with
        | Some start =>
            if (Log.timestampType log =? "BREAK_END")%string then
              let duration := Log.timestamp log - start in
              if duration >? 30 * 60 * 1000 then throw ExcessiveBreakDuration
              else breakTotal rest None (totalBreakMs + duration)
            else breakTotal rest currentBreakStart totalBreakMs
        | None => breakTotal rest currentBreakStart totalBreakMs
        end
  end.

Definition isType (t : string) (l : Log.Item) : bool :=
  (Log.timestampType l =? t)%string.

Definition processTimestampLogs (org : Org.Table) (logs : list Log.Item)
  : throws Details :=
  match find (isType "CLOCK_IN") logs, find (isType "CLOCK_OUT") logs with
  | Some clockIn, Some clockOut =>
      let totalDurationMs := Log.timestamp clockOut - Log.timestamp clockIn in
      if totalDurationMs >? 12 * 60 * 60 * 1000 then throw ExcessiveWorkDuration
      else
        totalBreakMs <- breakTotal logs None 0 ;;
        let totalWorkMs := totalDurationMs - totalBreakMs in
        let totalHours := Hours.of_ms totalWorkMs in
        let regularHours := Num.min totalHours (Hours.of_int 8) in
        let overtimeHours :=
          Num.max 0 (Num.sub totalHours (Hours.of_int 8)) in
        let wbsCode := Log.wbsCode clockIn in
        let costCenter :=
          if JS.truthy wbsCode then
            match Org.wbsMetadata org (JS.or_empty wbsCode) with
            | Some wbsItem => Org.costCenter wbsItem
            | None => None
            end
          else None in
        ret {| checkInTime := Log.timestamp clockIn;
               checkOutTime := Log.timestamp clockOut;
               totalHours := hours2 totalHours;
               regularHours := hours2 regularHours;
               overtimeHours := hours2 overtimeHours;
               breaks := Z.of_nat (List.length (filter (isType "BREAK_START") logs));
               wbsCode := wbsCode;
               location := Log.location clockIn;
               costCenter := costCenter |}
  | _, _ => throw MissingClockBoundary
  end.

Record Body := {
  b_employeeId : option string;
  b_attendanceDate : option string;
  b_workMode : option string;
  b_projectCode : option string;
  b_taskCategory : option string;
  b_notes : option string
}.

Definition field (b : Body) (name : string) : option string :=
  if (name =? "employeeId")%string then b_employeeId b
  else if (name =? "attendanceDate")%string then b_attendanceDate b
  else if (name =? "workMode")%string then b_workMode b
  else if (name =? "projectCode")%string then b_projectCode b
  else if (name =? "taskCategory")%string then b_taskCategory b
  else if (name =? "notes")%string then b_notes b
  else None.

Record Request := { claims : option Auth.Claims; body : Body }.

Record Response := {
  statusCode : Z;
  message : string;
  r_attendanceId : option string;
  r_error : option string
}.

(** The [GSI4-AttendanceDateIndex] query of the duplicate pre-check. *)
Definition existingAttendance (timeTable : Table)
    (employeeId attendanceDate : string) : list Item :=
  filter (fun it =>
            JS.strict_eq (GSI4PK it) (Some ("ATT#" ++ employeeId))
            && JS.strict_eq (GSI4SK it) (Some ("DATE#" ++ attendanceDate)))
         timeTable.

(** [PutItem] under ['attribute_not_exists(PK)']: refused when an item is
    stored under the item's own primary key ([TIME#ATT#attendanceId],
    [METADATA]). *)
Definition putIfAbsent (timeTable : Table) (it : Item) : option Table :=
  if existsb (fun x => JS.strict_eq (PK x) (PK it)) timeTable then None
  else Some (it :: timeTable).

Definition ConditionalCheckFailed : string := "The conditional request failed".

(** Steps 2 to 4 of the handler, inside its [try]; [uuid] is the value of
    [uuidv4()] and [now] the clock reading. *)
Definition createRecord (u : Utils.t) (org : Org.Table) (logTable : Log.Table)
    (timeTable : Table) (uuid : string) (now : Z) (b : Body)
    (requestingEmployeeId : option string) (employeeId attendanceDate : string)
  : throws (string * Table) :=
  (if (0 <? List.length (existingAttendance timeTable employeeId attendanceDate))%nat
   then throw (Conflict attendanceDate) else ret tt) ;;;
  validateLeaveConflict u timeTable employeeId attendanceDate ;;;
  logsForDay <- getLogsForDate logTable employeeId attendanceDate ;;
  attendanceDetails <- processTimestampLogs org logsForDay ;;
  let attendanceId := uuid in
  let attendanceItem :=
    AttendanceItem
      {| attendanceId := attendanceId;
         employeeId := employeeId;
         attendanceDate := attendanceDate;
         details := attendanceDetails;
         workMode := b_workMode b;
         projectCode := b_projectCode b;
         taskCategory := b_taskCategory b;
         notes :=
           if JS.truthy (b_notes b)
           then option_map (Utils.encrypt u) (b_notes b) else None;
         createdBy := requestingEmployeeId;
         createdAt := now |} in
  match putIfAbsent timeTable attendanceItem with
  | None => throw ConditionalCheckFailed
  | Some timeTable' => ret (attendanceId, timeTable')
  end.

Definition requiredFields : list string :=
  ["employeeId"; "attendanceDate"; "workMode"].

(** [exports.handler]: the response and the time-management table after the
    call. *)
Definition handler (u : Utils.t) (org : Org.Table) (logTable : Log.Table)
    (timeTable : Table) (uuid : string) (now : Z) (event : Request)
  : Response * Table :=
  let answer code msg :=
    ({| statusCode := code; message := msg; r_attendanceId := None;
        r_error := None |}, timeTable) in
  if negb (Auth.isAuthorized (claims event) ["employee"]) then
    answer 403 "Forbidden: You do not have permission to access this resource."
  else
    let validationResult :=
      Utils.validateBody u (field (body event)) requiredFields in
    if negb (Utils.isValid validationResult) then
      answer 400 (Utils.message validationResult)
    else
      match b_employeeId (body event), b_attendanceDate (body event) with
      | Some employeeId, Some attendanceDate =>
          if (employeeId =? "")%string || (attendanceDate =? "")%string then
            answer 400 "employeeId and attendanceDate are required."
          else
            let requestingEmployeeId := Auth.getRequestingUser (claims event) in
            if negb (JS.strict_eq requestingEmployeeId (Some employeeId)) then
              answer 403 "Forbidden: You can only create attendance records for yourself."
            else
              match createRecord u org logTable timeTable uuid now (body event)
                                 requestingEmployeeId employeeId attendanceDate with
              | inl err =>
                  ({| statusCode := 400;
                      message := "Failed to create attendance record.";
                      r_attendanceId := None;
                      r_error := Some err |}, timeTable)
              | inr (attendanceId, timeTable') =>
                  ({| statusCode := 201;
                      message := "Attendance record created successfully.";
                      r_attendanceId := Some attendanceId;
                      r_error := None |}, timeTable')
              end
      | _, _ => answer 400 "employeeId and attendanceDate are required."
      end.

(** The request gets through step 1 of the handler, for this employee and
    date. *)
Definition passesChecks (u : Utils.t) (event : Request)
    (employeeId attendanceDate : string) : Prop :=
  Auth.isAuthorized (claims event) ["employee"] = true
  /\ Utils.isValid (Utils.validateBody u (field (body event)) requiredFields) = true
  /\ b_employeeId (body event) = Some employeeId
  /\ b_attendanceDate (body event) = Some attendanceDate
  /\ employeeId <> "" /\ attendanceDate <> ""
  /\ Auth.getRequestingUser (claims event) = Some employeeId.

End Attendance.

(* ------------------------------------------------------------------ *)
(** ** [dev-generateTimesheet.js]: the timesheet aggregator *)

Module Timesheet.

(** [KeyConditionExpression: 'PK = :pk AND SK BETWEEN :start AND :end'],
    every page collected by the [do ... while] loop. The store compares the
    sort key with the two bounds as text, byte by byte. *)
Definition between (startDate endDate sk : string) : bool :=
  String.leb startDate sk && String.leb sk endDate.

Definition fetchAllLogsForRange (logTable : Log.Table)
    (employeeId startDate endDate : string) : list Log.Item :=
  filter (fun it => between startDate endDate (Log.SK it))
         (Log.queryPartition logTable ("EMP#" ++ employeeId)).

Record Segment := {
  startTime : Z;
  wbsCode : option string;
  endTime : option Z;
  seg_totalHours : Num.t
}.

Record Day := {
  totalHours : Num.t;
  allocations : list Segment;
  dailyRegularHours : Num.t;       (* set by the pass over the days *)
  dailyOvertimeHours : Num.t
}.

(** [dailyHours]: an object keyed by date text, in insertion order. *)
Definition DailyHours := list (string * Day).

Fixpoint has (k : string) (m : DailyHours) : bool :=
  match m with
  | [] => false
  | (k', _) :: rest => (k' =? k)%string || has k rest
  end.

Fixpoint update (k : string) (f : Day -> Day) (m : DailyHours) : DailyHours :=
  match m with
  | [] => []
  | (k', v) :: rest =>
      if (k' =? k)%string then (k', f v) :: rest else (k', v) :: update k f rest
  end.

Definition emptyDay : Day :=
  {| totalHours := 0; allocations := []; dailyRegularHours := 0;
     dailyOvertimeHours := 0 |}.

Definition ensure (k : string) (m : DailyHours) : DailyHours :=
  if has k m then m else (m ++ [(k, emptyDay)])%list.

Definition pushAllocation (seg : Segment) (d : Day) : Day :=
  {| totalHours := totalHours d;
     allocations := allocations d ++ [seg];
     dailyRegularHours := dailyRegularHours d;
     dailyOvertimeHours := dailyOvertimeHours d |}.

Definition subtractBreak (breakDuration : Num.t) (d : Day) : Day :=
  {| totalHours := Num.sub (totalHours d) breakDuration;
     allocations := allocations d;
     dailyRegularHours := dailyRegularHours d;
     dailyOvertimeHours := dailyOvertimeHours d |}.

Definition closes (t : string) : bool :=
  (t =? "WBS_CHANGE")%string || (t =? "CLOCK_OUT")%string
  || (t =? "BREAK_START")%string.

Definition opens (t : string) : bool :=
  (t =? "CLOCK_IN")%string || (t =? "WBS_CHANGE")%string
  || (t =? "BREAK_END")%string.

(** The [for (const log of logs)] loop. *)
Fixpoint segmentLoop (logs : list Log.Item) (currentSegment : option Segment)
    (currentBreak : option Z) (dailyHours : DailyHours) : DailyHours :=
  match logs with
  | [] => dailyHours
  | log :: rest =>
      let eventTime := Log.timestamp log in
      let eventDate := Iso.dateOnly eventTime in
      let type := Log.timestampType log in
      let dailyHours := ensure eventDate dailyHours in
      let '(currentSegment, dailyHours) :=
        match currentSegment with
        | Some seg =>
            if closes type then
              let duration := Hours.of_ms (eventTime - startTime seg) in
              let closed :=
                {| startTime := startTime seg;
                   wbsCode := wbsCode seg;
                   endTime := Some eventTime;
                   seg_totalHours := Hours.toFixed 3 duration |} in
              (None, update eventDate (pushAllocation closed) dailyHours)
            else (currentSegment, dailyHours)
        | None => (currentSegment, dailyHours)
        end in
      let currentSegment :=
        if opens type then
          Some {| startTime := eventTime;
                  wbsCode := Log.wbsCode log;
                  endTime := None;
                  seg_totalHours := 0 |}
        else currentSegment in
      if (type =? "BREAK_START")%string then
        segmentLoop rest currentSegment (Some eventTime) dailyHours
      else
        match currentBreak with
        | Some start =>
            if (type =? "BREAK_END")%string then
              let breakDuration := Hours.of_ms (eventTime - start) in
              segmentLoop rest currentSegment None
                (update eventDate (subtractBreak breakDuration) dailyHours)
            else segmentLoop rest currentSegment currentBreak dailyHours
        | None => segmentLoop rest currentSegment currentBreak dailyHours
        end
  end.

(** [l.reduce((acc, x) => acc + f(x), 0)]. *)
Definition sumHours {A : Type} (f : A -> Num.t) (l : list A) : Num.t :=
  fold_left (fun acc x => Num.add acc (f x)) l 0.

(** "Process daily totals and overtime". *)
Definition dailyTotals (day : Day) : Day :=
  let total := sumHours seg_totalHours (allocations day) in
  {| totalHours := total;
     allocations := allocations day;
     dailyRegularHours := Num.min total (Hours.of_int 8);
     dailyOvertimeHours := Num.max 0 (Num.sub total (Hours.of_int 8)) |}.

Record WeeklySummary := {
  w_totalHours : Num.t;
  regularHours : Num.t;
  overtimeHours : Num.t
}.

Definition weekly (days : list Day) : WeeklySummary :=
  let totalHours := sumHours totalHours days in
  let regularHours := sumHours dailyRegularHours days in
  let weeklyOvertime :=
    Num.max 0 (Num.sub regularHours (Hours.of_int 40)) in
  let regularHours := Num.sub regularHours weeklyOvertime in
  let dailyOvertimeTotal := sumHours dailyOvertimeHours days in
  let overtimeHours := Num.add weeklyOvertime dailyOvertimeTotal in
  {| w_totalHours := Hours.toFixed 2 totalHours;
     regularHours := Hours.toFixed 2 regularHours;
     overtimeHours := Hours.toFixed 2 overtimeHours |}.

Definition calculatePayrollDetails (logs : list Log.Item)
  : DailyHours * WeeklySummary :=
  let logs := Log.sort_by_SK logs in
  let dailyHours := segmentLoop logs None None [] in
  let dailyHours := map (fun '(k, day) => (k, dailyTotals day)) dailyHours in
  (dailyHours, weekly (map snd dailyHours)).

Definition quote : string := String (ascii_of_nat 34) EmptyString.
Definition newline : string := String (ascii_of_nat 10) EmptyString.

(** A row of the export; reading [endTime] of a segment that was never
    closed is the engine's [TypeError]. *)
Definition csvRow (date : string) (alloc : Segment) : Ledger.throws string :=
  match endTime alloc with
  | None => inl "Cannot read properties of null (reading 'toISOString')"
  | Some e =>
      inr (String.concat ","
             [ date;
               quote ++ match wbsCode alloc with Some c => c | None => "null" end
                     ++ quote;
               quote ++ Iso.toISOString (startTime alloc) ++ quote;
               quote ++ Iso.toISOString e ++ quote;
               Hours.toFixed2_text (seg_totalHours alloc) ])
  end.

Fixpoint csvRows (rows : list (string * Segment)) : Ledger.throws (list string) :=
  match rows with
  | [] => inr []
  | (date, alloc) :: rest =>
      Ledger.bind (csvRow date alloc) (fun r =>
      Ledger.bind (csvRows rest) (fun rs => inr (r :: rs)))
  end.

Definition generateCsv (data : DailyHours) : Ledger.throws string :=
  let rows :=
    flat_map (fun '(date, dayData) =>
                map (fun alloc => (date, alloc)) (allocations dayData)) data in
  Ledger.bind (csvRows rows) (fun rs =>
  inr (String.concat newline ("date,wbsCode,startTime,endTime,totalHours" :: rs))).

Record Request := {
  claims : option Auth.Claims;
  employeeId : option string;          (* event.pathParameters.employeeId *)
  startDate : option string;           (* event.queryStringParameters *)
  endDate : option string;
  format : option string
}.

Inductive Body :=
| Message (message : string)
| Failure (message error : string)
| Csv (text : string)
| Json (employeeId startDate endDate : string) (weeklySummary : WeeklySummary)
       (dailyBreakdown : DailyHours).

Record Response := { statusCode : Z; body : Body }.

Definition NoLogsInRange : string :=
  "No timestamp logs found for the specified date range.".

Definition handler (personnel : Personnel.Table) (logTable : Log.Table)
    (event : Request) : Response :=
  let format := match format event with Some f => f | None => "json" end in
  if negb (Auth.isAuthorized (claims event) ["hr_admin"; "manager_admin"; "employee"]) then
    {| statusCode := 403;
       body := Message "Forbidden: You do not have permission to generate this report." |}
  else if negb (JS.truthy (employeeId event)) || negb (JS.truthy (startDate event))
          || negb (JS.truthy (endDate event)) then
    {| statusCode := 400;
       body := Message "employeeId, startDate, and endDate are required query parameters." |}
  else
    let id := JS.or_empty (employeeId event) in
    let startDate := JS.or_empty (startDate event) in
    let endDate := JS.or_empty (endDate event) in
    let userRole := Auth.getUserRole (claims event) in
    let requestingEmployeeId := Auth.getRequestingUser (claims event) in
    if JS.strict_eq userRole (Some "employee")
       && negb (JS.strict_eq requestingEmployeeId (Some id)) then
      {| statusCode := 403;
         body := Message "Forbidden: You can only generate your own timesheet." |}
    else
      match Personnel.personalData personnel id with
      | None => {| statusCode := 404; body := Message "Employee not found." |}
      | Some _ =>
          let allLogs := fetchAllLogsForRange logTable id startDate endDate in
          if (List.length allLogs =? 0)%nat then
            {| statusCode := 404; body := Message NoLogsInRange |}
          else
            let '(dailyBreakdown, weeklySummary) := calculatePayrollDetails allLogs in
            if (JS.toLowerCase format =? "csv")%string then
              match generateCsv dailyBreakdown with
              | inr text => {| statusCode := 200; body := Csv text |}
              | inl err =>
                  {| statusCode := 500;
                     body := Failure "Internal Server Error." err |}
              end
            else
              {| statusCode := 200;
                 body := Json id startDate endDate weeklySummary dailyBreakdown |}
      end.

End Timesheet.

(* ------------------------------------------------------------------ *)
(** ** [dev-getTimestampSequence.js] *)

Module Sequence.

Record Request := {
  claims : option Auth.Claims;
  employeeId : option string          (* event.pathParameters.employeeId *)
}.

Record Latest := {
  r_employeeId : string;
  latestSequenceNumber : Z;
  latestTimestamp : option Z;
  latestTimestampType : option string;
  r_hashChain : option string
}.

Inductive Body :=
| Message (message : string)
| Result (r : Latest).

Record Response := { statusCode : Z; body : Body }.

Definition handler (personnel : Personnel.Table) (logTable : Log.Table)
    (event : Request) : Response :=
  let allowedRoles := ["employee"; "hr_admin"; "manager_admin"] in
  if negb (Auth.isAuthorized (claims event) allowedRoles) then
    {| statusCode := 403;
       body := Message "Forbidden: You do not have permission to perform this action." |}
  else
    match employeeId event with
    | None =>
        {| statusCode := 400;
           body := Message "employeeId is required in path parameters." |}
    | Some id =>
        if (id =? "")%string then
          {| statusCode := 400;
             body := Message "employeeId is required in path parameters." |}
        else
          let userRole := Auth.getUserRole (claims event) in
          let requestingUserId := Auth.getRequestingUser (claims event) in
          if JS.strict_eq userRole (Some "employee")
             && negb (JS.strict_eq requestingUserId (Some id)) then
            {| statusCode := 403;
               body := Message "Forbidden: You can only view your own sequence data." |}
          else
            match Personnel.personalData personnel id with
            | None => {| statusCode := 404; body := Message "Employee not found." |}
            | Some _ =>
                let latestLog := hd_error (Log.queryLatest logTable ("EMP#" ++ id)) in
                {| statusCode := 200;
                   body := Result
                     {| r_employeeId := id;
                        latestSequenceNumber :=
                          match latestLog with
                          | Some l => Log.sequenceNumber l
                          | None => 0
                          end;
                        latestTimestamp := option_map Log.timestamp latestLog;
                        latestTimestampType := option_map Log.timestampType latestLog;
                        r_hashChain := option_map Log.hashChain latestLog |} |}
            end
    end.

End Sequence.

(* ------------------------------------------------------------------ *)
(** ** The state machine of section 4.1 and chain well-formedness *)

Module Chain.

Definition eventTypes : list string :=
  ["CLOCK_IN"; "CLOCK_OUT"; "BREAK_START"; "BREAK_END"; "WBS_CHANGE"].

(** The transition table as the specification prints it, row by row. *)
Definition legalNext (last : string) : list string :=
  if (last =? "CLOCK_OUT")%string then ["CLOCK_IN"]
  else if (last =? "CLOCK_IN")%string then ["BREAK_START"; "WBS_CHANGE"; "CLOCK_OUT"]
  else if (last =? "BREAK_START")%string then ["BREAK_END"; "WBS_CHANGE"]
  else if (last =? "BREAK_END")%string then ["BREAK_START"; "WBS_CHANGE"; "CLOCK_OUT"]
  else if (last =? "WBS_CHANGE")%string then ["BREAK_START"; "WBS_CHANGE"; "CLOCK_OUT"]
  else [].

(** Sequence numbers, back links, digests and timestamps of a ledger read
    in ascending order, from position [i] after [previous]. *)
Fixpoint chained (i : Z) (previous : option Log.Item) (l : list Log.Item)
  : Prop :=
  match l with
  | [] => True
  | x :: rest =>
      Log.sequenceNumber x = i + 1
      /\ Log.previousTimestamp x = option_map Log.timestamp previous
      /\ Log.hashChain x =
           match previous with
           | Some p => Ledger.generateHash p
           | None => "GENESIS"
           end
      /\ match previous with
         | Some p => Log.timestamp p < Log.timestamp x
         | None => True
         end
      /\ chained (i + 1) (Some x) rest
  end.

(** The types of a ledger follow the transition table of the handler,
    after [previous]. *)
Fixpoint legal (previous : option Log.Item) (l : list Log.Item) : Prop :=
  match l with
  | [] => True
  | x :: rest =>
      match previous with
      | Some p =>
          Ledger.transitionAllowed (Log.timestampType p) (Log.timestampType x)
          = true
      | None => Log.timestampType x = "CLOCK_IN"
      end
      /\ legal (Some x) rest
  end.

(** The last event of a ledger read after [previous]. *)
Fixpoint lastOf (previous : option Log.Item) (l : list Log.Item)
  : option Log.Item :=
  match l with
  | [] => previous
  | x :: rest => lastOf (Some x) rest
  end.

(** No [WBS_CHANGE] is logged right after a [BREAK_START]. *)
Fixpoint noChangeOnBreak (previous : option Log.Item) (l : list Log.Item)
  : Prop :=
  match l with
  | [] => True
  | x :: rest =>
      match previous with
      | Some p =>
          ~ (Log.timestampType p = "BREAK_START"
             /\ Log.timestampType x = "WBS_CHANGE")
      | None => True
      end
      /\ noChangeOnBreak (Some x) rest
  end.

(** The pairs (last, next) of the transition table. *)
Definition table : list (string * string) :=
  flat_map (fun a => map (pair a) (legalNext a)) eventTypes.

(** The flags [(clockedIn, onBreak)] of the auditor that go with a last
    event of type [t], when no work-category change was logged on a break. *)
Definition flagsOfType (t : string) : bool * bool :=
  if (t =? "CLOCK_OUT")%string then (false, false)
  else if (t =? "BREAK_START")%string then (true, true)
  else (true, false).

Definition flagsAfter (previous : option Log.Item) : bool * bool :=
  match previous with
  | Some p => flagsOfType (Log.timestampType p)
  | None => (false, false)
  end.

(** The ledger is empty or ends with a [CLOCK_OUT]. *)
Definition closed (l : list Log.Item) : Prop :=
  match lastOf None l with
  | Some x => Log.timestampType x = "CLOCK_OUT"
  | None => True
  end.



End Chain.

(* ------------------------------------------------------------------ *)
(** ** The arithmetic of the timesheet as the specification words it *)

Module Payroll.

(** The sum of numbers, added one after the other from 0. *)
Definition sum (l : list Num.t) : Num.t := fold_left Num.add l 0.

(** The amount of the summed regular hours above 40. *)
Definition weeklyOvertime (days : list Timesheet.Day) : Num.t :=
  Num.max 0
    (Num.sub (sum (map Timesheet.dailyRegularHours days)) (Hours.of_int 40)).

(** The summed regular hours with that amount moved out. *)
Definition weeklyRegular (days : list Timesheet.Day) : Num.t :=
  Num.sub (sum (map Timesheet.dailyRegularHours days)) (weeklyOvertime days).

(** Weekly overtime plus every day's daily overtime. *)
Definition totalOvertime (days : list Timesheet.Day) : Num.t :=
  Num.add (weeklyOvertime days)
          (sum (map Timesheet.dailyOvertimeHours days)).

(** The break time of the logs, over [BREAK_START]/[BREAK_END] pairs. *)
Fixpoint breakTime (logs : list Log.Item) (currentBreak : option Z) : Z :=
  match logs with
  | [] => 0
  | log :: rest =>
      if (Log.timestampType log =? "BREAK_START")%string then
        breakTime rest (Some (Log.timestamp log))
      else
        match currentBreak with
        | Some start =>
            if (Log.timestampType log =? "BREAK_END")%string
            then (Log.timestamp log - start) + breakTime rest None
            else breakTime rest currentBreak
        | None => breakTime rest currentBreak
        end
  end.

End Payroll.

(* ------------------------------------------------------------------ *)
(** ** [dev-changeWbsCode.js]: a work-category change, logged through the
       ledger append *)

Module WbsChange.

Record Body := {
  employeeId : option string;
  newWbsCode : option string;
  reason : option string;
  deviceId : option string
}.

Definition field (b : Body) (name : string) : option string :=
  if (name =? "employeeId")%string then employeeId b
  else if (name =? "newWbsCode")%string then newWbsCode b
  else if (name =? "reason")%string then reason b
  else if (name =? "deviceId")%string then deviceId b
  else None.

(** The request: the token claims, the claim ['custom:wbsChange'] that only
    this handler reads, the caller's address
    ([event.requestContext.identity.sourceIp]) and the body. *)
Record Request := {
  claims : option Auth.Claims;
  custom_wbsChange : option string;
  sourceIp : option string;
  body : Body
}.

(** [hasWbsPermission] of [authUtil.js]. *)
Definition hasWbsPermission (event : Request) : bool :=
  match claims event with
  | Some _ => JS.strict_eq (custom_wbsChange event) (Some "true")
  | None => false
  end.

Record Response := {
  statusCode : Z;
  message : string;
  r_newWbsCode : option string;
  r_timestamp : option Z
}.

(** [`${x}`] of a possibly-absent string. *)
Definition text (x : option string) : string :=
  match x with Some s => s | None => "undefined" end.

(** The body handed to the ledger append. *)
Definition timestampEvent (event : Request) : Ledger.Request :=
  {| Ledger.claims := claims event;
     Ledger.body :=
       {| Ledger.employeeId := employeeId (body event);
          Ledger.timestampType := Some "WBS_CHANGE";
          Ledger.wbsCode := newWbsCode (body event);
          Ledger.location := None;
          Ledger.deviceId := deviceId (body event);
          Ledger.ipAddress := sourceIp event;
          Ledger.wbsChangeReason := reason (body event) |} |}.

Definition requiredFields : list string :=
  ["employeeId"; "newWbsCode"; "reason"; "deviceId"].

(** [exports.handler]: the response and the log table after the call. *)
Definition handler (u : Utils.t) (personnel : Personnel.Table)
    (org : Org.Table) (logTable : Log.Table) (now : Z) (event : Request)
  : Response * Log.Table :=
  let answer code msg :=
    ({| statusCode := code; message := msg; r_newWbsCode := None;
        r_timestamp := None |}, logTable) in
  if negb (Auth.isAuthorized (claims event) ["employee"]) then
    answer 403 "Forbidden: You do not have permission to perform this action."
  else if negb (hasWbsPermission event) then
    answer 403 "Forbidden: You do not have permission to change WBS codes."
  else
    let requestingEmployeeId := Auth.getRequestingUser (claims event) in
    if negb (JS.strict_eq requestingEmployeeId (employeeId (body event))) then
      answer 403 "Forbidden: You can only change your own WBS code."
    else
      let validationResult :=
        Utils.validateBody u (field (body event)) requiredFields in
      if negb (Utils.isValid validationResult) then
        answer 400 (Utils.message validationResult)
      else
        match Ledger.validateWbsCodeForEmployee personnel org
                (text (newWbsCode (body event)))
                (text (employeeId (body event))) with
        | inl err =>
            answer
              (if JS.includes err "permission" || JS.includes err "not valid"
               then 400 else 500)
              (if (err =? "")%string then "Internal Server Error." else err)
        | inr _ =>
            let '(timestampResult, logTable') :=
              Ledger.handler u personnel org logTable now (timestampEvent event) in
            if Ledger.statusCode timestampResult >=? 400 then
              ({| statusCode := Ledger.statusCode timestampResult;
                  message := Ledger.message timestampResult;
                  r_newWbsCode := None;
                  r_timestamp := None |}, logTable')
            else
              ({| statusCode := 200;
                  message := "WBS code change recorded successfully.";
                  r_newWbsCode := newWbsCode (body event);
                  r_timestamp := Ledger.r_timestamp timestampResult |},
               logTable')
        end.

End WbsChange.

(* ------------------------------------------------------------------ *)
(** ** What the auditor is to find, counted on the ledger itself *)

Module Detect.

(** The events whose sequence number is not their position, from position
    [i]. *)
Fixpoint misnumbered (i : Z) (l : list Log.Item) : nat :=
  match l with
  | [] => 0%nat
  | x :: rest =>
      ((if (Log.sequenceNumber x =? i + 1)%Z then 0 else 1)
       + misnumbered (i + 1) rest)%nat
  end.

(** The events that are not later than the one before them. *)
Fixpoint outOfOrder (previous : option Log.Item) (l : list Log.Item) : nat :=
  match l with
  | [] => 0%nat
  | x :: rest =>
      (match previous with
       | Some p => if (Log.timestamp x <=? Log.timestamp p)%Z then 1 else 0
       | None => 0
       end + outOfOrder (Some x) rest)%nat
  end.

(** The events, after the first, whose [hashChain] is not the digest of the
    one before them. *)
Fixpoint brokenLinks (previous : option Log.Item) (l : list Log.Item) : nat :=
  match l with
  | [] => 0%nat
  | x :: rest =>
      (match previous with
       | Some p =>
           if (Log.hashChain x =? Ledger.generateHash p)%string then 0 else 1
       | None => 0
       end + brokenLinks (Some x) rest)%nat
  end.

(** The events the state check of the auditor objects to, from the flags
    [(clockedIn, onBreak)], and the flags still up after the last event. *)
Fixpoint stateFaults (flags : bool * bool) (l : list Log.Item) : nat :=
  match l with
  | [] => ((if fst flags then 1 else 0) + (if snd flags then 1 else 0))%nat
  | x :: rest =>
      let '(errs, flags') :=
        Auditor.stateStep flags (Log.timestampType x) [] in
      ((if (List.length errs =? 0)%nat then 0 else 1)
       + stateFaults flags' rest)%nat
  end.


(** The minutes of break that end on the calendar date [date]: a
    BREAK_END after a BREAK_START closes a break, which counts, in minutes,
    on the date of the BREAK_END; the minutes are numbers, added one after
    the other in ledger order to [total]. *)
Fixpoint breakMinutes (date : string) (logs : list Log.Item)
    (start : option Z) (total : Num.t) : Num.t :=
  match logs with
  | [] => total
  | log :: rest =>
      if (Log.timestampType log =? "BREAK_START")%string then
        breakMinutes date rest (Some (Log.timestamp log)) total
      else
        match start with
        | Some s =>
            if (Log.timestampType log =? "BREAK_END")%string then
              breakMinutes date rest None
                (if (Iso.dateOnly (Log.timestamp log) =? date)%string
                 then Num.add total
                        (Num.div (Num.of_Z (Log.timestamp log - s))
                                 (Num.of_Z 60000))
                 else total)
            else breakMinutes date rest start total
        | None => breakMinutes date rest start total
        end
  end.

(** The four event types that are not a work-category change. *)
Definition clockTypes : list string :=
  ["CLOCK_IN"; "CLOCK_OUT"; "BREAK_START"; "BREAK_END"].

(** Two events that agree on what the auditor reads of an event that is
    not the last: timestamp, type, sequence number, work category and hash
    chain. *)
Definition sameAudited (a b : Log.Item) : Prop :=
  Log.timestamp a = Log.timestamp b
  /\ Log.timestampType a = Log.timestampType b
  /\ Log.sequenceNumber a = Log.sequenceNumber b
  /\ Log.wbsCode a = Log.wbsCode b
  /\ Log.hashChain a = Log.hashChain b.

(** The events before two positions agree likewise. *)
Definition sameBefore (p p' : option Log.Item) : Prop :=
  match p, p' with
  | Some a, Some b => sameAudited a b
  | None, None => True
  | _, _ => False
  end.

End Detect.

(* ------------------------------------------------------------------ *)
(** ** The segments listed in a timesheet *)

Module Listing.

(** Every segment listed under a date satisfies [P] of that date. *)
Definition listed (P : string -> Timesheet.Segment -> Prop)
    (m : Timesheet.DailyHours) : Prop :=
  Forall (fun kd => Forall (P (fst kd)) (Timesheet.allocations (snd kd))) m.

End Listing.

(* ------------------------------------------------------------------ *)
(** ** A date covered by an approved leave *)

Module Leave.

(** The table holds an approved leave of the employee whose start and end
    dates, as the engine reads their texts, enclose the date as read. *)
Definition covers (u : Utils.t) (timeTable : Attendance.Table)
    (employeeId date : string) : Prop :=
  exists l attDate leaveStart leaveEnd,
    In (Attendance.LeaveItem l) timeTable
    /\ Attendance.l_employeeId l = employeeId
    /\ Attendance.approvalStatus l = "Approved"
    /\ Utils.dateOf u date = Some attDate
    /\ Utils.dateOf u (Attendance.startDate l) = Some leaveStart
    /\ Utils.dateOf u (Attendance.endDate l) = Some leaveEnd
    /\ leaveStart <= attDate <= leaveEnd.

End Leave.

(* ------------------------------------------------------------------ *)
(** ** The primary key of the log table *)

Module Store.

Definition primaryKey (it : Log.Item) : string * Z :=
  (Log.PK it, Log.timestamp it).

(** No two items of the table share a primary key. *)
Definition uniqueKeys (tbl : Log.Table) : Prop :=
  NoDup (map primaryKey tbl).

End Store.

(* ------------------------------------------------------------------ *)
(** ** Fixtures for the worked examples *)

Module Fixtures.

(** 2025-01-01T00:00:00.000Z, and a time of day on the [d]-th day after. *)
Definition day0 : Z := 1735689600000.
Definition clock (d h m : Z) : Z := day0 + d * 86400000 + h * 3600000 + m * 60000.

(** The date texts of the fixtures as an engine on UTC reads them: the
    ISO form and the two slash forms of the first three days of 2025. *)
Definition dateOf (text : string) : option Z :=
  if existsb (String.eqb text) ["2025-01-01"; "2025/01/01"; "01/01/2025"]
  then Some day0
  else if existsb (String.eqb text) ["2025-01-02"; "2025/01/02"; "01/02/2025"]
  then Some (day0 + 86400000)
  else if existsb (String.eqb text) ["2025-01-03"; "2025/01/03"; "01/03/2025"]
  then Some (day0 + 2 * 86400000)
  else None.

(** An instance of the imported utilities: a field is present when it is a
    non-empty string. *)
Definition utils : Utils.t :=
  {| Utils.validateBody := fun body required =>
       if forallb (fun f => JS.truthy (body f)) required
       then {| Utils.isValid := true; Utils.message := "" |}
       else {| Utils.isValid := false;
               Utils.message := "Missing required fields." |};
     Utils.encrypt := fun s => "enc:" ++ s;
     Utils.dateOf := dateOf |}.

Definition personnel : Personnel.Table :=
  {| Personnel.personalData := fun id =>
       if (id =? "E1")%string then Some {| Personnel.status := "ACTIVE" |} else None;
     Personnel.contractDetails := fun id =>
       if (id =? "E1")%string then Some {| Personnel.department := Some "D1" |} else None |}.

Definition wbs1 : Org.Wbs :=
  {| Org.wbsCode := "WBS-1"; Org.isActive := true; Org.departmentId := "D1";
     Org.costCenter := Some "CC-1" |}.

Definition org : Org.Table :=
  {| Org.wbsMetadata := fun c => if (c =? "WBS-1")%string then Some wbs1 else None;
     Org.departmentIndex := fun d => if (d =? "D1")%string then [wbs1] else [] |}.

Definition claimsOf (id role : string) : option Auth.Claims :=
  Some {| Auth.custom_empId := Some id; Auth.sub := None;
          Auth.cognito_username := None; Auth.email := None;
          Auth.custom_role := Some role |}.

(** A request of employee E1 to log an event of type [t]. *)
Definition log (t : string) : Ledger.Request :=
  {| Ledger.claims := claimsOf "E1" "employee";
     Ledger.body :=
       {| Ledger.employeeId := Some "E1";
          Ledger.timestampType := Some t;
          Ledger.wbsCode := None;
          Ledger.location := None;
          Ledger.deviceId := Some "dev";
          Ledger.ipAddress := Some "10.0.0.1";
          Ledger.wbsChangeReason :=
            if (t =? "WBS_CHANGE")%string then Some "reassigned" else None |} |}.

Definition at_ (now : Z) (t : string) : Ledger.Call :=
  {| Ledger.c_personnel := personnel; Ledger.c_org := org;
     Ledger.c_now := now; Ledger.c_event := log t |}.

(** A working day of E1 on the [d]-th day: in at 08:00, out at 17:00. *)
Definition nineHourDay (d : Z) : list Ledger.Call :=
  [at_ (clock d 8 0) "CLOCK_IN"; at_ (clock d 17 0) "CLOCK_OUT"].

Definition fiveDayWeek : Log.Table :=
  Ledger.run utils (flat_map nineHourDay [0; 1; 2; 3; 4]) [].

(** A day with one quarter-hour break: in at 08:00, break 10:00 to 10:15,
    out at 16:00. *)
Definition breakDay : list Ledger.Call :=
  [at_ (clock 0 8 0) "CLOCK_IN"; at_ (clock 0 10 0) "BREAK_START";
   at_ (clock 0 10 15) "BREAK_END"; at_ (clock 0 16 0) "CLOCK_OUT"].

Definition dayWithBreak : Log.Table := Ledger.run utils breakDay [].

(** Histories the ledger accepts in full and the auditor objects to: a day
    not yet clocked out, a work-category change logged during a break, and a
    break of five hours. *)
Definition stillIn : list Ledger.Call := [at_ (clock 0 8 0) "CLOCK_IN"].

Definition changeOnBreak : list Ledger.Call :=
  [at_ (clock 0 8 0) "CLOCK_IN"; at_ (clock 0 10 0) "BREAK_START";
   at_ (clock 0 10 5) "WBS_CHANGE"; at_ (clock 0 16 0) "CLOCK_OUT"].

Definition longBreak : list Ledger.Call :=
  [at_ (clock 0 8 0) "CLOCK_IN"; at_ (clock 0 10 0) "BREAK_START";
   at_ (clock 0 15 0) "BREAK_END"; at_ (clock 0 16 0) "CLOCK_OUT"].

(** A day with four breaks of 9193853, 1022546, 2020906 and 2162695 ms:
    14400000 ms, which is 240 minutes, in all. *)
Definition fourBreaks : list Ledger.Call :=
  [at_ (clock 0 8 0) "CLOCK_IN";
   at_ (clock 0 9 0) "BREAK_START";
   at_ (clock 0 9 0 + 9193853) "BREAK_END";
   at_ (clock 0 12 0) "BREAK_START";
   at_ (clock 0 12 0 + 1022546) "BREAK_END";
   at_ (clock 0 13 0) "BREAK_START";
   at_ (clock 0 13 0 + 2020906) "BREAK_END";
   at_ (clock 0 14 0) "BREAK_START";
   at_ (clock 0 14 0 + 2162695) "BREAK_END";
   at_ (clock 0 16 0) "CLOCK_OUT"].

(** An administrator asking for the audit of E1, and for E1's timesheet
    of 2025-01-01 to 2025-01-05. *)
Definition audit : Auditor.Request :=
  {| Auditor.claims := claimsOf "A1" "hr_admin";
     Auditor.employeeId := Some "E1" |}.

Definition timesheet : Timesheet.Request :=
  {| Timesheet.claims := claimsOf "A1" "hr_admin";
     Timesheet.employeeId := Some "E1";
     Timesheet.startDate := Some "2025-01-01";
     Timesheet.endDate := Some "2025-01-05";
     Timesheet.format := None |}.

(** The auditor's verdict on E1 after a history from the empty table: how
    many events were accepted, the status and the summary. *)
Definition verdict (calls : list Ledger.Call)
  : option (nat * string * Auditor.Summary) :=
  match Auditor.body (Auditor.handler personnel (Ledger.run utils calls [])
                        (clock 1 9 0) audit) with
  | Auditor.Validated r =>
      Some (List.length (Ledger.accepted utils calls []),
            Auditor.validationStatus r, Auditor.summary r)
  | _ => None
  end.

Fixpoint tamper (n : nat) (l : list Log.Item) : list Log.Item :=
  match l, n with
  | [], _ => []
  | x :: rest, O => Log.setHashChain "0000" x :: rest
  | x :: rest, S k => x :: tamper k rest
  end.

(** The day with one break, the [hashChain] of its [n]-th event (from 0)
    overwritten in the store. *)
Definition tampered (n : nat) : Log.Table :=
  tamper n (Log.queryPartition dayWithBreak "EMP#E1").

(** A day worked in two shifts: 08:00 to 12:00 and 13:00 to 17:00. *)
Definition splitShift : Log.Table :=
  Ledger.run utils
    [at_ (clock 0 8 0) "CLOCK_IN"; at_ (clock 0 12 0) "CLOCK_OUT";
     at_ (clock 0 13 0) "CLOCK_IN"; at_ (clock 0 17 0) "CLOCK_OUT"] [].

(** A day left open: in at 08:00, a break, and no clock-out. *)
Definition openDay : Log.Table :=
  Ledger.run utils
    [at_ (clock 0 8 0) "CLOCK_IN"; at_ (clock 0 10 0) "BREAK_START";
     at_ (clock 0 10 15) "BREAK_END"] [].

Definition blank : Log.Item :=
  {| Log.employeeId := ""; Log.timestampType := ""; Log.timestamp := 0;
     Log.previousTimestamp := None; Log.sequenceNumber := 0;
     Log.wbsCode := None; Log.location := None; Log.deviceId := None;
     Log.ipAddress := None; Log.hashChain := ""; Log.previousWbsCode := None;
     Log.wbsChangeReason := None |}.

(** The [n]-th event (from 0) of E1 in a table. *)
Definition nthEvent (tbl : Log.Table) (n : nat) : Log.Item :=
  nth n (Log.queryPartition tbl "EMP#E1") blank.

(** E1 asking for the attendance record of 2025-01-01. *)
Definition attend : Attendance.Request :=
  {| Attendance.claims := claimsOf "E1" "employee";
     Attendance.body :=
       {| Attendance.b_employeeId := Some "E1";
          Attendance.b_attendanceDate := Some "2025-01-01";
          Attendance.b_workMode := Some "ONSITE";
          Attendance.b_projectCode := None;
          Attendance.b_taskCategory := None;
          Attendance.b_notes := None |} |}.



(** E1 clocked in on 2025-01-01 at 08:00 and out at 17:00, and nothing
    since. *)
Definition oneDay : Log.Table := Ledger.run utils (nineHourDay 0) [].

(** What E1 tries on the Friday after: clocking in, twice, and a break. *)
Definition friday : list Ledger.Call :=
  [at_ (clock 2 8 0) "CLOCK_IN"; at_ (clock 2 8 5) "CLOCK_IN";
   at_ (clock 2 9 0) "BREAK_START"].

(** E1 logging a change to the work category [code] during the day. *)
Definition change (code : option string) (why : option string)
  : Ledger.Request :=
  {| Ledger.claims := claimsOf "E1" "employee";
     Ledger.body :=
       {| Ledger.employeeId := Some "E1";
          Ledger.timestampType := Some "WBS_CHANGE";
          Ledger.wbsCode := code;
          Ledger.location := Some "HQ";
          Ledger.deviceId := Some "dev";
          Ledger.ipAddress := Some "10.0.0.1";
          Ledger.wbsChangeReason := why |} |}.

(** The table after E1 clocked in at 08:00 on 2025-01-01. *)
Definition clockedIn : Log.Table := Ledger.run utils stillIn [].

(** The time-management table after E1's record of 2025-01-01 is created,
    from an empty table, under the identifier [uuid]. *)
Definition attendanceOf (uuid : string) : Attendance.Table :=
  snd (Attendance.handler utils org dayWithBreak [] uuid (clock 1 9 0) attend).

(** E1 on night shifts: in at 22:00 on 2025-01-01, out at 02:00 the next
    morning, in again at 22:00 that evening. *)
Definition nightShift : Log.Table :=
  Ledger.run utils
    [at_ (clock 0 22 0) "CLOCK_IN"; at_ (clock 1 2 0) "CLOCK_OUT";
     at_ (clock 1 22 0) "CLOCK_IN"] [].

(** E1 asking for the attendance record of [date]. *)
Definition attendOn (date : string) : Attendance.Request :=
  {| Attendance.claims := claimsOf "E1" "employee";
     Attendance.body :=
       {| Attendance.b_employeeId := Some "E1";
          Attendance.b_attendanceDate := Some date;
          Attendance.b_workMode := Some "ONSITE";
          Attendance.b_projectCode := None;
          Attendance.b_taskCategory := None;
          Attendance.b_notes := None |} |}.

(** A stored event with everything overwritten that the digest does not
    cover: employee, place, device, address, back link, and the fields of a
    work-category change. *)
Definition overwritten (x : Log.Item) : Log.Item :=
  {| Log.employeeId := "E9";
     Log.timestampType := Log.timestampType x;
     Log.timestamp := Log.timestamp x;
     Log.previousTimestamp := None;
     Log.sequenceNumber := Log.sequenceNumber x;
     Log.wbsCode := Log.wbsCode x;
     Log.location := Some "elsewhere";
     Log.deviceId := Some "other";
     Log.ipAddress := Some "0.0.0.0";
     Log.hashChain := Log.hashChain x;
     Log.previousWbsCode := None;
     Log.wbsChangeReason := None |}.

(** E1, holding the work-category-change permission or not, asking for a
    change to [code]. *)
Definition changeRequest (permitted : bool) (code : string)
  : WbsChange.Request :=
  {| WbsChange.claims := claimsOf "E1" "employee";
     WbsChange.custom_wbsChange := if permitted then Some "true" else None;
     WbsChange.sourceIp := Some "10.0.0.1";
     WbsChange.body :=
       {| WbsChange.employeeId := Some "E1";
          WbsChange.newWbsCode := Some code;
          WbsChange.reason := Some "reassigned";
          WbsChange.deviceId := Some "dev" |} |}.

End Fixtures.

(* ================================================================== *)
(** * Properties *)

(** The digest is never unfolded in the proofs below; the worked examples
    evaluate it. *)
Opaque SHA256.digest_hex.

(** ** Executable checks of the primitives *)

Example sha256_constants :
  List.length SHA256.K = 64%nat /\ hd 0 SHA256.K = 1116352408
  /\ last SHA256.K 0 = 3329325298 /\ hd 0 SHA256.H0 = 1779033703.
Proof. vm_compute. repeat split; reflexivity. Qed.

Example sha256_abc :
  SHA256.digest_hex "abc"
  = "ba7816bf8f01cfea414140de5dae2223b00361a396177a9cb410ff61f20015ad".
Proof. vm_compute. reflexivity. Qed.

Example toISOString_leap_day :
  Iso.toISOString 1709251199999 = "2024-02-29T23:59:59.999Z".
Proof. vm_compute. reflexivity. Qed.

(** The numbers are the processor's doubles: on these operations the
    counts of units are those of the proof assistant's primitive
    floating-point arithmetic. *)
Section Doubles.

Import PrimFloat.

Example num_is_binary64 :
  Hours.of_ms 3618000 = Num.of_float (3618000 / 3600000)%float
  /\ Hours.of_ms 16200 = Num.of_float (16200 / 3600000)%float
  /\ Hours.of_ms (- 72000000) = Num.of_float (- 72000000 / 3600000)%float
  /\ Num.sub (Hours.of_ms 27018000) (Hours.of_int 8)
     = Num.of_float (27018000 / 3600000 - 8)%float
  /\ Num.add (Num.add (Num.decimal 1 1) (Num.decimal 2 1)) (Num.decimal 3 1)
     = Num.of_float (1 / 10 + 2 / 10 + 3 / 10)%float
  /\ Num.decimal 7505 3 = Num.of_float (7505 / 1000)%float
  /\ Num.add (Num.of_Z 9007199254740992) (Num.of_Z 3)
     = Num.of_float (9007199254740992 + 3)%float
  /\ Num.div (Num.of_Z 1) (Num.of_Z 3) = Num.of_float (1 / 3)%float
  /\ fold_left (fun total ms =>
                  Num.add total (Num.div (Num.of_Z ms) (Num.of_Z 60000)))
               [9193853; 1022546; 2020906; 2162695] 0
     = Num.of_float (0 + 9193853 / 60000 + 1022546 / 60000
                     + 2020906 / 60000 + 2162695 / 60000)%float.
Proof. vm_compute. repeat split; reflexivity. Qed.

End Doubles.

(** [toFixed] reads the double, not the decimal it came from: 3 618 000 ms
    are 1.005 hours on paper and print as 1.00; 16 200 ms are 0.0045 hours
    and print as 0.004. *)
Example toFixed_reads_the_double :
  Hours.toFixed 2 (Hours.of_ms 3618000) = Hours.of_int 1
  /\ Hours.toFixed2_text (Hours.of_ms 3618000) = "1.00"
  /\ Hours.toFixed 3 (Hours.of_ms 16200) = Num.decimal 4 3
  /\ Hours.toFixed 2 (Hours.toFixed 3 (Hours.of_ms 27018000))
     = Num.decimal 75 1
  /\ Hours.toFixed2_text (Hours.of_int 9) = "9.00"
  /\ Num.toFixed_text 0 (Num.of_Z 300) = "300"
  /\ map (fun x => Num.toFixed_text 2 (Num.decimal x 3))
         [1005; 1255; 8345; 10235; - 5]
     = ["1.00"; "1.25"; "8.35"; "10.23"; "-0.01"]
  /\ map (fun x => Num.toFixed_text 0 (Num.decimal x 1)) [5; 25; - 15]
     = ["1"; "3"; "-2"].
Proof. vm_compute. repeat split; reflexivity. Qed.

(** ** Rounding

    Rounding to a double keeps the order; so do the operations built on
    it. *)

Section NumFacts.

Lemma rne_div_floor (a b : Z) :
  0 < b -> a / b <= Num.rne_div a b <= a / b + 1.
Proof.
  intro Hb. unfold Num.rne_div.
  destruct (2 * (a mod b) <? b); [lia|].
  destruct (b <? 2 * (a mod b)); [lia|].
  destruct (Z.even (a / b)); lia.
Qed.

Lemma rne_div_mono (a a' b : Z) :
  0 < b -> a <= a' -> Num.rne_div a b <= Num.rne_div a' b.
Proof.
  intros Hb Ha.
  pose proof (Z.div_le_mono a a' b Hb Ha) as Hq.
  destruct (Z.eq_dec (a / b) (a' / b)) as [E|N].
  - pose proof (Z.div_mod a b ltac:(lia)) as D.
    pose proof (Z.div_mod a' b ltac:(lia)) as D'.
    assert (Hr : a mod b <= a' mod b) by (rewrite E in D; lia).
    unfold Num.rne_div. rewrite E.
    destruct (Z.ltb_spec (2 * (a mod b)) b), (Z.ltb_spec (2 * (a' mod b)) b),
      (Z.ltb_spec b (2 * (a mod b))), (Z.ltb_spec b (2 * (a' mod b)));
      destruct (Z.even (a' / b)); lia.
  - pose proof (rne_div_floor a b Hb). pose proof (rne_div_floor a' b Hb). lia.
Qed.

(** A quotient below an integer rounds to that integer at most, one that
    reaches an integer rounds to it at least. *)
Lemma rne_div_below (a b n : Z) :
  0 < b -> a < n * b -> Num.rne_div a b <= n.
Proof.
  intros Hb H. pose proof (rne_div_floor a b Hb).
  assert (a / b < n) by (apply Z.div_lt_upper_bound; lia). lia.
Qed.

Lemma rne_div_above (a b n : Z) :
  0 < b -> n * b <= a -> n <= Num.rne_div a b.
Proof.
  intros Hb H. pose proof (rne_div_floor a b Hb).
  assert (n <= a / b) by (apply Z.div_le_lower_bound; lia). lia.
Qed.

Lemma round_pos_mono (p p' q : Z) :
  0 <= p -> p <= p' -> 0 < q -> Num.round_pos p q <= Num.round_pos p' q.
Proof.
  intros Hp Hpp Hq. unfold Num.round_pos.
  set (f := p / q). set (f' := p' / q).
  assert (Hf0 : 0 <= f) by (apply Z.div_pos; lia).
  assert (Hff : f <= f') by (apply Z.div_le_mono; lia).
  pose proof (Z.log2_le_mono f f' Hff) as Hlog.
  pose proof (Z.log2_nonneg f) as Hl0.
  set (s := Z.max 0 (Z.log2 f + 1 - 53)).
  set (s' := Z.max 0 (Z.log2 f' + 1 - 53)).
  assert (Hs0 : 0 <= s) by lia.
  assert (Hss : s <= s') by lia.
  assert (H2s : 0 < 2 ^ s) by (apply Z.pow_pos_nonneg; lia).
  assert (H2s' : 0 < 2 ^ s') by (apply Z.pow_pos_nonneg; lia).
  destruct (Z.eq_dec s s') as [E|N].
  - rewrite <- E. apply Z.mul_le_mono_nonneg_r; [lia|].
    apply rne_div_mono; [nia|lia].
  - assert (Hlt : s < s') by lia.
    (* the smaller one is at most 2^(53+s) *)
    assert (Hup : Num.rne_div p (q * 2 ^ s) <= 2 ^ 53).
    { apply rne_div_below; [nia|].
      assert (Hfb : f < 2 ^ (53 + s)).
      { destruct (Z.eq_dec f 0) as [->|Hne].
        - apply Z.pow_pos_nonneg; lia.
        - pose proof (Z.log2_spec f ltac:(lia)) as [_ Hb].
          apply Z.lt_le_trans with (2 ^ Z.succ (Z.log2 f)); [exact Hb|].
          apply Z.pow_le_mono_r; lia. }
      assert (Hpq : p < (f + 1) * q).
      { pose proof (Z.div_mod p q ltac:(lia)).
        pose proof (Z.mod_pos_bound p q Hq). subst f. nia. }
      rewrite Z.pow_add_r in Hfb by lia. nia. }
    assert (Hlow : 2 ^ 52 <= Num.rne_div p' (q * 2 ^ s')).
    { apply rne_div_above; [nia|].
      assert (Hs' : s' = Z.log2 f' - 52) by lia.
      assert (Hf'pos : 0 < f').
      { destruct (Z.eq_dec f' 0) as [E0|]; [|lia].
        rewrite E0 in Hs'. cbn in Hs'. lia. }
      pose proof (Z.log2_spec f' Hf'pos) as [Hb _].
      assert (Hfq : f' * q <= p').
      { pose proof (Z.div_mod p' q ltac:(lia)).
        pose proof (Z.mod_pos_bound p' q Hq). subst f'. nia. }
      assert (E2 : 2 ^ Z.log2 f' = 2 ^ 52 * 2 ^ s').
      { rewrite <- Z.pow_add_r by lia. f_equal. lia. }
      nia. }
    assert (Hpow : 2 ^ 53 * 2 ^ s <= 2 ^ 52 * 2 ^ s').
    { rewrite <- !Z.pow_add_r by lia. apply Z.pow_le_mono_r; lia. }
    nia.
Qed.

Lemma round_pos_nonneg (p q : Z) : 0 <= p -> 0 < q -> 0 <= Num.round_pos p q.
Proof.
  intros Hp Hq. unfold Num.round_pos.
  set (s := Z.max 0 _).
  assert (0 < 2 ^ s) by (apply Z.pow_pos_nonneg; lia).
  assert (0 <= Num.rne_div p (q * 2 ^ s)).
  { apply rne_div_above; [nia|lia]. }
  nia.
Qed.

(** Rounding keeps the order. *)
Lemma round_mono (p p' q : Z) :
  0 < q -> p <= p' -> Num.round p q <= Num.round p' q.
Proof.
  intros Hq Hpp. unfold Num.round.
  destruct (Z.ltb_spec p 0), (Z.ltb_spec p' 0); try lia.
  - pose proof (round_pos_mono (- p') (- p) q). lia.
  - pose proof (round_pos_nonneg (- p) q). pose proof (round_pos_nonneg p' q).
    lia.
  - now apply round_pos_mono.
Qed.

Lemma round_zero (q : Z) : 0 < q -> Num.round 0 q = 0.
Proof.
  intro Hq. unfold Num.round, Num.round_pos, Num.rne_div.
  change (0 <? 0) with false. cbv iota.
  rewrite Z.div_0_l by lia.
  change (Z.max 0 (Z.log2 0 + 1 - 53)) with 0. rewrite Z.pow_0_r, Z.mul_1_r.
  rewrite Z.div_0_l, Z.mod_0_l by lia.
  destruct (Z.ltb_spec (2 * 0) (q * 1)); [reflexivity|lia].
Qed.

Lemma round_div_mono (x y den : Z) :
  0 < den -> x <= y -> JS.round_div x den <= JS.round_div y den.
Proof.
  intros Hden Hxy. unfold JS.round_div.
  destruct (Z.ltb_spec x 0), (Z.ltb_spec y 0); try lia.
  - assert ((2 * - y + den) / (2 * den) <= (2 * - x + den) / (2 * den))
      by (apply Z.div_le_mono; lia). lia.
  - assert (0 <= (2 * - x + den) / (2 * den)) by (apply Z.div_pos; lia).
    assert (0 <= (2 * y + den) / (2 * den)) by (apply Z.div_pos; lia).
    lia.
  - apply Z.div_le_mono; lia.
Qed.

Lemma one_pos : 0 < Num.one.
Proof. unfold Num.one. apply Z.pow_pos_nonneg; lia. Qed.

Lemma toFixed_mono (digits x y : Z) :
  0 <= digits -> x <= y -> Num.toFixed digits x <= Num.toFixed digits y.
Proof.
  intros Hd Hxy. unfold Num.toFixed, Num.decimal, Num.fixed.
  pose proof one_pos.
  assert (0 < 10 ^ digits) by (apply Z.pow_pos_nonneg; lia).
  apply round_mono; [assumption|].
  apply Z.mul_le_mono_nonneg_r; [lia|].
  apply round_div_mono; [assumption|nia].
Qed.

Lemma of_Z_mono (n n' : Z) : n <= n' -> Num.of_Z n <= Num.of_Z n'.
Proof.
  intro H. unfold Num.of_Z. pose proof one_pos.
  apply round_mono; [lia|nia].
Qed.

Lemma div_mono (x x' y : Z) :
  0 < y -> x <= x' -> Num.div x y <= Num.div x' y.
Proof.
  intros Hy H. unfold Num.div. pose proof one_pos.
  apply round_mono; [assumption|nia].
Qed.

Lemma sub_mono (x x' y : Z) : x <= x' -> Num.sub x y <= Num.sub x' y.
Proof. intro H. unfold Num.sub. apply round_mono; lia. Qed.

Lemma add_mono (x x' y y' : Z) :
  x <= x' -> y <= y' -> Num.add x y <= Num.add x' y'.
Proof. intros H H'. unfold Num.add. apply round_mono; lia. Qed.

(** A double: a count of units that rounding leaves as it is. *)
Lemma rne_div_exact (m b : Z) : 0 < b -> Num.rne_div (m * b) b = m.
Proof.
  intro Hb. unfold Num.rne_div.
  rewrite Z.div_mul, Z.mod_mul by lia.
  destruct (Z.ltb_spec (2 * 0) b); [reflexivity|lia].
Qed.

Lemma round_pos_shape (p q : Z) :
  0 <= p -> 0 < q ->
  exists m s, Num.round_pos p q = m * 2 ^ s /\ 0 <= s /\ 0 <= m <= 2 ^ 53
              /\ (0 < s -> 2 ^ 52 <= m).
Proof.
  intros Hp Hq. unfold Num.round_pos.
  set (f := p / q).
  assert (Hf0 : 0 <= f) by (apply Z.div_pos; lia).
  set (s := Z.max 0 (Z.log2 f + 1 - 53)).
  assert (Hs0 : 0 <= s) by lia.
  assert (H2s : 0 < 2 ^ s) by (apply Z.pow_pos_nonneg; lia).
  exists (Num.rne_div p (q * 2 ^ s)), s.
  split; [reflexivity|]. split; [exact Hs0|].
  assert (Hpq : f * q <= p < (f + 1) * q).
  { pose proof (Z.div_mod p q ltac:(lia)).
    pose proof (Z.mod_pos_bound p q Hq). subst f. nia. }
  assert (Hfb : f < 2 ^ (53 + s)).
  { destruct (Z.eq_dec f 0) as [E|Hne].
    - rewrite E. apply Z.pow_pos_nonneg; lia.
    - pose proof (Z.log2_spec f ltac:(lia)) as [_ Hb].
      apply Z.lt_le_trans with (2 ^ Z.succ (Z.log2 f)); [exact Hb|].
      apply Z.pow_le_mono_r; lia. }
  rewrite Z.pow_add_r in Hfb by lia.
  split; [split|].
  - apply rne_div_above; [nia|lia].
  - apply rne_div_below; [nia|nia].
  - intro Hs. apply rne_div_above; [nia|].
    assert (Hs' : s = Z.log2 f - 52) by lia.
    assert (Hfpos : 0 < f).
    { destruct (Z.eq_dec f 0) as [E0|]; [|lia].
      rewrite E0 in Hs'. cbn in Hs'. lia. }
    pose proof (Z.log2_spec f Hfpos) as [Hb _].
    assert (E2 : 2 ^ Z.log2 f = 2 ^ 52 * 2 ^ s).
    { rewrite <- Z.pow_add_r by lia. f_equal. lia. }
    nia.
Qed.

Lemma round_pos_idem (p q : Z) :
  0 <= p -> 0 < q -> Num.round_pos (Num.round_pos p q) 1 = Num.round_pos p q.
Proof.
  intros Hp Hq.
  destruct (round_pos_shape p q Hp Hq) as (m & s & -> & Hs & [Hm0 Hm] & Hlow).
  assert (H2s : 0 < 2 ^ s) by (apply Z.pow_pos_nonneg; lia).
  unfold Num.round_pos at 1. rewrite Z.div_1_r, Z.mul_1_l.
  destruct (Z.eq_dec m 0) as [->|Hm1].
  { rewrite Z.mul_0_l. change (Z.max 0 (Z.log2 0 + 1 - 53)) with 0.
    reflexivity. }
  destruct (Z.eq_dec m (2 ^ 53)) as [->|Hm2].
  - assert (E : 2 ^ 53 * 2 ^ s = 2 ^ (53 + s)) by (now rewrite Z.pow_add_r by lia).
    rewrite E, Z.log2_pow2 by lia.
    replace (Z.max 0 (53 + s + 1 - 53)) with (s + 1) by lia.
    replace (2 ^ (53 + s)) with (2 ^ 52 * 2 ^ (s + 1))
      by (rewrite <- Z.pow_add_r by lia; f_equal; lia).
    rewrite rne_div_exact by (apply Z.pow_pos_nonneg; lia). reflexivity.
  - destruct (Z.eq_dec s 0) as [->|Hs1].
    + rewrite Z.pow_0_r, Z.mul_1_r.
      assert (Z.log2 m < 53) by (apply Z.log2_lt_pow2; lia).
      pose proof (Z.log2_nonneg m).
      replace (Z.max 0 (Z.log2 m + 1 - 53)) with 0 by lia.
      rewrite Z.pow_0_r, Z.mul_1_r.
      replace m with (m * 1) at 1 by lia. now rewrite rne_div_exact by lia.
    + assert (Hl : Z.log2 (m * 2 ^ s) = 52 + s).
      { apply Z.log2_unique; [lia|].
        rewrite Z.pow_succ_r, Z.pow_add_r by lia.
        specialize (Hlow ltac:(lia)). nia. }
      rewrite Hl. replace (Z.max 0 (52 + s + 1 - 53)) with s by lia.
      now rewrite rne_div_exact.
Qed.

Lemma round_idem (p q : Z) :
  0 < q -> Num.round (Num.round p q) 1 = Num.round p q.
Proof.
  intro Hq.
  assert (Hpos : forall v, 0 <= v -> Num.round_pos v 1 = v -> Num.round v 1 = v).
  { intros v Hv E. unfold Num.round. destruct (Z.ltb_spec v 0); [lia|exact E]. }
  assert (Hneg : forall v, 0 <= v -> Num.round_pos v 1 = v ->
                           Num.round (- v) 1 = - v).
  { intros v Hv E. unfold Num.round. destruct (Z.ltb_spec (- v) 0).
    - now rewrite Z.opp_involutive, E.
    - assert (v = 0) by lia. subst v. reflexivity. }
  unfold Num.round at 2 3.
  destruct (Z.ltb_spec p 0).
  - apply Hneg; [apply round_pos_nonneg; lia | apply round_pos_idem; lia].
  - apply Hpos; [apply round_pos_nonneg; lia | apply round_pos_idem; lia].
Qed.

Lemma round_pos_of_shape (m s : Z) :
  0 <= s -> 0 <= m <= 2 ^ 53 -> Num.round_pos (m * 2 ^ s) 1 = m * 2 ^ s.
Proof.
  intros Hs [Hm0 Hm].
  assert (H2s : 0 < 2 ^ s) by (apply Z.pow_pos_nonneg; lia).
  unfold Num.round_pos. rewrite Z.div_1_r, Z.mul_1_l.
  destruct (Z.eq_dec m 0) as [->|Hm1]; [reflexivity|].
  destruct (Z.eq_dec m (2 ^ 53)) as [->|Hm2].
  - assert (E : 2 ^ 53 * 2 ^ s = 2 ^ (53 + s)) by (now rewrite Z.pow_add_r by lia).
    rewrite E, Z.log2_pow2 by lia.
    replace (Z.max 0 (53 + s + 1 - 53)) with (s + 1) by lia.
    replace (2 ^ (53 + s)) with (2 ^ 52 * 2 ^ (s + 1))
      by (rewrite <- Z.pow_add_r by lia; f_equal; lia).
    rewrite rne_div_exact by (apply Z.pow_pos_nonneg; lia). reflexivity.
  - rewrite Z.log2_mul_pow2 by lia.
    assert (Z.log2 m < 53) by (apply Z.log2_lt_pow2; lia).
    pose proof (Z.log2_nonneg m).
    set (s2 := Z.max 0 (s + Z.log2 m + 1 - 53)).
    assert (Hs2 : 0 <= s2 <= s) by lia.
    assert (E : m * 2 ^ s = m * 2 ^ (s - s2) * 2 ^ s2).
    { rewrite <- Z.mul_assoc, <- Z.pow_add_r by lia. do 2 f_equal. lia. }
    rewrite E at 1. rewrite rne_div_exact by (apply Z.pow_pos_nonneg; lia).
    now rewrite <- E.
Qed.

Lemma is_double_round (p q : Z) : 0 < q -> Num.is_double (Num.round p q).
Proof. apply round_idem. Qed.

Lemma is_double_zero : Num.is_double 0.
Proof. apply round_zero. lia. Qed.

Lemma is_double_shape (x : Z) :
  Num.is_double x -> 0 <= x ->
  exists m s, x = m * 2 ^ s /\ 0 <= s /\ 0 <= m <= 2 ^ 53
              /\ (0 < s -> 2 ^ 52 <= m).
Proof.
  intros Hx H0. unfold Num.is_double, Num.round in Hx.
  destruct (Z.ltb_spec x 0); [lia|].
  destruct (round_pos_shape x 1 H0 ltac:(lia)) as (m & s & E & Hs & Hm & Hlow).
  exists m, s. rewrite <- E. auto.
Qed.

Lemma shape_is_double (m s : Z) :
  0 <= s -> 0 <= m <= 2 ^ 53 -> Num.is_double (m * 2 ^ s).
Proof.
  intros Hs Hm. unfold Num.is_double, Num.round.
  assert (H2s : 0 < 2 ^ s) by (apply Z.pow_pos_nonneg; lia).
  destruct (Z.ltb_spec (m * 2 ^ s) 0); [nia|].
  now apply round_pos_of_shape.
Qed.

(** Taking a multiple of [2^s] from a double below [2^(53+s)] is exact:
    the double is itself a multiple of [2^s] or of a smaller power. *)
Lemma sub_multiple_exact (x k s : Z) :
  Num.is_double x -> 0 <= s -> 0 <= k * 2 ^ s <= x -> x < 2 ^ (53 + s) ->
  Num.sub x (k * 2 ^ s) = x - k * 2 ^ s.
Proof.
  intros Hx Hs Hy Hbound.
  destruct (is_double_shape x Hx ltac:(lia)) as (mx & sx & Ex & Hsx & Hmx & Hlow).
  assert (H2x : 0 < 2 ^ sx) by (apply Z.pow_pos_nonneg; lia).
  assert (H2s : 0 < 2 ^ s) by (apply Z.pow_pos_nonneg; lia).
  assert (Hle : sx <= s).
  { destruct (Z.le_gt_cases sx s) as [|Hgt]; [assumption|exfalso].
    specialize (Hlow ltac:(lia)).
    assert (2 ^ (53 + s) <= 2 ^ 52 * 2 ^ sx).
    { rewrite <- Z.pow_add_r by lia. apply Z.pow_le_mono_r; lia. }
    nia. }
  assert (E : 2 ^ s = 2 ^ (s - sx) * 2 ^ sx).
  { rewrite <- Z.pow_add_r by lia. f_equal. lia. }
  assert (Exy : x - k * 2 ^ s = (mx - k * 2 ^ (s - sx)) * 2 ^ sx)
    by (rewrite Ex, E; ring).
  unfold Num.sub. change (Num.is_double (x - k * 2 ^ s)). rewrite Exy.
  apply shape_is_double; [assumption|]. nia.
Qed.

Lemma is_double_sum (l : list Z) (a : Z) :
  Num.is_double a -> Num.is_double (fold_left Num.add l a).
Proof.
  revert a. induction l as [|x l IH]; intros a Ha; [exact Ha|].
  cbn [fold_left]. apply IH. apply is_double_round. lia.
Qed.

End NumFacts.

(** ** Shared lemmas on lists, strings and the store *)

Section StoreFacts.

Lemma emp_key_eqb (a b : string) :
  (("EMP#" ++ a) =? ("EMP#" ++ b))%string = (a =? b)%string.
Proof. reflexivity. Qed.

Lemma strict_eq_true (a : option string) (b : string) :
  JS.strict_eq a (Some b) = true <-> a = Some b.
Proof.
  destruct a as [x|]; simpl; split; intro H; try discriminate.
  - apply String.eqb_eq in H. now subst.
  - injection H as ->. apply String.eqb_refl.
Qed.

Lemma filter_nil_iff {A : Type} (f : A -> bool) (l : list A) :
  (forall x, In x l -> f x = false) -> filter f l = [].
Proof.
  induction l as [|a l IH]; simpl; intro H; [reflexivity|].
  rewrite (H a (or_introl eq_refl)). apply IH. intros x Hx. apply H. now right.
Qed.

Lemma queryPartition_none (tbl : Log.Table) (id : string) :
  (forall it, In it tbl -> Log.employeeId it <> id) ->
  Log.queryPartition tbl ("EMP#" ++ id) = [].
Proof.
  intro H. unfold Log.queryPartition.
  rewrite filter_nil_iff; [reflexivity|].
  intros it Hit. unfold Log.PK. rewrite emp_key_eqb.
  apply String.eqb_neq. now apply H.
Qed.

Lemma bind_inr {A B : Type} (c : Ledger.throws A) (k : A -> Ledger.throws B)
    (b : B) :
  Ledger.bind c k = inr b -> exists a, c = inr a /\ k a = inr b.
Proof. destruct c as [e|a]; simpl; [discriminate|]. intro H. now exists a. Qed.

End StoreFacts.

(** ** [getLatestSequence] on an empty ledger *)

(** C10. For an authorized caller and an existing employee with no event in
    the log table, the handler answers 200 with sequence number 0 and null
    timestamp, event type and hash chain. *)
Theorem C10_empty_ledger_sequence_zero
    (personnel : Personnel.Table) (logTable : Log.Table)
    (event : Sequence.Request) (id : string)
    (Hauth : Auth.isAuthorized (Sequence.claims event)
               ["employee"; "hr_admin"; "manager_admin"] = true)
    (Hid : Sequence.employeeId event = Some id)
    (Hne : id <> "")
    (Hown : Auth.getUserRole (Sequence.claims event) = Some "employee" ->
            Auth.getRequestingUser (Sequence.claims event) = Some id)
    (Hemp : Personnel.personalData personnel id <> None)
    (Hempty : forall it, In it logTable -> Log.employeeId it <> id) :
  Sequence.handler personnel logTable event
  = {| Sequence.statusCode := 200;
       Sequence.body := Sequence.Result
         {| Sequence.r_employeeId := id;
            Sequence.latestSequenceNumber := 0;
            Sequence.latestTimestamp := None;
            Sequence.latestTimestampType := None;
            Sequence.r_hashChain := None |} |}.
Proof.
  unfold Sequence.handler. rewrite Hauth, Hid. cbn [negb].
  apply String.eqb_neq in Hne. rewrite Hne.
  assert (Hgate :
    JS.strict_eq (Auth.getUserRole (Sequence.claims event)) (Some "employee")
    && negb (JS.strict_eq (Auth.getRequestingUser (Sequence.claims event)) (Some id))
    = false).
  { destruct (JS.strict_eq (Auth.getUserRole (Sequence.claims event))
                           (Some "employee")) eqn:Hrole; [|reflexivity].
    apply strict_eq_true in Hrole. apply Hown in Hrole.
    apply strict_eq_true in Hrole. now rewrite Hrole. }
  rewrite Hgate.
  destruct (Personnel.personalData personnel id); [|congruence].
  unfold Log.queryLatest. rewrite (queryPartition_none _ _ Hempty).
  reflexivity.
Qed.

(** C10 on the fixtures: E1 asks for their own sequence, the log table is
    empty. *)
Lemma C10_witness :
  Sequence.handler Fixtures.personnel []
    {| Sequence.claims := Fixtures.claimsOf "E1" "employee";
       Sequence.employeeId := Some "E1" |}
  = {| Sequence.statusCode := 200;
       Sequence.body := Sequence.Result
         {| Sequence.r_employeeId := "E1";
            Sequence.latestSequenceNumber := 0;
            Sequence.latestTimestamp := None;
            Sequence.latestTimestampType := None;
            Sequence.r_hashChain := None |} |}.
Proof.
  apply (C10_empty_ledger_sequence_zero Fixtures.personnel []
           {| Sequence.claims := Fixtures.claimsOf "E1" "employee";
              Sequence.employeeId := Some "E1" |} "E1").
  - reflexivity.
  - reflexivity.
  - discriminate.
  - reflexivity.
  - discriminate.
  - intros it [].
Defined.

(** ** The weekly summary of the timesheet *)

Section WeeklySummary.

Lemma sumHours_sum {A : Type} (f : A -> Num.t) (l : list A) :
  Timesheet.sumHours f l = Payroll.sum (map f l).
Proof.
  unfold Timesheet.sumHours, Payroll.sum. generalize 0.
  induction l as [|x l IH]; intro a; [reflexivity|].
  cbn [map fold_left]. apply IH.
Qed.

Lemma dailyTotals_split (day : Timesheet.Day) :
  let d := Timesheet.dailyTotals day in
  Timesheet.dailyRegularHours d
  = Num.min (Timesheet.totalHours d) (Hours.of_int 8)
  /\ Timesheet.dailyOvertimeHours d
     = Num.max 0 (Num.sub (Timesheet.totalHours d) (Hours.of_int 8)).
Proof. split; reflexivity. Qed.

Lemma payroll_days (logs : list Log.Item) :
  map snd (fst (Timesheet.calculatePayrollDetails logs))
  = map Timesheet.dailyTotals
        (map snd (Timesheet.segmentLoop (Log.sort_by_SK logs) None None [])).
Proof.
  unfold Timesheet.calculatePayrollDetails. cbn [fst].
  rewrite !map_map. apply map_ext. now intros [k d].
Qed.

Lemma five_nines (days : list Timesheet.Day) :
  List.length days = 5%nat ->
  Forall (fun d => Timesheet.totalHours d = Hours.of_int 9
                   /\ Timesheet.dailyRegularHours d
                      = Num.min (Timesheet.totalHours d) (Hours.of_int 8)
                   /\ Timesheet.dailyOvertimeHours d
                      = Num.max 0 (Num.sub (Timesheet.totalHours d)
                                           (Hours.of_int 8))) days ->
  Payroll.sum (map Timesheet.dailyRegularHours days) = Hours.of_int 40
  /\ Payroll.sum (map Timesheet.dailyOvertimeHours days) = Hours.of_int 5.
Proof.
  intros Hlen Hall.
  do 5 (destruct days as [|? days]; [discriminate Hlen|]).
  destruct days; [|discriminate Hlen].
  repeat match goal with
         | H : Forall _ (_ :: _) |- _ => inversion H; subst; clear H
         | H : _ /\ _ |- _ => destruct H
         end.
  cbn [map].
  repeat match goal with
         | H : Timesheet.dailyRegularHours _ = _ |- _ => rewrite H; clear H
         | H : Timesheet.dailyOvertimeHours _ = _ |- _ => rewrite H; clear H
         end.
  repeat match goal with
         | H : Timesheet.totalHours _ = _ |- _ => rewrite H; clear H
         end.
  split; vm_compute; reflexivity.
Qed.

(** A sum of hours is a double. *)
Lemma sum_is_double (l : list Num.t) : Num.is_double (Payroll.sum l).
Proof. apply is_double_sum, is_double_zero. Qed.

Lemma of_int_is_double (h : Z) : Num.is_double (Hours.of_int h).
Proof. apply is_double_round. lia. Qed.

(** Up to 40 regular hours nothing is moved; above 40 the amount above 40
    is moved, exactly, and 40 are left. (From [2^56] hours on, the doubles
    are more than 8 apart and the difference is rounded.) *)
Lemma weekly_threshold (days : list Timesheet.Day) :
  let regular := Payroll.sum (map Timesheet.dailyRegularHours days) in
  (regular <= Hours.of_int 40 ->
   Payroll.weeklyOvertime days = 0 /\ Payroll.weeklyRegular days = regular)
  /\ (Hours.of_int 40 <= regular < Hours.of_int (2 ^ 56) ->
      Payroll.weeklyOvertime days = regular - Hours.of_int 40
      /\ Payroll.weeklyRegular days = Hours.of_int 40).
Proof.
  intro regular.
  pose proof (sum_is_double (map Timesheet.dailyRegularHours days)) as Hd.
  fold regular in Hd.
  assert (H40 : Hours.of_int 40 = 5 * 2 ^ 1077) by (vm_compute; reflexivity).
  assert (Hmax : Hours.of_int (2 ^ 56) = 2 ^ (53 + 1077))
    by (vm_compute; reflexivity).
  unfold Payroll.weeklyRegular, Payroll.weeklyOvertime. fold regular.
  split.
  - intro Hle.
    assert (Hsub : Num.sub regular (Hours.of_int 40) <= 0).
    { rewrite <- (round_zero 1) by lia.
      unfold Num.sub. apply round_mono; lia. }
    unfold Num.max. rewrite Z.max_l by exact Hsub.
    split; [reflexivity|]. unfold Num.sub. rewrite Z.sub_0_r. exact Hd.
  - intros [Hge Hlt].
    assert (Hsub : Num.sub regular (Hours.of_int 40) = regular - Hours.of_int 40).
    { rewrite H40 in *. apply sub_multiple_exact; [exact Hd|lia| |lia].
      split; [|exact Hge]. apply Z.mul_nonneg_nonneg; [lia|].
      apply Z.pow_nonneg. lia. }
    rewrite Hsub. unfold Num.max. rewrite Z.max_r by lia.
    split; [reflexivity|].
    unfold Num.sub.
    replace (regular - (regular - Hours.of_int 40)) with (Hours.of_int 40) by lia.
    apply of_int_is_double.
Qed.

End WeeklySummary.

(** C2. The weekly summary sums the days' regular hours, moves what exceeds
    40 hours into weekly overtime, and reports as overtime that amount plus
    the days' daily overtime; every sum, difference and comparison is that
    of double-precision numbers, taken in the order of the days, and each
    figure is reported as [parseFloat] of its [toFixed(2)]. Every day splits
    its total at 8 hours. Up to 40 summed regular hours nothing is moved;
    above 40 (and below [2^56] hours, where the doubles come to be more than
    8 apart) the regular hours left are 40 and the amount moved is exactly
    the rest. Five days of 9 hours each give 40 regular hours and 5 overtime
    hours. *)
Theorem C2_weekly_summary (logs : list Log.Item) :
  let daily := fst (Timesheet.calculatePayrollDetails logs) in
  let w := snd (Timesheet.calculatePayrollDetails logs) in
  let days := map snd daily in
  let regular := Payroll.sum (map Timesheet.dailyRegularHours days) in
  Forall (fun d =>
            Timesheet.dailyRegularHours d
            = Num.min (Timesheet.totalHours d) (Hours.of_int 8)
            /\ Timesheet.dailyOvertimeHours d
               = Num.max 0 (Num.sub (Timesheet.totalHours d)
                                    (Hours.of_int 8))) days
  /\ Timesheet.regularHours w = Hours.toFixed 2 (Payroll.weeklyRegular days)
  /\ Timesheet.overtimeHours w = Hours.toFixed 2 (Payroll.totalOvertime days)
  /\ (regular <= Hours.of_int 40 ->
      Payroll.weeklyOvertime days = 0 /\ Payroll.weeklyRegular days = regular)
  /\ (Hours.of_int 40 <= regular < Hours.of_int (2 ^ 56) ->
      Payroll.weeklyOvertime days = regular - Hours.of_int 40
      /\ Payroll.weeklyRegular days = Hours.of_int 40)
  /\ (List.length days = 5%nat ->
      Forall (fun d => Timesheet.totalHours d = Hours.of_int 9) days ->
      Timesheet.regularHours w = Hours.of_int 40
      /\ Timesheet.overtimeHours w = Hours.of_int 5).
Proof.
  intros daily w days regular.
  assert (Hsplit : Forall (fun d =>
            Timesheet.dailyRegularHours d
            = Num.min (Timesheet.totalHours d) (Hours.of_int 8)
            /\ Timesheet.dailyOvertimeHours d
               = Num.max 0 (Num.sub (Timesheet.totalHours d)
                                    (Hours.of_int 8))) days).
  { subst days daily. rewrite payroll_days. apply Forall_forall.
    intros d Hd. apply in_map_iff in Hd as [d0 [<- _]].
    apply dailyTotals_split. }
  assert (Hreg : Timesheet.regularHours w
                 = Hours.toFixed 2 (Payroll.weeklyRegular days)).
  { subst w days daily. unfold Timesheet.calculatePayrollDetails.
    cbn [fst snd Timesheet.weekly Timesheet.regularHours].
    unfold Payroll.weeklyRegular, Payroll.weeklyOvertime.
    now rewrite !sumHours_sum. }
  assert (Hot : Timesheet.overtimeHours w
                = Hours.toFixed 2 (Payroll.totalOvertime days)).
  { subst w days daily. unfold Timesheet.calculatePayrollDetails.
    cbn [fst snd Timesheet.weekly Timesheet.overtimeHours].
    unfold Payroll.totalOvertime, Payroll.weeklyOvertime.
    now rewrite !sumHours_sum. }
  split; [exact Hsplit|]. split; [exact Hreg|]. split; [exact Hot|].
  split; [apply (weekly_threshold days)|].
  split; [apply (weekly_threshold days)|].
  intros Hlen Hnine.
  assert (Hall : Forall (fun d => Timesheet.totalHours d = Hours.of_int 9
                   /\ Timesheet.dailyRegularHours d
                      = Num.min (Timesheet.totalHours d) (Hours.of_int 8)
                   /\ Timesheet.dailyOvertimeHours d
                      = Num.max 0 (Num.sub (Timesheet.totalHours d)
                                           (Hours.of_int 8))) days).
  { apply Forall_forall. intros d Hd.
    rewrite Forall_forall in Hnine, Hsplit.
    split; [now apply Hnine|now apply Hsplit]. }
  destruct (five_nines days Hlen Hall) as [E40 E5].
  rewrite Hreg, Hot.
  unfold Payroll.totalOvertime, Payroll.weeklyRegular, Payroll.weeklyOvertime.
  rewrite E40, E5. split; vm_compute; reflexivity.
Qed.

(** C2 on the week of five nine-hour days. *)
Lemma C2_witness :
  Timesheet.regularHours (snd (Timesheet.calculatePayrollDetails Fixtures.fiveDayWeek))
  = Hours.of_int 40
  /\ Timesheet.overtimeHours (snd (Timesheet.calculatePayrollDetails Fixtures.fiveDayWeek))
     = Hours.of_int 5.
Proof.
  apply (C2_weekly_summary Fixtures.fiveDayWeek).
  - vm_compute. reflexivity.
  - vm_compute. repeat constructor.
Defined.

(** ** Daily totals of the timesheet *)

Section DailyTotals.

(** Whatever the loop left in [totalHours], the pass over the days replaces
    it with the sum of the day's closed segments. *)
Lemma day_total_is_segment_sum (logs : list Log.Item) :
  Forall (fun kd =>
            Timesheet.totalHours (snd kd)
            = Payroll.sum (map Timesheet.seg_totalHours
                               (Timesheet.allocations (snd kd))))
         (fst (Timesheet.calculatePayrollDetails logs)).
Proof.
  unfold Timesheet.calculatePayrollDetails. cbn [fst].
  apply Forall_forall. intros [k d] Hin.
  apply in_map_iff in Hin as [[k0 d0] [Heq _]].
  injection Heq as <- <-. cbn [snd Timesheet.dailyTotals Timesheet.totalHours
                                  Timesheet.allocations].
  apply sumHours_sum.
Qed.

End DailyTotals.

(** C6. On the day 08:00 in, break 10:00 to 10:15, 16:00 out, the loop
    does subtract the quarter hour, but the later pass overwrites the day's
    total with the sum of the segments: the day totals 7.75 hours, which is
    the segment sum, and not 7.5 hours, the segment sum less the break. *)
Theorem C6_day_total_not_reduced_by_breaks :
  let logs := Log.sort_by_SK Fixtures.dayWithBreak in
  let loopTotals :=
    map (fun kd => (fst kd, Timesheet.totalHours (snd kd)))
        (Timesheet.segmentLoop logs None None []) in
  let days :=
    map (fun kd => (fst kd,
                    Timesheet.totalHours (snd kd),
                    Payroll.sum (map Timesheet.seg_totalHours
                                     (Timesheet.allocations (snd kd)))))
        (fst (Timesheet.calculatePayrollDetails Fixtures.dayWithBreak)) in
  Payroll.breakTime logs None = 900000
  /\ loopTotals = [("2025-01-01", Num.decimal (- 25) 2)]
  /\ days = [("2025-01-01", Num.decimal 775 2, Num.decimal 775 2)]
  /\ Num.sub (Num.decimal 775 2) (Hours.of_ms (Payroll.breakTime logs None))
     = Num.decimal 75 1.
Proof. vm_compute. repeat split; reflexivity. Qed.

(** ** The clock boundary of the attendance aggregator *)

Section ClockBoundary.

Lemma find_none_filter {A : Type} (f : A -> bool) (l : list A) :
  find f l = None <-> filter f l = [].
Proof.
  induction l as [|x l IH]; simpl; [tauto|].
  destruct (f x); [split; discriminate|exact IH].
Qed.

Lemma breakTotal_error (logs : list Log.Item) (start : option Z) (acc : Z)
    (e : string) :
  Attendance.breakTotal logs start acc = inl e ->
  e = Attendance.ExcessiveBreakDuration.
Proof.
  revert start acc.
  induction logs as [|log rest IH]; intros start acc; simpl; [discriminate|].
  destruct (Log.timestampType log =? "BREAK_START")%string; [apply IH|].
  destruct start as [s|]; [|apply IH].
  destruct (Log.timestampType log =? "BREAK_END")%string; [|apply IH].
  destruct (_ >? _).
  - intro H. injection H as <-. reflexivity.
  - apply IH.
Qed.

End ClockBoundary.

(** C7 (as the code has it). The aggregation fails with
    [MissingClockBoundary] exactly when the day's events hold no [CLOCK_IN]
    or no [CLOCK_OUT]; in particular a day without any [CLOCK_OUT] is
    rejected. *)
Theorem C7_missing_clock_boundary (org : Org.Table) (logs : list Log.Item) :
  Attendance.processTimestampLogs org logs = inl Attendance.MissingClockBoundary
  <-> (List.length (filter (Attendance.isType "CLOCK_IN") logs) = 0%nat
       \/ List.length (filter (Attendance.isType "CLOCK_OUT") logs) = 0%nat).
Proof.
  rewrite !length_zero_iff_nil, <- !find_none_filter.
  unfold Attendance.processTimestampLogs.
  destruct (find (Attendance.isType "CLOCK_IN") logs) as [clockIn|];
    [|split; [now left|reflexivity]].
  destruct (find (Attendance.isType "CLOCK_OUT") logs) as [clockOut|];
    [|split; [now right|reflexivity]].
  split; [|intros [H|H]; discriminate H].
  destruct (Log.timestamp clockOut - Log.timestamp clockIn >? 12 * 60 * 60 * 1000);
    [discriminate|].
  destruct (Attendance.breakTotal logs None 0) as [e|total] eqn:Hb;
    cbn [Ledger.bind]; [|discriminate].
  apply breakTotal_error in Hb. subst e. discriminate.
Qed.

(** C7, the claim as stated fails: the day worked in two shifts holds two
    [CLOCK_IN] events (and two [CLOCK_OUT]), yet it is aggregated, from the
    first of each, and the record is created. *)
Lemma C7_two_clock_ins_accepted :
  let logs := Log.queryPartition Fixtures.splitShift "EMP#E1" in
  Attendance.getLogsForDate Fixtures.splitShift "E1" "2025-01-01" = inr logs
  /\ List.length (filter (Attendance.isType "CLOCK_IN") logs) = 2%nat
  /\ List.length (filter (Attendance.isType "CLOCK_OUT") logs) = 2%nat
  /\ Attendance.processTimestampLogs Fixtures.org logs
     = inr {| Attendance.checkInTime := Fixtures.clock 0 8 0;
              Attendance.checkOutTime := Fixtures.clock 0 12 0;
              Attendance.totalHours := Hours.of_int 4;
              Attendance.regularHours := Hours.of_int 4;
              Attendance.overtimeHours := 0;
              Attendance.breaks := 0;
              Attendance.wbsCode := Some "WBS-1";
              Attendance.location := None;
              Attendance.costCenter := Some "CC-1" |}
  /\ Attendance.statusCode
       (fst (Attendance.handler Fixtures.utils Fixtures.org Fixtures.splitShift
               [] "uuid-1" (Fixtures.clock 1 9 0) Fixtures.attend)) = 201.
Proof. vm_compute. repeat split; reflexivity. Qed.

Example attendance_open_day_rejected :
  fst (Attendance.handler Fixtures.utils Fixtures.org Fixtures.openDay
         [] "uuid-1" (Fixtures.clock 1 9 0) Fixtures.attend)
  = {| Attendance.statusCode := 400;
       Attendance.message := "Failed to create attendance record.";
       Attendance.r_attendanceId := None;
       Attendance.r_error := Some Attendance.MissingClockBoundary |}.
Proof. vm_compute. reflexivity. Qed.

Example attendance_day_with_break :
  option_map Attendance.details
    (match snd (Attendance.handler Fixtures.utils Fixtures.org
                  Fixtures.dayWithBreak [] "uuid-1" (Fixtures.clock 1 9 0)
                  Fixtures.attend) with
     | Attendance.AttendanceItem a :: _ => Some a
     | _ => None
     end)
  = Some {| Attendance.checkInTime := Fixtures.clock 0 8 0;
            Attendance.checkOutTime := Fixtures.clock 0 16 0;
            Attendance.totalHours := Num.decimal 775 2;
            Attendance.regularHours := Num.decimal 775 2;
            Attendance.overtimeHours := 0;
            Attendance.breaks := 1;
            Attendance.wbsCode := Some "WBS-1";
            Attendance.location := None;
            Attendance.costCenter := Some "CC-1" |}.
Proof. vm_compute. reflexivity. Qed.

(** ** The date range of the timesheet *)

Section DateRange.

Lemma compare_extension (d : string) (c : ascii) (r : string) :
  String.compare (d ++ String c r) d = Gt.
Proof.
  induction d as [|a d IH]; simpl; [reflexivity|].
  unfold Ascii.compare. now rewrite N.compare_refl.
Qed.

Lemma leb_extension (d : string) (c : ascii) (r : string) :
  String.leb (d ++ String c r) d = false.
Proof. unfold String.leb. now rewrite compare_extension. Qed.

Lemma leb_prefix (d r : string) : String.leb d (d ++ r) = true.
Proof.
  unfold String.leb.
  assert (H : String.compare d (d ++ r) <> Gt).
  { induction d as [|a d IH]; simpl.
    - destruct r; discriminate.
    - unfold Ascii.compare. now rewrite N.compare_refl. }
  destruct (String.compare d (d ++ r)); congruence.
Qed.

End DateRange.

(** C9. An event whose calendar date is the end date of the range is never
    in the fetched set: its sort key is the end date followed by the time of
    day, which is above the end date in the order of the store. *)
Theorem C9_end_date_events_excluded (logTable : Log.Table)
    (employeeId startDate endDate : string) (it : Log.Item)
    (Hdate : Iso.dateOnly (Log.timestamp it) = endDate) :
  ~ In it (Timesheet.fetchAllLogsForRange logTable employeeId startDate endDate).
Proof.
  unfold Timesheet.fetchAllLogsForRange. intro Hin.
  apply filter_In in Hin as [_ Hb].
  unfold Timesheet.between in Hb. apply andb_true_iff in Hb as [_ Hle].
  unfold Log.SK, Iso.toISOString in Hle. rewrite Hdate in Hle.
  change (endDate ++ "T" ++ Iso.timeOnly (Log.timestamp it))
    with (endDate ++ String "T" (Iso.timeOnly (Log.timestamp it))) in Hle.
  rewrite leb_extension in Hle. discriminate.
Qed.

(** C9 on the week of five days asked from 2025-01-01 to 2025-01-05: the
    clock-in of 2025-01-05 is stored and is not fetched. *)
Lemma C9_witness :
  let it := Fixtures.nthEvent Fixtures.fiveDayWeek 8 in
  Log.timestampType it = "CLOCK_IN"
  /\ Log.SK it = "2025-01-05T08:00:00.000Z"
  /\ In it Fixtures.fiveDayWeek
  /\ ~ In it (Timesheet.fetchAllLogsForRange Fixtures.fiveDayWeek "E1"
                "2025-01-01" "2025-01-05").
Proof.
  split; [vm_compute; reflexivity|].
  split; [vm_compute; reflexivity|].
  split.
  - vm_compute. right. left. reflexivity.
  - apply (C9_end_date_events_excluded Fixtures.fiveDayWeek "E1"
             "2025-01-01" "2025-01-05" (Fixtures.nthEvent Fixtures.fiveDayWeek 8)).
    vm_compute. reflexivity.
Defined.

(** The start of the range is inclusive: an event on the start date is
    above the lower bound. *)
Lemma start_date_lower_bound (startDate : string) (it : Log.Item) :
  Iso.dateOnly (Log.timestamp it) = startDate ->
  String.leb startDate (Log.SK it) = true.
Proof. intros <-. apply leb_prefix. Qed.

Example timesheet_range_drops_last_day :
  map Log.SK (Timesheet.fetchAllLogsForRange Fixtures.fiveDayWeek "E1"
                "2025-01-01" "2025-01-05")
  = [ "2025-01-01T08:00:00.000Z"; "2025-01-01T17:00:00.000Z";
      "2025-01-02T08:00:00.000Z"; "2025-01-02T17:00:00.000Z";
      "2025-01-03T08:00:00.000Z"; "2025-01-03T17:00:00.000Z";
      "2025-01-04T08:00:00.000Z"; "2025-01-04T17:00:00.000Z" ].
Proof. vm_compute. reflexivity. Qed.

(** The week of five nine-hour days, asked from its first to its last date,
    is reported as four days: 32 regular and 4 overtime hours. *)
Example timesheet_week_reported_short :
  match Timesheet.body (Timesheet.handler Fixtures.personnel Fixtures.fiveDayWeek
                          Fixtures.timesheet) with
  | Timesheet.Json _ _ _ w daily =>
      Some (List.length daily, Timesheet.regularHours w, Timesheet.overtimeHours w)
  | _ => None
  end = Some (4%nat, Hours.of_int 32, Hours.of_int 4).
Proof. vm_compute. reflexivity. Qed.

(** ** The hash class of the auditor *)

(** C5. With the stored [hashChain] of the first event overwritten, the
    entry carries the error 'First hash should be GENESIS.', but the word
    the hash class is filed under is 'Hash': the entry is filed nowhere, and
    the report is VALID with no error in any class. The same overwrite on the
    second event is reported INVALID with exactly one hash error. *)
Theorem C5_first_event_hash_unreported :
  let answer n :=
    match Auditor.body (Auditor.handler Fixtures.personnel (Fixtures.tampered n)
                          (Fixtures.clock 1 9 0) Fixtures.audit) with
    | Auditor.Validated r =>
        Some (Auditor.validationStatus r, Auditor.summary r,
              map Auditor.errors (Auditor.r_validationResults r))
    | _ => None
    end in
  answer 0%nat
  = Some ("VALID",
          {| Auditor.totalLogs := 4; Auditor.sequenceErrors := 0;
             Auditor.chronologicalErrors := 0; Auditor.hashChainErrors := 0;
             Auditor.stateErrors := 0; Auditor.breakValidationErrors := 0 |},
          [["First hash should be GENESIS."]; []; []; []])
  /\ answer 1%nat
     = Some ("INVALID",
             {| Auditor.totalLogs := 4; Auditor.sequenceErrors := 0;
                Auditor.chronologicalErrors := 0; Auditor.hashChainErrors := 1;
                Auditor.stateErrors := 0; Auditor.breakValidationErrors := 0 |},
             [[]; ["Hash mismatch."]; []; []]).
Proof. vm_compute. split; reflexivity. Qed.

(** ** One attendance record per employee and date *)

Section AttendanceOnce.

Lemma existing_after_create (a : Attendance.Record_) (tbl : Attendance.Table) :
  (0 <? List.length
          (Attendance.existingAttendance (Attendance.AttendanceItem a :: tbl)
             (Attendance.employeeId a) (Attendance.attendanceDate a)))%nat = true.
Proof.
  unfold Attendance.existingAttendance. cbn [filter].
  cbn [Attendance.GSI4PK Attendance.GSI4SK JS.strict_eq].
  now rewrite !String.eqb_refl.
Qed.

Lemma passes_then_record (u : Utils.t) (org : Org.Table) (logTable : Log.Table)
    (timeTable : Attendance.Table) (uuid : string) (now : Z)
    (event : Attendance.Request) (employeeId attendanceDate : string) :
  Attendance.passesChecks u event employeeId attendanceDate ->
  Attendance.handler u org logTable timeTable uuid now event
  = match Attendance.createRecord u org logTable timeTable uuid now
            (Attendance.body event) (Some employeeId) employeeId attendanceDate with
    | inl err =>
        ({| Attendance.statusCode := 400;
            Attendance.message := "Failed to create attendance record.";
            Attendance.r_attendanceId := None;
            Attendance.r_error := Some err |}, timeTable)
    | inr (attendanceId, timeTable') =>
        ({| Attendance.statusCode := 201;
            Attendance.message := "Attendance record created successfully.";
            Attendance.r_attendanceId := Some attendanceId;
            Attendance.r_error := None |}, timeTable')
    end.
Proof.
  intros (Hauth & Hvalid & He & Hd & Hne & Hnd & Hreq).
  unfold Attendance.handler. rewrite Hauth, Hvalid, He, Hd, Hreq. cbn [negb].
  apply String.eqb_neq in Hne, Hnd. rewrite Hne, Hnd. cbn [orb JS.strict_eq].
  now rewrite String.eqb_refl.
Qed.

(** A call that answers anything but 201 leaves the table as it was. *)
Lemma handler_cases (u : Utils.t) (org : Org.Table) (logTable : Log.Table)
    (timeTable : Attendance.Table) (uuid : string) (now : Z)
    (event : Attendance.Request) :
  (Attendance.statusCode
     (fst (Attendance.handler u org logTable timeTable uuid now event)) <> 201
   /\ snd (Attendance.handler u org logTable timeTable uuid now event) = timeTable)
  \/ (exists employeeId attendanceDate,
        Attendance.passesChecks u event employeeId attendanceDate).
Proof.
  unfold Attendance.handler, Attendance.passesChecks.
  destruct (Auth.isAuthorized (Attendance.claims event) ["employee"]);
    cbn [negb]; [|left; split; [discriminate|reflexivity]].
  destruct (Utils.isValid _);
    cbn [negb]; [|left; split; [discriminate|reflexivity]].
  destruct (Attendance.b_employeeId (Attendance.body event)) as [e|];
    [|left; split; [discriminate|reflexivity]].
  destruct (Attendance.b_attendanceDate (Attendance.body event)) as [d|];
    [|left; split; [discriminate|reflexivity]].
  destruct (e =? "")%string eqn:He;
    cbn [orb]; [left; split; [discriminate|reflexivity]|].
  destruct (d =? "")%string eqn:Hd; [left; split; [discriminate|reflexivity]|].
  destruct (JS.strict_eq (Auth.getRequestingUser (Attendance.claims event)) (Some e))
    eqn:Hreq; cbn [negb]; [|left; split; [discriminate|reflexivity]].
  right. exists e, d. apply strict_eq_true in Hreq.
  apply String.eqb_neq in He, Hd. repeat split; assumption.
Qed.

(** What a successful call has checked and written. *)
Lemma created (u : Utils.t) (org : Org.Table) (logTable : Log.Table)
    (timeTable : Attendance.Table) (uuid : string) (now : Z)
    (event : Attendance.Request) :
  Attendance.statusCode
    (fst (Attendance.handler u org logTable timeTable uuid now event)) = 201 ->
  exists a,
    snd (Attendance.handler u org logTable timeTable uuid now event)
    = Attendance.AttendanceItem a :: timeTable
    /\ Attendance.passesChecks u event (Attendance.employeeId a)
                               (Attendance.attendanceDate a).
Proof.
  intro Hok.
  destruct (handler_cases u org logTable timeTable uuid now event)
    as [[Hno _]|(e & d & Hpass)]; [contradiction|].
  rewrite (passes_then_record _ _ _ _ _ _ _ _ _ Hpass) in Hok |- *.
  destruct (Attendance.createRecord u org logTable timeTable uuid now
              (Attendance.body event) (Some e) e d) as [err|[id tbl]] eqn:Hc;
    [discriminate Hok|].
  unfold Attendance.createRecord in Hc.
  apply bind_inr in Hc as (_ & _ & Hc).
  apply bind_inr in Hc as (_ & _ & Hc).
  apply bind_inr in Hc as (logs & _ & Hc).
  apply bind_inr in Hc as (details & _ & Hc).
  unfold Attendance.putIfAbsent in Hc.
  destruct (existsb _ timeTable); [discriminate Hc|].
  injection Hc as _ <-. cbn [snd].
  eexists. split; [reflexivity|]. exact Hpass.
Qed.

End AttendanceOnce.

(** C8 (as the code has it). After a call that created the record of an
    employee and date, any later call for the same employee and date leaves
    the table as it is and does not answer 201; when it gets through the
    authorization and input checks, as a repetition of the first call does,
    it fails on the direct existence check with the error 'An attendance
    record for this date already exists'. The conditional write plays no part
    in this: it is keyed on the record's own fresh identifier. *)
Theorem C8_second_call_conflicts (u : Utils.t) (org org' : Org.Table)
    (logTable logTable' : Log.Table) (timeTable : Attendance.Table)
    (uuid uuid' : string) (now now' : Z) (event event' : Attendance.Request)
    (employeeId attendanceDate : string)
    (Hfirst : Attendance.statusCode
                (fst (Attendance.handler u org logTable timeTable uuid now event))
              = 201)
    (He : Attendance.b_employeeId (Attendance.body event) = Some employeeId)
    (Hd : Attendance.b_attendanceDate (Attendance.body event) = Some attendanceDate)
    (He' : Attendance.b_employeeId (Attendance.body event') = Some employeeId)
    (Hd' : Attendance.b_attendanceDate (Attendance.body event') = Some attendanceDate) :
  let timeTable1 :=
    snd (Attendance.handler u org logTable timeTable uuid now event) in
  let conflict :=
    {| Attendance.statusCode := 400;
       Attendance.message := "Failed to create attendance record.";
       Attendance.r_attendanceId := None;
       Attendance.r_error := Some (Attendance.Conflict attendanceDate) |} in
  let second := Attendance.handler u org' logTable' timeTable1 uuid' now' event' in
  snd second = timeTable1
  /\ Attendance.statusCode (fst second) <> 201
  /\ (Attendance.passesChecks u event' employeeId attendanceDate ->
      fst second = conflict)
  /\ Attendance.handler u org' logTable' timeTable1 uuid' now' event
     = (conflict, timeTable1).
Proof.
  intros timeTable1 conflict second.
  destruct (created _ _ _ _ _ _ _ Hfirst) as (a & Htbl & Hpass).
  assert (Ha : Attendance.employeeId a = employeeId
               /\ Attendance.attendanceDate a = attendanceDate).
  { destruct Hpass as (_ & _ & He2 & Hd2 & _). split; congruence. }
  destruct Ha as [Hae Had]. subst employeeId attendanceDate.
  assert (Hconf : forall ev,
    Attendance.passesChecks u ev (Attendance.employeeId a)
                            (Attendance.attendanceDate a) ->
    Attendance.handler u org' logTable' timeTable1 uuid' now' ev
    = (conflict, timeTable1)).
  { intros ev Hev. rewrite (passes_then_record _ _ _ _ _ _ _ _ _ Hev).
    unfold Attendance.createRecord. subst timeTable1. rewrite Htbl.
    rewrite existing_after_create. reflexivity. }
  assert (Hsecond : snd second = timeTable1
                    /\ Attendance.statusCode (fst second) <> 201).
  { destruct (handler_cases u org' logTable' timeTable1 uuid' now' event')
      as [[Hno Hsame]|(e & d & Hev)]; [now split|].
    assert (Hev' : Attendance.passesChecks u event' (Attendance.employeeId a)
                                           (Attendance.attendanceDate a)).
    { destruct Hev as (H1 & H2 & H3 & H4 & H5 & H6 & H7).
      assert (e = Attendance.employeeId a) by congruence.
      assert (d = Attendance.attendanceDate a) by congruence. subst e d.
      repeat split; assumption. }
    subst second. rewrite (Hconf _ Hev'). split; [reflexivity|discriminate]. }
  destruct Hsecond as [Hs1 Hs2].
  repeat split; try assumption.
  - intro Hev. subst second. now rewrite (Hconf _ Hev).
  - now apply Hconf.
Qed.

(** C8 on the fixtures: E1 asks twice for the record of 2025-01-01. *)
Lemma C8_witness :
  let timeTable1 := Fixtures.attendanceOf "uuid-1" in
  Attendance.handler Fixtures.utils Fixtures.org Fixtures.dayWithBreak
    timeTable1 "uuid-2" (Fixtures.clock 2 9 0) Fixtures.attend
  = ({| Attendance.statusCode := 400;
        Attendance.message := "Failed to create attendance record.";
        Attendance.r_attendanceId := None;
        Attendance.r_error := Some (Attendance.Conflict "2025-01-01") |},
     timeTable1).
Proof.
  apply (C8_second_call_conflicts Fixtures.utils Fixtures.org Fixtures.org
           Fixtures.dayWithBreak Fixtures.dayWithBreak [] "uuid-1" "uuid-2"
           (Fixtures.clock 1 9 0) (Fixtures.clock 2 9 0)
           Fixtures.attend Fixtures.attend "E1" "2025-01-01").
  - vm_compute. reflexivity.
  - reflexivity.
  - reflexivity.
  - reflexivity.
  - reflexivity.
Defined.

(** C8, the claim as stated fails: the conditional write is not a
    uniqueness constraint on (employee, date). With E1's record of
    2025-01-01 stored under one identifier, the write of a second record of
    the same employee and date under another identifier goes through, and the
    table then holds two records for that employee and date. *)
Lemma C8_write_not_keyed_on_employee_date :
  match Fixtures.attendanceOf "uuid-2" with
  | [second] =>
      let stored := Fixtures.attendanceOf "uuid-1" in
      List.length (Attendance.existingAttendance stored "E1" "2025-01-01") = 1%nat
      /\ Attendance.GSI4PK second = Some "ATT#E1"
      /\ Attendance.GSI4SK second = Some "DATE#2025-01-01"
      /\ Attendance.putIfAbsent stored second = Some (second :: stored)
      /\ List.length (Attendance.existingAttendance (second :: stored)
                        "E1" "2025-01-01") = 2%nat
  | _ => False
  end.
Proof. vm_compute. repeat split; reflexivity. Qed.

(** ** The transition table of the ledger *)

Section Transitions.

Lemma array_includes_In (l : list string) (x : string) :
  JS.array_includes l x = true <-> In x l.
Proof.
  unfold JS.array_includes. rewrite existsb_exists. split.
  - intros (y & Hy & He). apply String.eqb_eq in He. now subst.
  - intro H. exists x. split; [assumption|apply String.eqb_refl].
Qed.

(** The table of the handler is the table of section 4.1. *)
Lemma transitionAllowed_legalNext (last attempted : string) :
  In last Chain.eventTypes ->
  (Ledger.transitionAllowed last attempted = true
   <-> In attempted (Chain.legalNext last)).
Proof.
  intro H. cbn in H.
  destruct H as [<-|[<-|[<-|[<-|[<-|[]]]]]];
    unfold Ledger.transitionAllowed; cbn [Ledger.validTransitions
      Chain.legalNext String.eqb Ascii.eqb Bool.eqb];
    apply array_includes_In.
Qed.

Lemma ledger_passes (u : Utils.t) (personnel : Personnel.Table)
    (org : Org.Table) (logTable : Log.Table) (now : Z)
    (event : Ledger.Request) (id : string) :
  Ledger.passesChecks u event id ->
  Ledger.handler u personnel org logTable now event
  = match Ledger.appendEvent u personnel org logTable now (Ledger.body event) id with
    | inl err =>
        ({| Ledger.statusCode := 400;
            Ledger.message := if (err =? "")%string then "An error occurred." else err;
            Ledger.r_timestamp := None |}, logTable)
    | inr (timestamp, logTable') =>
        ({| Ledger.statusCode := 201;
            Ledger.message := "Timestamp recorded successfully.";
            Ledger.r_timestamp := Some timestamp |}, logTable')
    end.
Proof.
  intros (Hauth & Hvalid & He & Hreq).
  unfold Ledger.handler. rewrite Hauth, Hvalid, He, Hreq.
  cbn [negb JS.strict_eq]. now rewrite String.eqb_refl.
Qed.

(** A call either stops at step 1, answering 403 or 400 and writing
    nothing, or gets through it for the employee its body names. *)
Lemma ledger_cases (u : Utils.t) (personnel : Personnel.Table)
    (org : Org.Table) (logTable : Log.Table) (now : Z)
    (event : Ledger.Request) :
  (Ledger.statusCode
     (fst (Ledger.handler u personnel org logTable now event)) <> 201
   /\ snd (Ledger.handler u personnel org logTable now event) = logTable)
  \/ (exists id, Ledger.passesChecks u event id).
Proof.
  unfold Ledger.handler, Ledger.passesChecks.
  destruct (Auth.isAuthorized (Ledger.claims event) ["employee"]);
    cbn [negb]; [|left; split; [discriminate|reflexivity]].
  destruct (Utils.isValid _);
    cbn [negb]; [|left; split; [discriminate|reflexivity]].
  destruct (Ledger.employeeId (Ledger.body event)) as [e|];
    [|left; split; [discriminate|reflexivity]].
  destruct (JS.strict_eq (Auth.getRequestingUser (Ledger.claims event)) (Some e))
    eqn:Hreq; cbn [negb]; [|left; split; [discriminate|reflexivity]].
  right. exists e. apply strict_eq_true in Hreq. repeat split; assumption.
Qed.

(** From a last event whose type does not allow the requested one, the
    append throws, whatever the earlier validations did. *)
Lemma appendEvent_illegal (u : Utils.t) (personnel : Personnel.Table)
    (org : Org.Table) (logTable : Log.Table) (now : Z) (body : Ledger.Body)
    (id attempted : string) (latest : Log.Item) :
  Ledger.timestampType body = Some attempted ->
  Ledger.getLatestTimestamp logTable id = Some latest ->
  Ledger.transitionAllowed (Log.timestampType latest) attempted = false ->
  (exists err, Ledger.appendEvent u personnel org logTable now body id = inl err)
  /\ (forall employee wbs,
        Ledger.validateEmployee personnel id = inr employee ->
        Ledger.checkWbsCode personnel org body id attempted = inr wbs ->
        Ledger.appendEvent u personnel org logTable now body id
        = inl (Ledger.InvalidTransition attempted (Log.timestampType latest))).
Proof.
  intros Hty Hlatest Hillegal.
  unfold Ledger.appendEvent. rewrite Hty, Hlatest.
  unfold Ledger.chainFields at 1 2. rewrite Hillegal. cbn [negb].
  split.
  - destruct (Ledger.validateEmployee personnel id) as [e|employee];
      cbn [Ledger.bind]; [now exists e|].
    destruct (Ledger.checkWbsCode personnel org body id attempted) as [e|wbs];
      cbn [Ledger.bind]; [now exists e|].
    eexists. reflexivity.
  - intros employee wbs -> ->. reflexivity.
Qed.

End Transitions.

(** C3. When the most recent event of the employee has type [last] and the
    requested type is not listed for [last] in the transition table of
    section 4.1, the call never answers 201 and writes no event; a request
    that gets through the authorization, input, employee and work-category
    validations is answered 400 with the 'Invalid action' error of the
    illegal transition. *)
Theorem C3_illegal_transition_rejected (u : Utils.t)
    (personnel : Personnel.Table) (org : Org.Table) (logTable : Log.Table)
    (now : Z) (event : Ledger.Request) (id last attempted : string)
    (latest : Log.Item)
    (Hid : Ledger.employeeId (Ledger.body event) = Some id)
    (Hty : Ledger.timestampType (Ledger.body event) = Some attempted)
    (Hlatest : Ledger.getLatestTimestamp logTable id = Some latest)
    (Hlast : Log.timestampType latest = last)
    (Hfive : In last Chain.eventTypes)
    (Hillegal : ~ In attempted (Chain.legalNext last)) :
  let answer := Ledger.handler u personnel org logTable now event in
  snd answer = logTable
  /\ Ledger.statusCode (fst answer) <> 201
  /\ (Ledger.passesChecks u event id ->
      forall employee wbs,
        Ledger.validateEmployee personnel id = inr employee ->
        Ledger.checkWbsCode personnel org (Ledger.body event) id attempted = inr wbs ->
        fst answer
        = {| Ledger.statusCode := 400;
             Ledger.message := Ledger.InvalidTransition attempted last;
             Ledger.r_timestamp := None |}).
Proof.
  intro answer.
  assert (Hno : Ledger.transitionAllowed (Log.timestampType latest) attempted = false).
  { rewrite Hlast. apply not_true_is_false.
    now rewrite (transitionAllowed_legalNext last attempted Hfive). }
  destruct (appendEvent_illegal u personnel org logTable now (Ledger.body event)
              id attempted latest Hty Hlatest Hno) as [[err Herr] Hexact].
  assert (Hrun : forall i, Ledger.passesChecks u event i -> i = id).
  { intros i (_ & _ & Hi & _). congruence. }
  assert (Hsafe : snd answer = logTable /\ Ledger.statusCode (fst answer) <> 201).
  { destruct (ledger_cases u personnel org logTable now event)
      as [[Hcode Hsame]|[i Hpass]]; [now split|].
    pose proof (Hrun i Hpass); subst i. subst answer.
    rewrite (ledger_passes _ _ _ _ _ _ _ Hpass), Herr.
    split; [reflexivity|discriminate]. }
  destruct Hsafe as [Hs1 Hs2]. repeat split; try assumption.
  intros Hpass employee wbs Hemp Hwbs. subst answer.
  rewrite (ledger_passes _ _ _ _ _ _ _ Hpass).
  rewrite (Hexact employee wbs Hemp Hwbs), Hlast. reflexivity.
Qed.

(** C3 on the fixtures: BREAK_END right after the first CLOCK_IN. *)
Lemma C3_witness :
  let tbl := Ledger.run Fixtures.utils [Fixtures.at_ (Fixtures.clock 0 8 0) "CLOCK_IN"] [] in
  Ledger.handler Fixtures.utils Fixtures.personnel Fixtures.org tbl
    (Fixtures.clock 0 9 0) (Fixtures.log "BREAK_END")
  = ({| Ledger.statusCode := 400;
        Ledger.message := "Invalid action: Cannot perform 'BREAK_END' after 'CLOCK_IN'.";
        Ledger.r_timestamp := None |}, tbl).
Proof.
  intro tbl.
  pose proof (C3_illegal_transition_rejected Fixtures.utils Fixtures.personnel
                Fixtures.org tbl (Fixtures.clock 0 9 0) (Fixtures.log "BREAK_END")
                "E1" "CLOCK_IN" "BREAK_END" (Fixtures.nthEvent tbl 0)
                eq_refl eq_refl eq_refl eq_refl
                (or_introl eq_refl)) as H.
  assert (Hill : ~ In "BREAK_END" (Chain.legalNext "CLOCK_IN")).
  { cbn. intros [H0|[H0|[H0|[]]]]; discriminate H0. }
  specialize (H Hill). cbv zeta in H. destruct H as (Hsnd & _ & Hfst).
  assert (Hpass : Ledger.passesChecks Fixtures.utils (Fixtures.log "BREAK_END") "E1").
  { repeat split; reflexivity. }
  specialize (Hfst Hpass {| Personnel.status := "ACTIVE" |} (Some "WBS-1")
                eq_refl eq_refl).
  rewrite (surjective_pairing (Ledger.handler _ _ _ _ _ _)).
  rewrite Hfst, Hsnd. reflexivity.
Defined.

(** ** The chain written by the ledger *)

Section LedgerChain.

Variable u : Utils.t.


Lemma chainFields_none (ty : string) (now s : Z) (p : option Z) (h : string) :
  Ledger.chainFields None ty now = inr (s, p, h) ->
  ty = "CLOCK_IN" /\ s = 1 /\ p = None /\ h = "GENESIS".
Proof.
  unfold Ledger.chainFields.
  destruct (ty =? "CLOCK_IN")%string eqn:E; cbn [negb]; [|discriminate].
  apply String.eqb_eq in E. intro H. injection H as <- <- <-. now repeat split.
Qed.

(** What a successful append has written. *)
Lemma appendEvent_inr (personnel : Personnel.Table) (org : Org.Table)
    (logTable : Log.Table) (now : Z) (body : Ledger.Body) (id : string)
    (ts : Z) (logTable' : Log.Table) :
  Ledger.appendEvent u personnel org logTable now body id = inr (ts, logTable') ->
  exists item,
    logTable' = item :: logTable
    /\ ts = now
    /\ Log.employeeId item = id
    /\ Log.timestamp item = now
    /\ Log.key_exists logTable ("EMP#" ++ id) now = false
    /\ Ledger.chainFields (Ledger.getLatestTimestamp logTable id)
                          (Log.timestampType item) now
       = inr (Log.sequenceNumber item, Log.previousTimestamp item,
              Log.hashChain item).
Proof.
  unfold Ledger.appendEvent. intro H.
  apply bind_inr in H as (employee & _ & H).
  apply bind_inr in H as (wbs & _ & H).
  apply bind_inr in H as ([[s p] h] & Hchain & H).
  apply bind_inr in H as (item & Hitem & H).
  unfold Log.putIfAbsent in H.
  destruct (Log.key_exists logTable (Log.PK item) (Log.timestamp item)) eqn:Hkey;
    [discriminate H|].
  injection H as <- <-. exists item.
  match type of Hitem with
  | (if ?c then _ else _) = _ => destruct c
  end.
  - destruct (negb (JS.truthy (Ledger.wbsChangeReason body))); [discriminate Hitem|].
    injection Hitem as <-. cbn in Hkey |- *. now repeat split.
  - injection Hitem as <-. cbn in Hkey |- *. now repeat split.
Qed.

(** The outcome of a call: nothing written and an answer other than 201, or
    201 and one event written for the employee the body names. *)
Lemma handler_outcome (personnel : Personnel.Table) (org : Org.Table)
    (logTable : Log.Table) (now : Z) (event : Ledger.Request) :
  let answer := Ledger.handler u personnel org logTable now event in
  (Ledger.statusCode (fst answer) <> 201 /\ snd answer = logTable)
  \/ (exists item,
        Ledger.statusCode (fst answer) = 201
        /\ snd answer = item :: logTable
        /\ Ledger.employeeId (Ledger.body event) = Some (Log.employeeId item)
        /\ Log.timestamp item = now
        /\ Log.key_exists logTable ("EMP#" ++ Log.employeeId item) now = false
        /\ Ledger.chainFields
             (Ledger.getLatestTimestamp logTable (Log.employeeId item))
             (Log.timestampType item) now
           = inr (Log.sequenceNumber item, Log.previousTimestamp item,
                  Log.hashChain item)).
Proof.
  intro answer. subst answer.
  destruct (ledger_cases u personnel org logTable now event)
    as [Hstop|[id Hpass]]; [now left|].
  rewrite (ledger_passes _ _ _ _ _ _ _ Hpass).
  destruct (Ledger.appendEvent u personnel org logTable now (Ledger.body event) id)
    as [err|[ts tbl]] eqn:Happ.
  - left. split; [discriminate|reflexivity].
  - right. apply appendEvent_inr in Happ
      as (item & -> & -> & Hid & Hts & Hkey & Hchain).
    exists item. destruct Hpass as (_ & _ & He & _). subst id.
    now repeat split.
Qed.

End LedgerChain.

(** ** The store keeps every ledger in the order of its appends *)

Section Partition.





Lemma partition_cons (it : Log.Item) (tbl : Log.Table) (id : string) :
  Log.queryPartition (it :: tbl) ("EMP#" ++ id)
  = if (Log.employeeId it =? id)%string
    then Log.insert_by_SK it (Log.queryPartition tbl ("EMP#" ++ id))
    else Log.queryPartition tbl ("EMP#" ++ id).
Proof.
  unfold Log.queryPartition. cbn [filter]. unfold Log.PK at 1.
  rewrite emp_key_eqb. now destruct (Log.employeeId it =? id)%string.
Qed.



Lemma lastOf_rev (previous : option Log.Item) (l : list Log.Item) :
  Chain.lastOf previous l
  = match hd_error (rev l) with Some x => Some x | None => previous end.
Proof.
  revert previous. induction l as [|a l IH]; intro previous; [reflexivity|].
  cbn [Chain.lastOf rev]. rewrite IH.
  destruct (rev l) as [|b r]; reflexivity.
Qed.

Lemma latest_lastOf (tbl : Log.Table) (id : string) :
  Ledger.getLatestTimestamp tbl id
  = Chain.lastOf None (Log.queryPartition tbl ("EMP#" ++ id)).
Proof.
  unfold Ledger.getLatestTimestamp, Log.queryLatest. rewrite lastOf_rev.
  destruct (rev (Log.queryPartition tbl ("EMP#" ++ id))); reflexivity.
Qed.

Lemma lastOf_snoc (previous : option Log.Item) (l : list Log.Item)
    (x : Log.Item) :
  Chain.lastOf previous (l ++ [x]) = Some x.
Proof.
  revert previous. induction l as [|a l IH]; intro previous; [reflexivity|].
  apply IH.
Qed.




End Partition.

(** ** Histories of appends *)

Section History.

Variable u : Utils.t.










End History.

Section FromEmpty.

Variable u : Utils.t.



End FromEmpty.





(** ** The auditor on a ledger written by the handler *)

Section Audit.

Lemma same_digest (it : Log.Item) :
  Auditor.generateHash it = Ledger.generateHash it.
Proof. reflexivity. Qed.

(** A chained entry has no sequence, chronological or hash error. *)
Lemma chainErrors_chained (i : Z) (previous : option Log.Item)
    (x : Log.Item) (rest : list Log.Item) :
  Chain.chained i previous (x :: rest) ->
  Auditor.chainErrors i previous x = [].
Proof.
  intros (Hs & _ & Hh & Ht & _). unfold Auditor.chainErrors.
  rewrite Hs, Z.eqb_refl. cbn [negb Auditor.push_if].
  destruct previous as [p|].
  - apply Z.leb_gt in Ht. rewrite Ht, Hh.
    change (Auditor.generateHash p) with (Ledger.generateHash p).
    rewrite String.eqb_refl. reflexivity.
  - rewrite Hh. reflexivity.
Qed.

(** The state errors are filed under the state class only. *)
Lemma stateStep_words (flags : bool * bool) (ty : string) :
  let errs := fst (Auditor.stateStep flags ty []) in
  Auditor.some_includes errs "sequence" = false
  /\ Auditor.some_includes errs "chronological" = false
  /\ Auditor.some_includes errs "Hash" = false.
Proof.
  destruct flags as [[|] [|]]; unfold Auditor.stateStep;
    repeat match goal with
           | |- context [if (ty =? ?t)%string then _ else _] =>
               destruct (ty =? t)%string
           end;
    vm_compute; repeat split; reflexivity.
Qed.


Lemma classify_quiet (v : Auditor.LogValidation) (d : Auditor.ErrorDetails) :
  Auditor.errors v = [] -> Auditor.classify v d = d.
Proof. intro H. unfold Auditor.classify. now rewrite H. Qed.


(** The transitions the handler allows are the pairs of the table. *)
Lemma allowed_in_table (a b : string) :
  Ledger.transitionAllowed a b = true -> In (a, b) Chain.table.
Proof.
  unfold Ledger.transitionAllowed, Ledger.validTransitions.
  repeat match goal with
         | |- context [if (a =? ?t)%string then _ else _] =>
             let E := fresh "E" in
             destruct (a =? t)%string eqn:E;
             [apply String.eqb_eq in E; subst a;
              intro H; apply array_includes_In in H; cbn in H;
              repeat (destruct H as [<-|H]; [cbn; tauto|]); destruct H
             |clear E]
         end.
  discriminate.
Qed.

(** An allowed transition, not a work-category change on a break, is no
    state error for the auditor, and moves its flags to those of the new
    event. *)
Lemma stateStep_allowed (a b : string) :
  Ledger.transitionAllowed a b = true ->
  ~ (a = "BREAK_START" /\ b = "WBS_CHANGE") ->
  Auditor.stateStep (Chain.flagsOfType a) b [] = ([], Chain.flagsOfType b).
Proof.
  intros Hal Hno. apply allowed_in_table in Hal. cbn in Hal.
  repeat (destruct Hal as [Hal|Hal];
          [injection Hal as <- <-;
           try (exfalso; apply Hno; split; reflexivity);
           vm_compute; reflexivity|]).
  destruct Hal.
Qed.

Lemma stateStep_first :
  Auditor.stateStep (false, false) "CLOCK_IN" [] = ([], Chain.flagsOfType "CLOCK_IN").
Proof. reflexivity. Qed.

(** Over a chained and legal ledger with no work-category change on a
    break, the loop finds no error at all and ends with the flags of the
    last event. *)
Lemma loop_quiet (l : list Log.Item) (i : Z) (previous : option Log.Item)
    (st : Auditor.LoopState) :
  Chain.chained i previous l -> Chain.legal previous l ->
  Chain.noChangeOnBreak previous l ->
  Auditor.flags st = Chain.flagsAfter previous ->
  Auditor.errorDetails (Auditor.loop i previous l st) = Auditor.errorDetails st
  /\ Auditor.flags (Auditor.loop i previous l st)
     = Chain.flagsAfter (Chain.lastOf previous l).
Proof.
  revert i previous st.
  induction l as [|x l IH]; intros i previous st Hc Hl Hn Hf.
  - cbn. now split.
  - cbn [Auditor.loop Chain.lastOf].
    pose proof (chainErrors_chained _ _ _ _ Hc) as He.
    destruct Hc as (_ & _ & _ & _ & Hrest).
    destruct Hl as [Hstep Hlrest]. destruct Hn as [Hnx Hnrest].
    assert (Hs : Auditor.stateStep (Auditor.flags st) (Log.timestampType x) []
                 = ([], Chain.flagsAfter (Some x))).
    { rewrite Hf. destruct previous as [p|]; cbn [Chain.flagsAfter].
      - now apply stateStep_allowed.
      - rewrite Hstep. apply stateStep_first. }
    assert (Hbody : Auditor.errorDetails (Auditor.loopBody i previous x st)
                    = Auditor.errorDetails st
                    /\ Auditor.flags (Auditor.loopBody i previous x st)
                       = Chain.flagsAfter (Some x)).
    { unfold Auditor.loopBody. rewrite He, Hs.
      cbn [Auditor.errorDetails Auditor.flags].
      split; [now apply classify_quiet|reflexivity]. }
    destruct Hbody as [Hd Hfl].
    destruct (IH (i + 1) (Some x) _ Hrest Hlrest Hnrest Hfl) as [I1 I2].
    split; [now rewrite I1|exact I2].
Qed.

Lemma breakErrors_within (m : Auditor.BreaksByDate) :
  Forall (fun kv => snd kv <= Auditor.breakLimit) m ->
  Auditor.breakErrors m = [].
Proof.
  induction 1 as [|[k v] m Hkv _ IH]; [reflexivity|].
  cbn [Auditor.breakErrors flat_map] in *. cbn [snd] in Hkv.
  unfold Num.gtb. destruct (v >? Auditor.breakLimit) eqn:E.
  - apply Z.gtb_lt in E. lia.
  - exact IH.
Qed.














Lemma report_fields (id : string) (logs : list Log.Item) (now : Z)
    (by_ : option string) :
  let d := fst (Auditor.validate logs) in
  let r := Auditor.report id logs now by_ in
  Auditor.validationStatus r
  = (if Auditor.overallValid d then "VALID" else "INVALID")
  /\ Auditor.summary r
     = {| Auditor.totalLogs := Z.of_nat (List.length logs);
          Auditor.sequenceErrors := Z.of_nat (List.length (Auditor.sequence d));
          Auditor.chronologicalErrors :=
            Z.of_nat (List.length (Auditor.chronological d));
          Auditor.hashChainErrors := Z.of_nat (List.length (Auditor.hash d));
          Auditor.stateErrors := Z.of_nat (List.length (Auditor.state d));
          Auditor.breakValidationErrors :=
            Z.of_nat (List.length (Auditor.breaks d)) |}.
Proof.
  unfold Auditor.report. destruct (Auditor.validate logs) as [d results].
  split; reflexivity.
Qed.

(** The loop adds its entries after those already in the per-entry log. *)
Lemma loop_results (l : list Log.Item) (i : Z) (previous : option Log.Item)
    (st : Auditor.LoopState) :
  exists tail,
    Auditor.validationResults (Auditor.loop i previous l st)
    = (Auditor.validationResults st ++ tail)%list.
Proof.
  revert i previous st. induction l as [|x l IH]; intros i previous st.
  - exists []. cbn. now rewrite app_nil_r.
  - cbn [Auditor.loop].
    destruct (IH (i + 1) (Some x) (Auditor.loopBody i previous x st))
      as [tail ->].
    unfold Auditor.loopBody.
    destruct (Auditor.stateStep _ _ _) as [errs flags'].
    cbn [Auditor.validationResults]. rewrite <- app_assoc.
    eexists. reflexivity.
Qed.

(** When the loop files nothing and ends clocked out, and the breaks are
    within the limit, every class of the report is empty. *)
Lemma validate_clean (logs : list Log.Item) :
  Auditor.errorDetails (Auditor.loop 0 None logs Auditor.initial)
  = Auditor.errorDetails Auditor.initial ->
  Auditor.flags (Auditor.loop 0 None logs Auditor.initial) = (false, false) ->
  Forall (fun kv => snd kv <= Auditor.breakLimit)
         (Auditor.breakLoop logs None []) ->
  fst (Auditor.validate logs) = Auditor.errorDetails Auditor.initial.
Proof.
  intros Hd Hf Hb. unfold Auditor.validate, Auditor.finalState.
  rewrite Hd, Hf, (breakErrors_within _ Hb). reflexivity.
Qed.

(** What follows an event in a chained, legal ledger looks at its
    timestamp, type, sequence number and work category only. *)
Lemma after_same_fields (x x' : Log.Item) (l : list Log.Item) (i : Z) :
  Log.timestamp x' = Log.timestamp x ->
  Log.timestampType x' = Log.timestampType x ->
  Ledger.generateHash x' = Ledger.generateHash x ->
  Chain.chained i (Some x) l -> Chain.legal (Some x) l ->
  Chain.noChangeOnBreak (Some x) l ->
  Chain.chained i (Some x') l /\ Chain.legal (Some x') l
  /\ Chain.noChangeOnBreak (Some x') l
  /\ option_map Log.timestampType (Chain.lastOf (Some x') l)
     = option_map Log.timestampType (Chain.lastOf (Some x) l).
Proof.
  intros Ht Hty Hh Hc Hl Hn. destruct l as [|y l].
  - cbn. rewrite Hty. now repeat split.
  - destruct Hc as (C1 & C2 & C3 & C4 & C5). destruct Hl as [L1 L2].
    destruct Hn as [N1 N2]. cbn [Chain.chained Chain.legal Chain.noChangeOnBreak
      Chain.lastOf option_map] in *.
    rewrite Ht, Hty, Hh. now repeat split.
Qed.

(** The defect behind C5, on every ledger: take a ledger the auditor
    reports VALID and overwrite the [hashChain] of its first event. The entry
    of that event carries 'First hash should be GENESIS.', no class receives
    it, and the report is still VALID with every class empty. *)
Lemma first_hash_corruption_unreported (x : Log.Item) (rest : list Log.Item)
    (h : string) :
  Chain.chained 0 None (x :: rest) -> Chain.legal None (x :: rest) ->
  Chain.noChangeOnBreak None (x :: rest) -> Chain.closed (x :: rest) ->
  Forall (fun kv => snd kv <= Auditor.breakLimit)
         (Auditor.breakLoop (x :: rest) None []) ->
  h <> "GENESIS" ->
  let logs := Log.setHashChain h x :: rest in
  Auditor.overallValid (fst (Auditor.validate logs)) = true
  /\ fst (Auditor.validate logs) = Auditor.errorDetails Auditor.initial
  /\ option_map Auditor.errors (hd_error (snd (Auditor.validate logs)))
     = Some ["First hash should be GENESIS."].
Proof.
  intros Hc Hl Hn Hclosed Hb Hh logs.
  destruct Hc as (Hs & _ & _ & _ & Hrest). destruct Hl as [Hty Hlrest].
  destruct Hn as [_ Hnrest].
  set (x' := Log.setHashChain h x) in *.
  destruct (after_same_fields x x' rest (0 + 1) eq_refl eq_refl eq_refl
              Hrest Hlrest Hnrest) as (Hc' & Hl' & Hn' & Hlast).
  assert (He : Auditor.chainErrors 0 None x' = ["First hash should be GENESIS."]).
  { unfold Auditor.chainErrors. cbn [Log.sequenceNumber Log.hashChain x'
      Log.setHashChain]. rewrite Hs. cbn [Z.add Z.eqb Pos.eqb negb Auditor.push_if].
    apply String.eqb_neq in Hh. now rewrite Hh. }
  assert (Hbody : Auditor.errorDetails (Auditor.loopBody 0 None x' Auditor.initial)
                  = Auditor.errorDetails Auditor.initial
                  /\ Auditor.flags (Auditor.loopBody 0 None x' Auditor.initial)
                     = Chain.flagsAfter (Some x')
                  /\ option_map Auditor.errors
                       (hd_error (Auditor.validationResults
                                    (Auditor.loopBody 0 None x' Auditor.initial)))
                     = Some ["First hash should be GENESIS."]).
  { unfold Auditor.loopBody. rewrite He.
    cbn [Log.timestampType x' Log.setHashChain Chain.flagsAfter]. rewrite Hty.
    vm_compute. repeat split; reflexivity. }
  destruct Hbody as (B1 & B2 & B3).
  destruct (loop_quiet rest (0 + 1) (Some x') _ Hc' Hl' Hn' B2) as [Q1 Q2].
  assert (Hflags : Auditor.flags (Auditor.loop 0 None logs Auditor.initial)
                   = (false, false)).
  { subst logs. cbn [Auditor.loop]. rewrite Q2.
    unfold Chain.closed in Hclosed. cbn [Chain.lastOf] in Hclosed.
    unfold Chain.flagsAfter.
    destruct (Chain.lastOf (Some x') rest) as [q'|];
      destruct (Chain.lastOf (Some x) rest) as [q|]; try discriminate Hlast.
    - cbn [option_map] in Hlast. injection Hlast as Hq.
      unfold Chain.flagsOfType. now rewrite Hq, Hclosed.
    - reflexivity. }
  assert (Hdet : Auditor.errorDetails (Auditor.loop 0 None logs Auditor.initial)
                 = Auditor.errorDetails Auditor.initial).
  { subst logs. cbn [Auditor.loop]. now rewrite Q1. }
  assert (Hclean : fst (Auditor.validate logs)
                   = Auditor.errorDetails Auditor.initial).
  { now apply validate_clean. }
  split; [now rewrite Hclean|]. split; [exact Hclean|].
  subst logs. unfold Auditor.validate. cbn [snd Auditor.loop].
  destruct (loop_results rest (0 + 1) (Some x')
              (Auditor.loopBody 0 None x' Auditor.initial)) as [tail ->].
  destruct (Auditor.validationResults
              (Auditor.loopBody 0 None x' Auditor.initial)) as [|v vs];
    [discriminate B3|exact B3].
Qed.

End Audit.




(** Two more accepted histories the auditor objects to: a work-category
    change during a break, then clocking out (a state error on the
    CLOCK_OUT), and a break of five hours (a break-duration error). *)
Example audit_change_on_break :
  Fixtures.verdict Fixtures.changeOnBreak
  = Some (4%nat, "INVALID",
          {| Auditor.totalLogs := 4;
             Auditor.sequenceErrors := 0;
             Auditor.chronologicalErrors := 0;
             Auditor.hashChainErrors := 0;
             Auditor.stateErrors := 1;
             Auditor.breakValidationErrors := 0 |}).
Proof. vm_compute. reflexivity. Qed.

(** Breaks of 240 minutes to the millisecond can be over the limit: the
    four quotients by 60000 are rounded, and their sum as doubles is
    240.00000000000003. The auditor reports one break error, with the text
    '240 minutes exceeds'. *)
Example audit_breaks_of_240_minutes :
  let logs := Auditor.fetchAllTimestampLogs
                (Ledger.run Fixtures.utils Fixtures.fourBreaks []) "E1" in
  Payroll.breakTime logs None = 240 * 60000
  /\ Detect.breakMinutes "2025-01-01" logs None 0
     = Num.of_Z 240 + 2 ^ (1074 - 45)
  /\ map Auditor.error (Auditor.breaks (fst (Auditor.validate logs)))
     = ["Total break duration of 240 minutes exceeds 4-hour limit."]
  /\ Fixtures.verdict Fixtures.fourBreaks
     = Some (10%nat, "INVALID",
             {| Auditor.totalLogs := 10;
                Auditor.sequenceErrors := 0;
                Auditor.chronologicalErrors := 0;
                Auditor.hashChainErrors := 0;
                Auditor.stateErrors := 0;
                Auditor.breakValidationErrors := 1 |}).
Proof. vm_compute. repeat split; reflexivity. Qed.

Example audit_long_break :
  Fixtures.verdict Fixtures.longBreak
  = Some (4%nat, "INVALID",
          {| Auditor.totalLogs := 4;
             Auditor.sequenceErrors := 0;
             Auditor.chronologicalErrors := 0;
             Auditor.hashChainErrors := 0;
             Auditor.stateErrors := 0;
             Auditor.breakValidationErrors := 1 |}).
Proof. vm_compute. reflexivity. Qed.

(* ================================================================== *)
(** * Further properties of the handlers *)

(** ** What the ledger refuses and what it writes *)

Section LedgerRules.

Variable u : Utils.t.

(** A request for employee [id] whose append throws writes nothing. *)
Lemma refused_when_append_throws (personnel : Personnel.Table)
    (org : Org.Table) (tbl : Log.Table) (now : Z) (event : Ledger.Request)
    (id : string) :
  Ledger.employeeId (Ledger.body event) = Some id ->
  (exists err,
     Ledger.appendEvent u personnel org tbl now (Ledger.body event) id = inl err) ->
  snd (Ledger.handler u personnel org tbl now event) = tbl
  /\ Ledger.statusCode (fst (Ledger.handler u personnel org tbl now event)) <> 201.
Proof.
  intros Hid [err Herr].
  destruct (ledger_cases u personnel org tbl now event)
    as [[Hcode Hsame]|[i Hpass]]; [now split|].
  assert (i = id) by (destruct Hpass as (_ & _ & Hi & _); congruence). subst i.
  rewrite (ledger_passes _ _ _ _ _ _ _ Hpass), Herr.
  split; [reflexivity|discriminate].
Qed.

(** When the chain step throws, the append throws; with the employee and
    work-category validations passed, it throws that very error. *)
Lemma appendEvent_chain_error (personnel : Personnel.Table) (org : Org.Table)
    (tbl : Log.Table) (now : Z) (body : Ledger.Body) (id ty e : string) :
  Ledger.timestampType body = Some ty ->
  Ledger.chainFields (Ledger.getLatestTimestamp tbl id) ty now = inl e ->
  (exists err, Ledger.appendEvent u personnel org tbl now body id = inl err)
  /\ (forall employee wbs,
        Ledger.validateEmployee personnel id = inr employee ->
        Ledger.checkWbsCode personnel org body id ty = inr wbs ->
        Ledger.appendEvent u personnel org tbl now body id = inl e).
Proof.
  intros Hty Hchain. unfold Ledger.appendEvent. rewrite Hty, Hchain. split.
  - destruct (Ledger.validateEmployee personnel id) as [x|employee];
      cbn [Ledger.bind]; [now exists x|].
    destruct (Ledger.checkWbsCode personnel org body id ty) as [x|wbs];
      cbn [Ledger.bind]; [now exists x|].
    now exists e.
  - intros employee wbs -> ->. reflexivity.
Qed.

(** The answer to a request that got through step 1 and whose append threw
    a non-empty message. *)
Lemma answer_when_append_throws (personnel : Personnel.Table)
    (org : Org.Table) (tbl : Log.Table) (now : Z) (event : Ledger.Request)
    (id e : string) :
  Ledger.passesChecks u event id ->
  Ledger.appendEvent u personnel org tbl now (Ledger.body event) id = inl e ->
  e <> "" ->
  fst (Ledger.handler u personnel org tbl now event)
  = {| Ledger.statusCode := 400; Ledger.message := e;
       Ledger.r_timestamp := None |}.
Proof.
  intros Hpass Herr Hne.
  rewrite (ledger_passes _ _ _ _ _ _ _ Hpass), Herr.
  apply String.eqb_neq in Hne. now rewrite Hne.
Qed.

Lemma chainFields_gap (latest : Log.Item) (ty : string) (now : Z)
    (r : Z * option Z * string) :
  Ledger.chainFields (Some latest) ty now = inr r ->
  now - Log.timestamp latest <= 24 * 60 * 60 * 1000.
Proof.
  unfold Ledger.chainFields.
  destruct (negb _); [discriminate|].
  destruct (Z.gtb_spec (now - Log.timestamp latest) (24 * 60 * 60 * 1000));
    [discriminate|]. intros _. lia.
Qed.

End LedgerRules.

(** The first event of an employee must be a CLOCK_IN: with no event stored
    for the employee, a request of any other type is never answered 201 and
    writes nothing; once through the authorization, input, employee and
    work-category validations it is answered 400 with the 'Invalid first
    action' error. *)
Theorem first_event_must_be_clock_in (u : Utils.t)
    (personnel : Personnel.Table) (org : Org.Table) (logTable : Log.Table)
    (now : Z) (event : Ledger.Request) (id attempted : string)
    (Hid : Ledger.employeeId (Ledger.body event) = Some id)
    (Hty : Ledger.timestampType (Ledger.body event) = Some attempted)
    (Hnone : forall it, In it logTable -> Log.employeeId it <> id)
    (Hnot : attempted <> "CLOCK_IN") :
  let answer := Ledger.handler u personnel org logTable now event in
  snd answer = logTable
  /\ Ledger.statusCode (fst answer) <> 201
  /\ (Ledger.passesChecks u event id ->
      forall employee wbs,
        Ledger.validateEmployee personnel id = inr employee ->
        Ledger.checkWbsCode personnel org (Ledger.body event) id attempted = inr wbs ->
        fst answer
        = {| Ledger.statusCode := 400;
             Ledger.message := Ledger.FirstEventMustBeClockIn;
             Ledger.r_timestamp := None |}).
Proof.
  intro answer.
  assert (Hchain : Ledger.chainFields (Ledger.getLatestTimestamp logTable id)
                     attempted now = inl Ledger.FirstEventMustBeClockIn).
  { unfold Ledger.getLatestTimestamp, Log.queryLatest.
    rewrite (queryPartition_none _ _ Hnone). cbn [rev firstn hd_error].
    unfold Ledger.chainFields. apply String.eqb_neq in Hnot. now rewrite Hnot. }
  destruct (appendEvent_chain_error u personnel org logTable now
              (Ledger.body event) id attempted _ Hty Hchain) as [Hthrows Hexact].
  destruct (refused_when_append_throws u personnel org logTable now event id
              Hid Hthrows) as [H1 H2].
  split; [exact H1|]. split; [exact H2|].
  intros Hpass employee wbs Hemp Hwbs.
  apply (answer_when_append_throws u personnel org logTable now event id);
    [assumption|now apply (Hexact employee wbs)|discriminate].
Qed.

(** On the fixtures: E1's first request is a BREAK_START. *)
Lemma first_event_must_be_clock_in_witness :
  Ledger.handler Fixtures.utils Fixtures.personnel Fixtures.org []
    (Fixtures.clock 0 8 0) (Fixtures.log "BREAK_START")
  = ({| Ledger.statusCode := 400;
        Ledger.message := Ledger.FirstEventMustBeClockIn;
        Ledger.r_timestamp := None |}, []).
Proof.
  destruct (first_event_must_be_clock_in Fixtures.utils Fixtures.personnel
              Fixtures.org [] (Fixtures.clock 0 8 0) (Fixtures.log "BREAK_START")
              "E1" "BREAK_START" eq_refl eq_refl
              (fun it (H : In it []) => match H with end))
    as (Hsnd & _ & Hfst); [discriminate|].
  rewrite (surjective_pairing (Ledger.handler _ _ _ _ _ _)), Hsnd.
  rewrite (Hfst ltac:(repeat split; reflexivity)
                {| Personnel.status := "ACTIVE" |} None eq_refl eq_refl).
  reflexivity.
Defined.

(** More than 24 hours after the employee's latest event, no request is
    accepted any more, whatever its type: it is never answered 201 and writes
    nothing, and a request of a type the transition table allows, once
    through the validations, is answered 400 with the 'Gap between
    timestamps' error. *)
Theorem no_append_after_a_day (u : Utils.t)
    (personnel : Personnel.Table) (org : Org.Table) (logTable : Log.Table)
    (now : Z) (event : Ledger.Request) (id attempted : string)
    (latest : Log.Item)
    (Hid : Ledger.employeeId (Ledger.body event) = Some id)
    (Hty : Ledger.timestampType (Ledger.body event) = Some attempted)
    (Hlatest : Ledger.getLatestTimestamp logTable id = Some latest)
    (Hgap : now - Log.timestamp latest > 24 * 60 * 60 * 1000) :
  let answer := Ledger.handler u personnel org logTable now event in
  snd answer = logTable
  /\ Ledger.statusCode (fst answer) <> 201
  /\ (Ledger.passesChecks u event id ->
      Ledger.transitionAllowed (Log.timestampType latest) attempted = true ->
      forall employee wbs,
        Ledger.validateEmployee personnel id = inr employee ->
        Ledger.checkWbsCode personnel org (Ledger.body event) id attempted = inr wbs ->
        fst answer
        = {| Ledger.statusCode := 400;
             Ledger.message := Ledger.ExcessiveGap;
             Ledger.r_timestamp := None |}).
Proof.
  intro answer.
  assert (Hchain : exists e,
             Ledger.chainFields (Ledger.getLatestTimestamp logTable id)
               attempted now = inl e
             /\ (Ledger.transitionAllowed (Log.timestampType latest) attempted
                 = true -> e = Ledger.ExcessiveGap)).
  { rewrite Hlatest. unfold Ledger.chainFields.
    destruct (Ledger.transitionAllowed (Log.timestampType latest) attempted);
      cbn [negb].
    - apply Z.gtb_gt in Hgap. rewrite Hgap. eexists. split; [reflexivity|auto].
    - eexists. split; [reflexivity|discriminate]. }
  destruct Hchain as (e & Hchain & He).
  destruct (appendEvent_chain_error u personnel org logTable now
              (Ledger.body event) id attempted _ Hty Hchain) as [Hthrows Hexact].
  destruct (refused_when_append_throws u personnel org logTable now event id
              Hid Hthrows) as [H1 H2].
  split; [exact H1|]. split; [exact H2|].
  intros Hpass Hallowed employee wbs Hemp Hwbs.
  specialize (He Hallowed). subst e.
  apply (answer_when_append_throws u personnel org logTable now event id);
    [assumption|now apply (Hexact employee wbs)|discriminate].
Qed.

(** On the fixtures: E1 clocked out on Wednesday at 17:00 and clocks in on
    Friday at 08:00. *)
Lemma no_append_after_a_day_witness :
  Ledger.handler Fixtures.utils Fixtures.personnel Fixtures.org Fixtures.oneDay
    (Fixtures.clock 2 8 0) (Fixtures.log "CLOCK_IN")
  = ({| Ledger.statusCode := 400;
        Ledger.message := Ledger.ExcessiveGap;
        Ledger.r_timestamp := None |}, Fixtures.oneDay).
Proof.
  assert (Hlatest : Ledger.getLatestTimestamp Fixtures.oneDay "E1"
                    = Some (Fixtures.nthEvent Fixtures.oneDay 1))
    by (vm_compute; reflexivity).
  assert (Hgap : Fixtures.clock 2 8 0
                 - Log.timestamp (Fixtures.nthEvent Fixtures.oneDay 1)
                 > 24 * 60 * 60 * 1000) by (vm_compute; reflexivity).
  destruct (no_append_after_a_day Fixtures.utils Fixtures.personnel
              Fixtures.org Fixtures.oneDay (Fixtures.clock 2 8 0)
              (Fixtures.log "CLOCK_IN") "E1" "CLOCK_IN" _
              eq_refl eq_refl Hlatest Hgap) as (Hsnd & _ & Hfst).
  rewrite (surjective_pairing (Ledger.handler _ _ _ _ _ _)), Hsnd.
  rewrite (Hfst ltac:(repeat split; reflexivity)
                ltac:(vm_compute; reflexivity)
                {| Personnel.status := "ACTIVE" |} (Some "WBS-1")
                eq_refl eq_refl).
  reflexivity.
Defined.

Section LedgerHistory.

Variable u : Utils.t.

Lemma stale_partition (calls : list Ledger.Call) (tbl : Log.Table)
    (id : string) (latest : Log.Item) (ledger : list Log.Item) :
  Log.queryPartition tbl ("EMP#" ++ id) = ledger ->
  Chain.lastOf None ledger = Some latest ->
  Forall (fun c => Ledger.c_now c - Log.timestamp latest > 24 * 60 * 60 * 1000)
         calls ->
  Log.queryPartition (Ledger.run u calls tbl) ("EMP#" ++ id) = ledger.
Proof.
  revert tbl. induction calls as [|c calls IH]; intros tbl Hp Hlast Hall;
    [exact Hp|].
  inversion Hall as [|? ? Hc Hrest]; subst.
  unfold Ledger.run. cbn [fold_left]. apply IH; [|assumption|assumption].
  destruct (handler_outcome u (Ledger.c_personnel c) (Ledger.c_org c) tbl
              (Ledger.c_now c) (Ledger.c_event c))
    as [[_ Hsame]|(item & _ & Hsnd & _ & _ & _ & Hchain)].
  - now rewrite Hsame.
  - rewrite Hsnd, partition_cons.
    destruct (Log.employeeId item =? id)%string eqn:E; [|reflexivity].
    apply String.eqb_eq in E. rewrite E, latest_lastOf in Hchain.
    rewrite Hlast in Hchain. apply chainFields_gap in Hchain. lia.
Qed.

(** The table after a history is the events it accepted, latest first, on
    top of the table before. *)
Lemma run_is_accepted (calls : list Ledger.Call) (tbl : Log.Table) :
  Ledger.run u calls tbl = (rev (Ledger.accepted u calls tbl) ++ tbl)%list.
Proof.
  revert tbl. induction calls as [|c calls IH]; intro tbl; [reflexivity|].
  unfold Ledger.run in *. cbn [fold_left Ledger.accepted]. rewrite IH.
  destruct (handler_outcome u (Ledger.c_personnel c) (Ledger.c_org c) tbl
              (Ledger.c_now c) (Ledger.c_event c))
    as [[Hcode Hsame]|(item & Hcode & Hsnd & _)].
  - apply Z.eqb_neq in Hcode. rewrite Hcode, Hsame. reflexivity.
  - rewrite Hcode, Hsnd. cbn [Z.eqb Pos.eqb firstn app rev].
    now rewrite <- app_assoc.
Qed.

Lemma key_exists_iff (tbl : Log.Table) (it : Log.Item) :
  Log.key_exists tbl (Log.PK it) (Log.timestamp it) = false ->
  ~ In (Store.primaryKey it) (map Store.primaryKey tbl).
Proof.
  unfold Log.key_exists. intros Hk Hin.
  apply in_map_iff in Hin as (x & Hx & Hin).
  injection Hx as Hpk Hts.
  assert (Hex : existsb
            (fun y => (Log.PK y =? Log.PK it)%string
                      && (Log.timestamp y =? Log.timestamp it)) tbl = true).
  { apply existsb_exists. exists x. split; [assumption|].
    unfold Log.PK. now rewrite emp_key_eqb, Hpk, Hts, String.eqb_refl, Z.eqb_refl. }
  congruence.
Qed.

Lemma unique_after_run (calls : list Ledger.Call) (tbl : Log.Table) :
  Store.uniqueKeys tbl -> Store.uniqueKeys (Ledger.run u calls tbl).
Proof.
  revert tbl. induction calls as [|c calls IH]; intros tbl Hu; [exact Hu|].
  unfold Ledger.run. cbn [fold_left]. apply IH.
  destruct (handler_outcome u (Ledger.c_personnel c) (Ledger.c_org c) tbl
              (Ledger.c_now c) (Ledger.c_event c))
    as [[_ Hsame]|(item & _ & Hsnd & _ & Hts & Hkey & _)].
  - now rewrite Hsame.
  - rewrite Hsnd. unfold Store.uniqueKeys. cbn [map]. constructor; [|exact Hu].
    apply key_exists_iff. unfold Log.PK. now rewrite Hts.
Qed.

End LedgerHistory.

(** Once more than 24 hours have passed since an employee's latest event,
    the employee's ledger stays as it is through every later call, whoever
    makes it and whatever it asks. *)
Theorem stale_ledger_is_frozen (u : Utils.t) (calls : list Ledger.Call)
    (tbl : Log.Table) (id : string) (latest : Log.Item)
    (Hlatest : Ledger.getLatestTimestamp tbl id = Some latest)
    (Hlate : Forall (fun c => Ledger.c_now c - Log.timestamp latest
                              > 24 * 60 * 60 * 1000) calls) :
  Log.queryPartition (Ledger.run u calls tbl) ("EMP#" ++ id)
  = Log.queryPartition tbl ("EMP#" ++ id).
Proof.
  rewrite latest_lastOf in Hlatest.
  now apply (stale_partition u calls tbl id latest).
Qed.

(** On the fixtures: after Wednesday's day of work, what E1 tries on
    Friday leaves the ledger as it was on Wednesday evening. *)
Lemma stale_ledger_is_frozen_witness :
  Log.queryPartition (Ledger.run Fixtures.utils Fixtures.friday Fixtures.oneDay)
                     "EMP#E1"
  = Log.queryPartition Fixtures.oneDay "EMP#E1".
Proof.
  apply (stale_ledger_is_frozen Fixtures.utils Fixtures.friday Fixtures.oneDay
           "E1" (Fixtures.nthEvent Fixtures.oneDay 1)).
  - vm_compute. reflexivity.
  - repeat constructor; vm_compute; reflexivity.
Defined.

(** The log table is append-only under the handler: after any history of
    calls it is the table before with the accepted events put on top, so no
    stored item is removed or altered; and if no two items shared a primary
    key before, none do after. *)
Theorem log_table_append_only (u : Utils.t) (calls : list Ledger.Call)
    (tbl : Log.Table) (Hu : Store.uniqueKeys tbl) :
  Ledger.run u calls tbl = (rev (Ledger.accepted u calls tbl) ++ tbl)%list
  /\ (forall it, In it tbl -> In it (Ledger.run u calls tbl))
  /\ Store.uniqueKeys (Ledger.run u calls tbl).
Proof.
  split; [apply run_is_accepted|]. split; [|now apply unique_after_run].
  intros it Hin. rewrite run_is_accepted. apply in_or_app. now right.
Qed.

(** On the fixtures: Friday's attempts on top of Wednesday's table. *)
Lemma log_table_append_only_witness :
  Store.uniqueKeys Fixtures.oneDay
  /\ Store.uniqueKeys (Ledger.run Fixtures.utils Fixtures.friday Fixtures.oneDay).
Proof.
  assert (Hu : Store.uniqueKeys Fixtures.oneDay).
  { unfold Store.uniqueKeys.
    assert (Hk : map Store.primaryKey Fixtures.oneDay
                 = [("EMP#E1", Fixtures.clock 0 17 0);
                    ("EMP#E1", Fixtures.clock 0 8 0)])
      by (vm_compute; reflexivity).
    rewrite Hk. repeat constructor; cbn; intuition discriminate. }
  split; [exact Hu|].
  apply (log_table_append_only Fixtures.utils Fixtures.friday Fixtures.oneDay Hu).
Defined.

(** ** What an accepted event carries *)

Section Written.

Variable u : Utils.t.

(** The work category the handler stores: the one the request goes on
    with, else the one of the latest event, else none. *)
Lemma appendEvent_written (personnel : Personnel.Table) (org : Org.Table)
    (tbl : Log.Table) (now : Z) (body : Ledger.Body) (id : string)
    (ts : Z) (tbl' : Log.Table) :
  Ledger.appendEvent u personnel org tbl now body id = inr (ts, tbl') ->
  let ty := match Ledger.timestampType body with
            | Some t => t | None => "undefined" end in
  let latestWbs := match Ledger.getLatestTimestamp tbl id with
                   | Some l => Log.wbsCode l | None => None end in
  exists item employee w,
    tbl' = item :: tbl
    /\ Log.employeeId item = id
    /\ Log.timestampType item = ty
    /\ Ledger.validateEmployee personnel id = inr employee
    /\ Ledger.checkWbsCode personnel org body id ty = inr w
    /\ Log.wbsCode item
       = (if JS.truthy (JS.or_else w latestWbs)
          then JS.or_else w latestWbs else None)
    /\ Log.deviceId item = Ledger.deviceId body
    /\ Log.ipAddress item = Ledger.ipAddress body
    /\ (if (ty =? "WBS_CHANGE")%string
        then JS.truthy (Ledger.wbsChangeReason body) = true
             /\ Log.wbsChangeReason item = Ledger.wbsChangeReason body
             /\ Log.previousWbsCode item = latestWbs
        else Log.wbsChangeReason item = None
             /\ Log.previousWbsCode item = None).
Proof.
  intros H ty latestWbs. unfold Ledger.appendEvent in H.
  apply bind_inr in H as (employee & Hemp & H).
  apply bind_inr in H as (w & Hw & H).
  apply bind_inr in H as ([[sq p] h] & Hchain & H).
  apply bind_inr in H as (item & Hitem & H).
  unfold Log.putIfAbsent in H.
  destruct (Log.key_exists tbl (Log.PK item) (Log.timestamp item));
    [discriminate H|].
  injection H as <- <-. exists item, employee, w.
  fold ty in Hitem, Hw. fold latestWbs in Hitem.
  destruct (ty =? "WBS_CHANGE")%string.
  - destruct (JS.truthy (Ledger.wbsChangeReason body)); cbn [negb] in Hitem;
      [|discriminate Hitem].
    injection Hitem as <-. cbn. now repeat split.
  - injection Hitem as <-. cbn. now repeat split.
Qed.

Lemma validateEmployee_inr (personnel : Personnel.Table) (id : string)
    (employee : Personnel.PersonalData) :
  Ledger.validateEmployee personnel id = inr employee ->
  Personnel.personalData personnel id = Some employee
  /\ Personnel.status employee = "ACTIVE".
Proof.
  unfold Ledger.validateEmployee.
  destruct (Personnel.personalData personnel id) as [e|]; [|discriminate].
  destruct (Personnel.status e =? "ACTIVE")%string eqn:E; cbn [negb];
    [|discriminate].
  intro H. injection H as <-. apply String.eqb_eq in E. now split.
Qed.

Lemma validateWbsCode_inr (personnel : Personnel.Table) (org : Org.Table)
    (code id : string) (b : bool) :
  Ledger.validateWbsCodeForEmployee personnel org code id = inr b ->
  exists wbsData contract,
    Org.wbsMetadata org code = Some wbsData
    /\ Org.isActive wbsData = true
    /\ Personnel.contractDetails personnel id = Some contract
    /\ Personnel.department contract = Some (Org.departmentId wbsData).
Proof.
  unfold Ledger.validateWbsCodeForEmployee.
  destruct (Org.wbsMetadata org code) as [wbsData|]; [|discriminate].
  destruct (Org.isActive wbsData) eqn:Ha; cbn [negb]; [|discriminate].
  destruct (Personnel.contractDetails personnel id) as [contract|];
    [|discriminate].
  destruct (JS.strict_eq (Some (Org.departmentId wbsData))
                         (Personnel.department contract)) eqn:Hd;
    cbn [negb]; [|discriminate].
  intros _. exists wbsData, contract.
  repeat split; try reflexivity; try assumption.
  destruct (Personnel.department contract) as [d|]; [|discriminate Hd].
  cbn in Hd. apply String.eqb_eq in Hd. now subst.
Qed.

Lemma requester_not_empty (claims : option Auth.Claims) (id : string) :
  Auth.getRequestingUser claims = Some id -> id <> "".
Proof.
  unfold Auth.getRequestingUser. destruct claims as [c|]; [|discriminate].
  assert (Ht : forall o : option string,
             JS.truthy o = true -> o = Some id -> id <> "").
  { intros o Ho ->. cbn in Ho. apply negb_true_iff in Ho.
    now apply String.eqb_neq. }
  destruct (JS.truthy (Auth.custom_empId c)) eqn:E1; [now apply Ht|].
  cbv zeta.
  destruct (JS.truthy (JS.or_else (Auth.sub c)
              (JS.or_else (Auth.cognito_username c) (Auth.email c)))) eqn:E2;
    [now apply Ht|discriminate].
Qed.

Lemma authorized_role (claims : option Auth.Claims) (role : string) :
  Auth.isAuthorized claims [role] = true ->
  Auth.getUserRole claims = Some role.
Proof.
  unfold Auth.isAuthorized.
  destruct (Auth.getUserRole claims) as [r|]; [|discriminate].
  destruct (r =? "")%string; [discriminate|].
  intro H. apply array_includes_In in H. destruct H as [->|[]]. reflexivity.
Qed.

End Written.

Section Accepted.

Variable u : Utils.t.

(** A call answered 201 got through step 1 and its append returned. *)
Lemma accepted_inversion (personnel : Personnel.Table) (org : Org.Table)
    (tbl : Log.Table) (now : Z) (event : Ledger.Request) :
  Ledger.statusCode (fst (Ledger.handler u personnel org tbl now event)) = 201 ->
  exists id ts tbl',
    Ledger.passesChecks u event id
    /\ Ledger.appendEvent u personnel org tbl now (Ledger.body event) id
       = inr (ts, tbl')
    /\ snd (Ledger.handler u personnel org tbl now event) = tbl'.
Proof.
  intro Hok.
  destruct (ledger_cases u personnel org tbl now event)
    as [[Hcode _]|[id Hpass]]; [contradiction|].
  rewrite (ledger_passes _ _ _ _ _ _ _ Hpass) in Hok |- *.
  destruct (Ledger.appendEvent u personnel org tbl now (Ledger.body event) id)
    as [err|[ts tbl']] eqn:Happ; [discriminate Hok|].
  exists id, ts, tbl'. split; [exact Hpass|]. split; [exact Happ|reflexivity].
Qed.

End Accepted.

(** An event is written only for a caller with the role 'employee' whose
    token identity, a non-empty string, is the employee the body names, and
    only when that employee exists and is ACTIVE; a work category supplied
    with the request is stored as it is, and only when it exists, is active
    and belongs to the employee's own department. *)
Theorem accepted_event_is_validated (u : Utils.t)
    (personnel : Personnel.Table) (org : Org.Table) (tbl : Log.Table)
    (now : Z) (event : Ledger.Request)
    (Hok : Ledger.statusCode
             (fst (Ledger.handler u personnel org tbl now event)) = 201) :
  exists item employee,
    snd (Ledger.handler u personnel org tbl now event) = item :: tbl
    /\ Ledger.employeeId (Ledger.body event) = Some (Log.employeeId item)
    /\ Auth.getRequestingUser (Ledger.claims event) = Some (Log.employeeId item)
    /\ Log.employeeId item <> ""
    /\ Auth.getUserRole (Ledger.claims event) = Some "employee"
    /\ Personnel.personalData personnel (Log.employeeId item) = Some employee
    /\ Personnel.status employee = "ACTIVE"
    /\ (forall code,
          Ledger.wbsCode (Ledger.body event) = Some code -> code <> "" ->
          Log.wbsCode item = Some code
          /\ exists wbsData contract,
               Org.wbsMetadata org code = Some wbsData
               /\ Org.isActive wbsData = true
               /\ Personnel.contractDetails personnel (Log.employeeId item)
                  = Some contract
               /\ Personnel.department contract
                  = Some (Org.departmentId wbsData)).
Proof.
  destruct (accepted_inversion u personnel org tbl now event Hok)
    as (id & ts & tbl' & Hpass & Happ & Hsnd).
  destruct (appendEvent_written u personnel org tbl now _ id ts tbl' Happ)
    as (item & employee & w & -> & Hid & Hty & Hemp & Hw & Hwbs & _).
  destruct Hpass as (Hauth & _ & He & Hreq).
  apply validateEmployee_inr in Hemp as [Hp Hs].
  exists item, employee. subst id.
  split; [exact Hsnd|]. split; [exact He|]. split; [exact Hreq|].
  split; [now apply (requester_not_empty _ _ Hreq)|].
  split; [now apply authorized_role|]. split; [exact Hp|]. split; [exact Hs|].
  intros code Hcode Hne. unfold Ledger.checkWbsCode in Hw.
  rewrite Hcode in Hw. apply String.eqb_neq in Hne.
  assert (Ht : JS.truthy (Some code) = true) by (cbn; now rewrite Hne).
  assert (Hoe : JS.or_empty (Some code) = code)
    by (unfold JS.or_empty, JS.or_else; now rewrite Ht).
  rewrite Ht, Hoe in Hw. apply bind_inr in Hw as (b & Hval & Hret).
  injection Hret as <-.
  unfold JS.or_else in Hwbs. rewrite !Ht in Hwbs.
  split; [exact Hwbs|]. now apply (validateWbsCode_inr _ _ _ _ b).
Qed.

(** On the fixtures: E1, clocked in, logs a change to WBS-1. *)
Lemma accepted_event_is_validated_witness :
  exists item,
    snd (Ledger.handler Fixtures.utils Fixtures.personnel Fixtures.org
           Fixtures.clockedIn (Fixtures.clock 0 9 0)
           (Fixtures.change (Some "WBS-1") (Some "reassigned")))
    = item :: Fixtures.clockedIn
    /\ Log.wbsCode item = Some "WBS-1".
Proof.
  destruct (accepted_event_is_validated Fixtures.utils Fixtures.personnel
              Fixtures.org Fixtures.clockedIn (Fixtures.clock 0 9 0)
              (Fixtures.change (Some "WBS-1") (Some "reassigned")))
    as (item & employee & Hsnd & _ & _ & _ & _ & _ & _ & Hwbs).
  - vm_compute. reflexivity.
  - exists item. split; [exact Hsnd|].
    apply (Hwbs "WBS-1"); [reflexivity|discriminate].
Defined.

(** An event logged without a work category of its own gets one: for a
    CLOCK_IN or BREAK_END the first active work category of the
    employee's department, for the other types the one of the employee's
    latest event (none when that event has none). *)
Theorem work_category_is_filled_in (u : Utils.t)
    (personnel : Personnel.Table) (org : Org.Table) (tbl : Log.Table)
    (now : Z) (event : Ledger.Request) (ty : string)
    (Hok : Ledger.statusCode
             (fst (Ledger.handler u personnel org tbl now event)) = 201)
    (Hty : Ledger.timestampType (Ledger.body event) = Some ty)
    (Hno : JS.truthy (Ledger.wbsCode (Ledger.body event)) = false) :
  exists item,
    snd (Ledger.handler u personnel org tbl now event) = item :: tbl
    /\ let carried :=
         match Ledger.getLatestTimestamp tbl (Log.employeeId item) with
         | Some l => if JS.truthy (Log.wbsCode l) then Log.wbsCode l else None
         | None => None
         end in
       if JS.array_includes ["CLOCK_IN"; "BREAK_END"] ty then
         exists resolved,
           Ledger.resolveWbsCode personnel org (Log.employeeId item)
           = inr resolved
           /\ Log.wbsCode item
              = (if (resolved =? "")%string then carried else Some resolved)
       else Log.wbsCode item = carried.
Proof.
  destruct (accepted_inversion u personnel org tbl now event Hok)
    as (id & ts & tbl' & Hpass & Happ & Hsnd).
  destruct (appendEvent_written u personnel org tbl now _ id ts tbl' Happ)
    as (item & employee & w & -> & Hid & _ & _ & Hw & Hwbs & _).
  exists item. split; [exact Hsnd|]. subst id. rewrite Hty in Hw.
  unfold Ledger.checkWbsCode in Hw. rewrite Hno in Hw.
  assert (Hcarry : forall o L : option string,
             JS.truthy o = false ->
             (if JS.truthy (JS.or_else o L) then JS.or_else o L else None)
             = (if JS.truthy L then L else None)).
  { intros o L Ho. unfold JS.or_else. now rewrite Ho. }
  cbv zeta.
  destruct (JS.array_includes ["CLOCK_IN"; "BREAK_END"] ty).
  - apply bind_inr in Hw as (resolved & Hres & Hret). injection Hret as <-.
    exists resolved. split; [exact Hres|]. rewrite Hwbs.
    destruct (resolved =? "")%string eqn:E.
    + rewrite Hcarry by (cbn; now rewrite E).
      now destruct (Ledger.getLatestTimestamp tbl (Log.employeeId item)).
    + unfold JS.or_else. cbn [JS.truthy]. rewrite E. cbn [negb JS.truthy].
      now rewrite E.
  - injection Hw as <-. rewrite Hwbs, Hcarry by exact Hno.
    now destruct (Ledger.getLatestTimestamp tbl (Log.employeeId item)).
Qed.

(** On the fixtures: E1, clocked in under WBS-1, starts a break without
    naming a work category. *)
Lemma work_category_is_filled_in_witness :
  exists item,
    snd (Ledger.handler Fixtures.utils Fixtures.personnel Fixtures.org
           Fixtures.clockedIn (Fixtures.clock 0 10 0)
           (Fixtures.log "BREAK_START"))
    = item :: Fixtures.clockedIn
    /\ Log.wbsCode item = Some "WBS-1".
Proof.
  destruct (work_category_is_filled_in Fixtures.utils Fixtures.personnel
              Fixtures.org Fixtures.clockedIn (Fixtures.clock 0 10 0)
              (Fixtures.log "BREAK_START") "BREAK_START")
    as (item & Hsnd & Hwbs).
  - vm_compute. reflexivity.
  - reflexivity.
  - reflexivity.
  - exists item. split; [exact Hsnd|].
    assert (Hid : Log.employeeId item = "E1").
    { assert (H : map Log.employeeId
                    (snd (Ledger.handler Fixtures.utils Fixtures.personnel
                            Fixtures.org Fixtures.clockedIn
                            (Fixtures.clock 0 10 0)
                            (Fixtures.log "BREAK_START")))
                  = ["E1"; "E1"]) by (vm_compute; reflexivity).
      rewrite Hsnd in H. now injection H. }
    cbv zeta in Hwbs. rewrite Hid in Hwbs.
    change (JS.array_includes ["CLOCK_IN"; "BREAK_END"] "BREAK_START")
      with false in Hwbs.
    rewrite Hwbs. vm_compute. reflexivity.
Defined.

(** A WBS_CHANGE is accepted only with a non-empty change reason and only
    after an earlier event; the event written is of type WBS_CHANGE and
    stores the reason and, as previous work category, the work category of
    the employee's latest event. *)
Theorem wbs_change_is_explained (u : Utils.t)
    (personnel : Personnel.Table) (org : Org.Table) (tbl : Log.Table)
    (now : Z) (event : Ledger.Request)
    (Hok : Ledger.statusCode
             (fst (Ledger.handler u personnel org tbl now event)) = 201)
    (Hty : Ledger.timestampType (Ledger.body event) = Some "WBS_CHANGE") :
  exists item why latest,
    snd (Ledger.handler u personnel org tbl now event) = item :: tbl
    /\ Log.timestampType item = "WBS_CHANGE"
    /\ Ledger.wbsChangeReason (Ledger.body event) = Some why
    /\ why <> ""
    /\ Log.wbsChangeReason item = Some why
    /\ Ledger.getLatestTimestamp tbl (Log.employeeId item) = Some latest
    /\ Log.previousWbsCode item = Log.wbsCode latest.
Proof.
  destruct (accepted_inversion u personnel org tbl now event Hok)
    as (id & ts & tbl' & Hpass & Happ & Hsnd).
  destruct (appendEvent_written u personnel org tbl now _ id ts tbl' Happ)
    as (item & employee & w & -> & Hid & Hity & _ & _ & _ & _ & _ & Hchange).
  rewrite Hty in Hity, Hchange. cbn [String.eqb Ascii.eqb Bool.eqb] in Hchange.
  destruct Hchange as (Htruthy & Hreason & Hprev).
  destruct (handler_outcome u personnel org tbl now event)
    as [[Hcode _]|(item' & _ & Hsnd' & _ & _ & _ & Hchain)]; [contradiction|].
  assert (item' = item) by congruence. subst item' id.
  destruct (Ledger.wbsChangeReason (Ledger.body event)) as [why|] eqn:Hwhy;
    [|discriminate Htruthy].
  destruct (Ledger.getLatestTimestamp tbl (Log.employeeId item))
    as [latest|] eqn:Hlatest.
  - exists item, why, latest. repeat split; try assumption.
    cbn in Htruthy. apply negb_true_iff in Htruthy.
    now apply String.eqb_neq.
  - apply chainFields_none in Hchain as (Hc & _). congruence.
Qed.

(** On the fixtures: E1's change to WBS-1 with the reason 'reassigned'. *)
Lemma wbs_change_is_explained_witness :
  exists item,
    snd (Ledger.handler Fixtures.utils Fixtures.personnel Fixtures.org
           Fixtures.clockedIn (Fixtures.clock 0 9 0)
           (Fixtures.change (Some "WBS-1") (Some "reassigned")))
    = item :: Fixtures.clockedIn
    /\ Log.wbsChangeReason item = Some "reassigned".
Proof.
  destruct (wbs_change_is_explained Fixtures.utils Fixtures.personnel
              Fixtures.org Fixtures.clockedIn (Fixtures.clock 0 9 0)
              (Fixtures.change (Some "WBS-1") (Some "reassigned")))
    as (item & why & latest & Hsnd & _ & Hwhy & _ & Hreason & _).
  - vm_compute. reflexivity.
  - reflexivity.
  - exists item. split; [exact Hsnd|]. rewrite Hreason. symmetry. exact Hwhy.
Defined.

(** A WBS_CHANGE without a change reason, for comparison, is refused. *)
Example wbs_change_without_reason :
  Ledger.handler Fixtures.utils Fixtures.personnel Fixtures.org
    Fixtures.clockedIn (Fixtures.clock 0 9 0)
    (Fixtures.change (Some "WBS-1") None)
  = ({| Ledger.statusCode := 400;
        Ledger.message :=
          "wbsChangeReason is required for WBS_CHANGE timestamp type.";
        Ledger.r_timestamp := None |}, Fixtures.clockedIn).
Proof. vm_compute. reflexivity. Qed.

Section WbsChangeHandler.

Variable u : Utils.t.

(** The append handler answers 201, 400 or 403. *)
Lemma ledger_status (personnel : Personnel.Table) (org : Org.Table)
    (tbl : Log.Table) (now : Z) (event : Ledger.Request) :
  In (Ledger.statusCode (fst (Ledger.handler u personnel org tbl now event)))
     [201; 400; 403].
Proof.
  unfold Ledger.handler.
  destruct (negb (Auth.isAuthorized _ _)); [cbn; tauto|].
  cbv zeta. destruct (negb (Utils.isValid _)); [cbn; tauto|].
  destruct (Ledger.employeeId _) as [id|]; [|cbn; tauto].
  destruct (negb (JS.strict_eq _ _)); [cbn; tauto|].
  destruct (Ledger.appendEvent _ _ _ _ _ _ _) as [err|[ts tbl']]; cbn; tauto.
Qed.

End WbsChangeHandler.

(** A work-category change either is refused, with status 400, 403 or 500
    and the log table left as it was, or is answered 200 and has appended
    exactly one event: a WBS_CHANGE of the caller, who holds the
    work-category-change permission, at the clock reading, after an earlier
    event of theirs, with the requested work category, which exists, is
    active and belongs to the caller's department, with the reason given
    and the work category of the event before as previous one. *)
Theorem wbs_change_outcome (u : Utils.t) (personnel : Personnel.Table)
    (org : Org.Table) (tbl : Log.Table) (now : Z)
    (event : WbsChange.Request) :
  let answer := WbsChange.handler u personnel org tbl now event in
  (In (WbsChange.statusCode (fst answer)) [400; 403; 500]
   /\ snd answer = tbl
   /\ WbsChange.r_timestamp (fst answer) = None)
  \/ (exists item latest wbsData contract,
        WbsChange.statusCode (fst answer) = 200
        /\ WbsChange.r_timestamp (fst answer) = Some now
        /\ WbsChange.r_newWbsCode (fst answer)
           = WbsChange.newWbsCode (WbsChange.body event)
        /\ snd answer = item :: tbl
        /\ Auth.getRequestingUser (WbsChange.claims event)
           = Some (Log.employeeId item)
        /\ WbsChange.custom_wbsChange event = Some "true"
        /\ Log.timestampType item = "WBS_CHANGE"
        /\ Log.timestamp item = now
        /\ Ledger.getLatestTimestamp tbl (Log.employeeId item) = Some latest
        /\ Ledger.transitionAllowed (Log.timestampType latest) "WBS_CHANGE"
           = true
        /\ Log.wbsCode item
           = (if JS.truthy (WbsChange.newWbsCode (WbsChange.body event))
              then WbsChange.newWbsCode (WbsChange.body event)
              else if JS.truthy (Log.wbsCode latest) then Log.wbsCode latest
                   else None)
        /\ Org.wbsMetadata org
             (WbsChange.text (WbsChange.newWbsCode (WbsChange.body event)))
           = Some wbsData
        /\ Org.isActive wbsData = true
        /\ Personnel.contractDetails personnel (Log.employeeId item)
           = Some contract
        /\ Personnel.department contract = Some (Org.departmentId wbsData)
        /\ Log.wbsChangeReason item = WbsChange.reason (WbsChange.body event)
        /\ Log.previousWbsCode item = Log.wbsCode latest).
Proof.
  cbv zeta. unfold WbsChange.handler.
  destruct (negb (Auth.isAuthorized _ _)); [left; cbn; tauto|].
  destruct (negb (WbsChange.hasWbsPermission event)) eqn:Hperm;
    [left; cbn; tauto|].
  cbv zeta.
  destruct (negb (JS.strict_eq _ _)) eqn:Hown; [left; cbn; tauto|].
  destruct (negb (Utils.isValid _)); [left; cbn; tauto|].
  destruct (Ledger.validateWbsCodeForEmployee _ _ _ _) as [err|b] eqn:Hval.
  { left. cbn. destruct (_ || _); tauto. }
  pose proof (ledger_status u personnel org tbl now
                (WbsChange.timestampEvent event)) as Hst.
  destruct (Z.eq_dec
              (Ledger.statusCode
                 (fst (Ledger.handler u personnel org tbl now
                         (WbsChange.timestampEvent event)))) 201) as [Hok|Hno].
  - right.
    destruct (accepted_inversion u personnel org tbl now _ Hok)
      as (id & ts & tbl' & Hpass & Happ & Hsnd).
    destruct (appendEvent_written u personnel org tbl now _ id ts tbl' Happ)
      as (item & employee & w & -> & Hid & Hity & _ & Hw & Hwbs & _ & _
          & Htruthy & Hreason & Hprev).
    destruct (appendEvent_inr u personnel org tbl now _ id ts _ Happ)
      as (item' & Hitem & Hts & _ & Hnow & _ & Hchain).
    assert (item' = item) by congruence. subst item' ts.
    destruct Hpass as (_ & _ & Hbody & Hreq).
    cbn in Hbody, Hity, Hreason, Htruthy, Hw, Hchain.
    apply negb_false_iff in Hperm. unfold WbsChange.hasWbsPermission in Hperm.
    destruct (WbsChange.claims event) as [c|] eqn:Hclaims; [|discriminate].
    assert (Hflag : WbsChange.custom_wbsChange event = Some "true").
    { destruct (WbsChange.custom_wbsChange event) as [f|]; [|discriminate].
      cbn in Hperm. apply String.eqb_eq in Hperm. now subst f. }
    destruct (Ledger.getLatestTimestamp tbl id) as [latest|] eqn:Hlatest.
    2:{ rewrite Hity in Hchain.
        apply chainFields_none in Hchain as (Hc & _). discriminate. }
    assert (Hallowed :
              Ledger.transitionAllowed (Log.timestampType latest) "WBS_CHANGE"
              = true).
    { rewrite Hity in Hchain. unfold Ledger.chainFields in Hchain.
      destruct (Ledger.transitionAllowed _ _); [reflexivity|discriminate]. }
    apply validateWbsCode_inr in Hval as (wbsData & contract & Hm & Ha & Hc & Hd).
    rewrite Hbody in Hc. cbn [WbsChange.text] in Hc.
    destruct (Ledger.handler u personnel org tbl now
                (WbsChange.timestampEvent event)) as [res tbl1] eqn:Hh.
    cbn [fst snd] in Hok, Hsnd. subst tbl1.
    cbn [fst snd].
    assert (Hres : Ledger.r_timestamp res = Some now).
    { pose proof (ledger_passes u personnel org tbl now
                    (WbsChange.timestampEvent event) id) as Hp.
      rewrite Hh, Happ in Hp.
      assert (Hpc : Ledger.passesChecks u (WbsChange.timestampEvent event) id).
      { destruct (ledger_cases u personnel org tbl now
                    (WbsChange.timestampEvent event))
          as [[Hx _]|(id' & Hp')].
        - rewrite Hh in Hx. now cbn in Hx.
        - assert (id' = id).
          { destruct Hp' as (_ & _ & Hb' & _). cbn in Hb'. congruence. }
          now subst id'. }
      specialize (Hp Hpc). now injection Hp as ->. }
    rewrite Hok. cbn [Z.geb Z.compare Pos.compare Pos.compare_cont].
    change (201 >=? 400) with false. cbn [fst snd WbsChange.statusCode
      WbsChange.r_timestamp WbsChange.r_newWbsCode].
    exists item, latest, wbsData, contract. subst id.
    cbn [Ledger.claims WbsChange.timestampEvent] in Hreq.
    rewrite Hclaims in Hreq.
    repeat split; try assumption.
    rewrite Hwbs. unfold Ledger.checkWbsCode in Hw.
    cbn [Ledger.wbsCode] in Hw.
    destruct (JS.truthy (WbsChange.newWbsCode (WbsChange.body event)))
      eqn:Hnew.
    + apply bind_inr in Hw as (b' & _ & Hret). injection Hret as <-.
      unfold JS.or_else. now rewrite !Hnew.
    + change (JS.array_includes ["CLOCK_IN"; "BREAK_END"] "WBS_CHANGE")
        with false in Hw. injection Hw as <-.
      unfold JS.or_else. now rewrite Hnew.
  - left.
    destruct (handler_outcome u personnel org tbl now
                (WbsChange.timestampEvent event))
      as [[_ Hsame]|(item & Hok & _)]; [|contradiction].
    destruct (Ledger.handler u personnel org tbl now
                (WbsChange.timestampEvent event)) as [res tbl1] eqn:Hh.
    cbn [fst snd] in *. subst tbl1.
    destruct Hst as [H|[H|[H|[]]]]; [congruence| |]; rewrite <- H;
      cbn; tauto.
Qed.

(** * The auditor's counts on any stored ledger *)

Section AuditCounts.

Local Open Scope nat_scope.

(** The characters of a concatenation. *)
Lemma chars_app (a b : string) :
  list_ascii_of_string (a ++ b)
  = (list_ascii_of_string a ++ list_ascii_of_string b)%list.
Proof. induction a as [|c a IH]; cbn; [reflexivity|now rewrite IH]. Qed.

Lemma prefix_chars (w s : string) (c : ascii) :
  String.prefix w s = true ->
  In c (list_ascii_of_string w) -> In c (list_ascii_of_string s).
Proof.
  revert s. induction w as [|a w IH]; intros s Hp Hin; [destruct Hin|].
  destruct s as [|b s]; [discriminate|]. cbn in Hp.
  destruct (Ascii.ascii_dec a b) as [->|]; [|discriminate].
  destruct Hin as [<-|Hin]; [now left|right; now apply IH].
Qed.

(** A text that includes a word holds every character of the word. *)
Lemma includes_chars (s w : string) (c : ascii) :
  JS.includes s w = true ->
  In c (list_ascii_of_string w) -> In c (list_ascii_of_string s).
Proof.
  induction s as [|a s IH]; cbn [JS.includes]; intros H Hin.
  - rewrite orb_false_r in H. now apply (prefix_chars w).
  - apply orb_true_iff in H as [H|H]; [now apply (prefix_chars w)|].
    right. now apply IH.
Qed.

(** The decimal text of a number holds digits and the minus sign only. *)
Lemma uint_chars (d : Decimal.uint) (c : ascii) :
  In c (list_ascii_of_string (NilEmpty.string_of_uint d)) ->
  In c (list_ascii_of_string "0123456789").
Proof.
  induction d; cbn [NilEmpty.string_of_uint list_ascii_of_string]; intro H;
    [contradiction|..];
    (destruct H as [<-|H];
     [cbn; repeat first [left; reflexivity | right] | now apply IHd]).
Qed.

Lemma number_chars (n : Z) (c : ascii) :
  In c (list_ascii_of_string (JS.number_to_string n)) ->
  In c (list_ascii_of_string "-0123456789").
Proof.
  unfold JS.number_to_string, NilZero.string_of_int.
  assert (Hu : forall d,
             In c (list_ascii_of_string (NilZero.string_of_uint d)) ->
             In c (list_ascii_of_string "0123456789")).
  { intros d. destruct d; try apply uint_chars. cbn. tauto. }
  destruct (Z.to_int n) as [d|d]; intro H.
  - right. now apply (Hu d).
  - destruct H as [<-|H]; [now left|right; now apply (Hu d)].
Qed.

Lemma sequence_message_words (n : Z) :
  let m := ("Expected sequence " ++ JS.number_to_string n ++ ".")%string in
  JS.includes m "sequence" = true
  /\ JS.includes m "chronological" = false
  /\ JS.includes m "Hash" = false.
Proof.
  cbv zeta. split; [vm_compute; reflexivity|].
  assert (Hno : forall (w : string) (c : ascii),
             In c (list_ascii_of_string w) ->
             ~ In c (list_ascii_of_string "Expected sequence -0123456789.") ->
             JS.includes
               ("Expected sequence " ++ JS.number_to_string n ++ ".") w
             = false).
  { intros w c Hw Hc.
    destruct (JS.includes _ w) eqn:E; [|reflexivity]. exfalso. apply Hc.
    pose proof (includes_chars _ _ c E Hw) as H.
    rewrite !chars_app in H.
    apply in_app_or in H as [H|H];
      [|apply in_app_or in H as [H|H]].
    - change (list_ascii_of_string "Expected sequence -0123456789.")
        with (list_ascii_of_string "Expected sequence "
              ++ list_ascii_of_string "-0123456789.")%list.
      apply in_or_app. now left.
    - apply number_chars in H.
      change (list_ascii_of_string "Expected sequence -0123456789.")
        with (list_ascii_of_string "Expected sequence "
              ++ list_ascii_of_string "-0123456789"
              ++ list_ascii_of_string ".")%list.
      apply in_or_app. right. apply in_or_app. now left.
    - change (list_ascii_of_string "Expected sequence -0123456789.")
        with (list_ascii_of_string "Expected sequence -0123456789"
              ++ list_ascii_of_string ".")%list.
      apply in_or_app. now right. }
  split.
  - apply (Hno "chronological" "g"%char); [cbn; tauto|].
    cbn. intuition discriminate.
  - apply (Hno "Hash" "H"%char); [cbn; tauto|].
    cbn. intuition discriminate.
Qed.

Lemma some_includes_push_if (c : bool) (m : string) (arr : list string)
    (w : string) :
  Auditor.some_includes (Auditor.push_if c m arr) w
  = Auditor.some_includes arr w || (c && JS.includes m w).
Proof.
  unfold Auditor.some_includes, Auditor.push_if. destruct c; cbn.
  - rewrite existsb_app. cbn. now rewrite orb_false_r.
  - now rewrite orb_false_r.
Qed.

(** The state check adds its messages after those of the chain checks. *)
Lemma stateStep_app (flags : bool * bool) (ty : string) (errs : list string) :
  fst (Auditor.stateStep flags ty errs)
  = (errs ++ fst (Auditor.stateStep flags ty []))%list.
Proof.
  unfold Auditor.stateStep. destruct flags as [[] []];
    repeat match goal with
           | |- context [if ?c then _ else _] => destruct c
           end; cbn; now rewrite ?app_nil_r, <- ?app_assoc.
Qed.

Lemma stateStep_flags (flags : bool * bool) (ty : string)
    (errs : list string) :
  snd (Auditor.stateStep flags ty errs) = snd (Auditor.stateStep flags ty []).
Proof.
  unfold Auditor.stateStep. destruct flags as [[] []];
    repeat match goal with
           | |- context [if ?c then _ else _] => destruct c
           end; reflexivity.
Qed.

(** Which of the three chain classes the checks of one entry name. *)
Lemma chainErrors_words (i : Z) (previous : option Log.Item)
    (x : Log.Item) :
  let errs := Auditor.chainErrors i previous x in
  Auditor.some_includes errs "sequence"
  = negb (Log.sequenceNumber x =? i + 1)%Z
  /\ Auditor.some_includes errs "chronological"
     = match previous with
       | Some p => (Log.timestamp x <=? Log.timestamp p)%Z
       | None => false
       end
  /\ Auditor.some_includes errs "Hash"
     = match previous with
       | Some p => negb (Log.hashChain x =? Ledger.generateHash p)%string
       | None => false
       end.
Proof.
  cbv zeta. unfold Auditor.chainErrors.
  destruct (sequence_message_words (i + 1)) as (Hs & Hc & Hh).
  change (Auditor.generateHash) with (Ledger.generateHash).
  destruct previous as [p|]; rewrite !some_includes_push_if, Hs, Hc, Hh;
    change (Auditor.some_includes [] _) with false;
    change (JS.includes "Not chronological." "sequence") with false;
    change (JS.includes "Not chronological." "chronological") with true;
    change (JS.includes "Not chronological." "Hash") with false;
    change (JS.includes "Hash mismatch." "sequence") with false;
    change (JS.includes "Hash mismatch." "chronological") with false;
    change (JS.includes "Hash mismatch." "Hash") with true;
    change (JS.includes "First hash should be GENESIS." "sequence") with false;
    change (JS.includes "First hash should be GENESIS." "chronological")
      with false;
    change (JS.includes "First hash should be GENESIS." "Hash") with false;
    rewrite ?andb_false_r, ?andb_true_r, ?orb_false_r, ?orb_false_l;
    repeat split; reflexivity.
Qed.

Lemma some_includes_app (a b : list string) (w : string) :
  Auditor.some_includes (a ++ b) w
  = Auditor.some_includes a w || Auditor.some_includes b w.
Proof. apply existsb_app. Qed.

(** Filing an entry lengthens a class by one exactly when the entry's
    messages hold the word of the class. *)
Lemma classify_counts (v : Auditor.LogValidation) (d : Auditor.ErrorDetails) :
  let bit (b : bool) := if b then 1 else 0 in
  let errs := Auditor.errors v in
  List.length (Auditor.sequence (Auditor.classify v d))
  = List.length (Auditor.sequence d) + bit (Auditor.some_includes errs "sequence")
  /\ List.length (Auditor.chronological (Auditor.classify v d))
     = List.length (Auditor.chronological d)
       + bit (Auditor.some_includes errs "chronological")
  /\ List.length (Auditor.hash (Auditor.classify v d))
     = List.length (Auditor.hash d) + bit (Auditor.some_includes errs "Hash").
Proof.
  cbv zeta. unfold Auditor.classify.
  destruct (Auditor.errors v) as [|e errs]; [cbn; lia|].
  cbn [List.length Z.ltb Z.of_nat Z.compare].
  change (0 <? Z.of_nat (S (List.length errs)))%Z with true.
  cbn [Auditor.sequence Auditor.chronological Auditor.hash].
  unfold Auditor.push_if.
  repeat split;
    match goal with
    | |- context [if ?c then _ else _] => destruct c
    end; rewrite ?length_app; cbn; lia.
Qed.

Lemma loop_counts (l : list Log.Item) (i : Z) (previous : option Log.Item)
    (st : Auditor.LoopState) :
  let d := Auditor.errorDetails (Auditor.loop i previous l st) in
  let d0 := Auditor.errorDetails st in
  List.length (Auditor.sequence d)
  = List.length (Auditor.sequence d0) + Detect.misnumbered i l
  /\ List.length (Auditor.chronological d)
     = List.length (Auditor.chronological d0) + Detect.outOfOrder previous l
  /\ List.length (Auditor.hash d)
     = List.length (Auditor.hash d0) + Detect.brokenLinks previous l.
Proof.
  revert i previous st.
  induction l as [|x rest IH]; intros i previous st; cbv zeta.
  - cbn. lia.
  - cbn [Auditor.loop Detect.misnumbered Detect.outOfOrder Detect.brokenLinks].
    destruct (IH (i + 1)%Z (Some x) (Auditor.loopBody i previous x st))
      as (Hs & Hc & Hh).
    rewrite Hs, Hc, Hh. clear Hs Hc Hh IH.
    unfold Auditor.loopBody.
    destruct (Auditor.stateStep (Auditor.flags st) (Log.timestampType x)
                (Auditor.chainErrors i previous x)) as [errs flags'] eqn:Est.
    cbn [Auditor.errorDetails].
    assert (Herrs : errs
                    = (Auditor.chainErrors i previous x
                       ++ fst (Auditor.stateStep (Auditor.flags st)
                                 (Log.timestampType x) []))%list).
    { rewrite <- stateStep_app, Est. reflexivity. }
    match goal with
    | |- context [Auditor.classify ?v ?d] =>
        destruct (classify_counts v d) as (Hs & Hc & Hh)
    end.
    rewrite Hs, Hc, Hh. cbn [Auditor.errors]. rewrite Herrs.
    rewrite !some_includes_app.
    destruct (stateStep_words (Auditor.flags st) (Log.timestampType x))
      as (Ws & Wc & Wh).
    rewrite Ws, Wc, Wh, !orb_false_r.
    destruct (chainErrors_words i previous x) as (Cs & Cc & Ch).
    rewrite Cs, Cc, Ch.
    destruct (Log.sequenceNumber x =? i + 1)%Z;
      destruct previous as [p|];
      try destruct (Log.timestamp x <=? Log.timestamp p)%Z;
      try destruct (Log.hashChain x =? Ledger.generateHash p)%string;
      cbn; lia.
Qed.

Lemma sequence_message_lacks (n : Z) (w : string) (c : ascii) :
  In c (list_ascii_of_string w) ->
  ~ In c (list_ascii_of_string "Expected sequence -0123456789.") ->
  JS.includes ("Expected sequence " ++ JS.number_to_string n ++ ".") w = false.
Proof.
  intros Hw Hc.
  destruct (JS.includes _ w) eqn:E; [|reflexivity]. exfalso. apply Hc.
  pose proof (includes_chars _ _ c E Hw) as H.
  rewrite !chars_app in H.
  apply in_app_or in H as [H|H]; [|apply in_app_or in H as [H|H]].
  - change (list_ascii_of_string "Expected sequence -0123456789.")
      with (list_ascii_of_string "Expected sequence "
            ++ list_ascii_of_string "-0123456789.")%list.
    apply in_or_app. now left.
  - apply number_chars in H.
    change (list_ascii_of_string "Expected sequence -0123456789.")
      with (list_ascii_of_string "Expected sequence "
            ++ list_ascii_of_string "-0123456789"
            ++ list_ascii_of_string ".")%list.
    apply in_or_app. right. apply in_or_app. now left.
  - change (list_ascii_of_string "Expected sequence -0123456789.")
      with (list_ascii_of_string "Expected sequence -0123456789"
            ++ list_ascii_of_string ".")%list.
    apply in_or_app. now right.
Qed.

(** No message of the chain checks holds a word of the state class. *)
Lemma chainErrors_state_words (i : Z) (previous : option Log.Item)
    (x : Log.Item) :
  let errs := Auditor.chainErrors i previous x in
  Auditor.some_includes errs "Cannot" = false
  /\ Auditor.some_includes errs "Invalid state" = false.
Proof.
  cbv zeta. unfold Auditor.chainErrors.
  assert (Hc : JS.includes
                 ("Expected sequence " ++ JS.number_to_string (i + 1) ++ ".")
                 "Cannot" = false).
  { apply (sequence_message_lacks _ _ "C"%char); [cbn; tauto|].
    cbn. intuition discriminate. }
  assert (Hv : JS.includes
                 ("Expected sequence " ++ JS.number_to_string (i + 1) ++ ".")
                 "Invalid state" = false).
  { apply (sequence_message_lacks _ _ "v"%char); [cbn; tauto|].
    cbn. intuition discriminate. }
  destruct previous as [p|]; rewrite !some_includes_push_if, Hc, Hv;
    change (Auditor.some_includes [] _) with false;
    change (JS.includes "Not chronological." "Cannot") with false;
    change (JS.includes "Not chronological." "Invalid state") with false;
    change (JS.includes "Hash mismatch." "Cannot") with false;
    change (JS.includes "Hash mismatch." "Invalid state") with false;
    change (JS.includes "First hash should be GENESIS." "Cannot") with false;
    change (JS.includes "First hash should be GENESIS." "Invalid state")
      with false;
    rewrite ?andb_false_r; split; reflexivity.
Qed.

(** Every message of the state check holds a word of the state class. *)
Lemma stateStep_state_words (flags : bool * bool) (ty : string) :
  let errs := fst (Auditor.stateStep flags ty []) in
  Auditor.some_includes errs "Cannot"
  || Auditor.some_includes errs "Invalid state"
  = negb (List.length errs =? 0).
Proof.
  destruct flags as [[|] [|]]; unfold Auditor.stateStep;
    repeat match goal with
           | |- context [if (ty =? ?t)%string then _ else _] =>
               destruct (ty =? t)%string
           end;
    vm_compute; reflexivity.
Qed.

Lemma classify_state_count (v : Auditor.LogValidation)
    (d : Auditor.ErrorDetails) :
  List.length (Auditor.state (Auditor.classify v d))
  = List.length (Auditor.state d)
    + (if Auditor.some_includes (Auditor.errors v) "Cannot"
          || Auditor.some_includes (Auditor.errors v) "Invalid state"
       then 1 else 0).
Proof.
  unfold Auditor.classify.
  destruct (Auditor.errors v) as [|e errs]; [cbn; lia|].
  change (0 <? Z.of_nat (List.length (e :: errs)))%Z with true.
  cbn [Auditor.state]. unfold Auditor.push_if.
  destruct (_ || _); rewrite ?length_app; cbn; lia.
Qed.

Lemma loop_state_count (l : list Log.Item) (i : Z)
    (previous : option Log.Item) (st : Auditor.LoopState) :
  List.length
    (Auditor.state (Auditor.finalState (Auditor.loop i previous l st)))
  = List.length (Auditor.state (Auditor.errorDetails st))
    + Detect.stateFaults (Auditor.flags st) l.
Proof.
  revert i previous st.
  induction l as [|x rest IH]; intros i previous st.
  - cbn [Auditor.loop Detect.stateFaults]. unfold Auditor.finalState.
    destruct (Auditor.flags st) as [[] []]; cbn [Auditor.state fst snd];
      unfold Auditor.push_if; rewrite ?length_app; cbn; lia.
  - cbn [Auditor.loop Detect.stateFaults]. rewrite IH. clear IH.
    unfold Auditor.loopBody.
    pose proof (stateStep_app (Auditor.flags st) (Log.timestampType x)
                  (Auditor.chainErrors i previous x)) as Happ.
    pose proof (stateStep_flags (Auditor.flags st) (Log.timestampType x)
                  (Auditor.chainErrors i previous x)) as Hfl.
    pose proof (stateStep_state_words (Auditor.flags st)
                  (Log.timestampType x)) as Hw.
    destruct (Auditor.stateStep (Auditor.flags st) (Log.timestampType x)
                (Auditor.chainErrors i previous x)) as [errs flags'].
    destruct (Auditor.stateStep (Auditor.flags st) (Log.timestampType x) [])
      as [s f].
    cbn [fst snd] in Happ, Hfl, Hw. subst errs flags'.
    cbn [Auditor.errorDetails Auditor.flags].
    rewrite classify_state_count. cbn [Auditor.errors].
    rewrite !some_includes_app.
    destruct (chainErrors_state_words i previous x) as (-> & ->).
    cbn [orb]. rewrite Hw.
    destruct (List.length s =? 0); cbn; lia.
Qed.

End AuditCounts.

(** Whatever the stored ledger, the auditor's report counts exactly: as
    sequence errors the events whose sequence number is not their position,
    as chronological errors the events not later than the one before, as
    hash-chain errors the events after the first whose [hashChain] is not
    the digest of the one before (a wrong [hashChain] of the first event is
    not counted), and as state errors the events its state check objects to
    plus the flags still up at the end. *)
Theorem audit_counts_are_exact (id : string) (logs : list Log.Item)
    (now : Z) (by_ : option string) :
  let s := Auditor.summary (Auditor.report id logs now by_) in
  Auditor.totalLogs s = Z.of_nat (List.length logs)
  /\ Auditor.sequenceErrors s = Z.of_nat (Detect.misnumbered 0 logs)
  /\ Auditor.chronologicalErrors s = Z.of_nat (Detect.outOfOrder None logs)
  /\ Auditor.hashChainErrors s = Z.of_nat (Detect.brokenLinks None logs)
  /\ Auditor.stateErrors s
     = Z.of_nat (Detect.stateFaults (false, false) logs).
Proof.
  cbv zeta. destruct (report_fields id logs now by_) as (_ & ->).
  cbn [Auditor.totalLogs Auditor.sequenceErrors Auditor.chronologicalErrors
       Auditor.hashChainErrors Auditor.stateErrors].
  destruct (loop_counts logs 0 None Auditor.initial) as (Hs & Hc & Hh).
  pose proof (loop_state_count logs 0 None Auditor.initial) as Hst.
  unfold Auditor.validate. cbn [fst Auditor.sequence Auditor.chronological
    Auditor.hash Auditor.state].
  rewrite Hst. clear Hst.
  unfold Auditor.finalState.
  destruct (Auditor.flags (Auditor.loop 0 None logs Auditor.initial))
    as [ci ob].
  cbn [Auditor.sequence Auditor.chronological Auditor.hash].
  rewrite Hs, Hc, Hh. cbn. repeat split; reflexivity.
Qed.

(** A ledger on which the three counts are zero is numbered by position,
    strictly chronological and linked by digests. *)
Lemma nothing_detected (l : list Log.Item) (i : Z)
    (previous : option Log.Item) :
  Detect.misnumbered i l = 0%nat ->
  Detect.outOfOrder previous l = 0%nat ->
  Detect.brokenLinks previous l = 0%nat ->
  forall n x,
    nth_error l n = Some x ->
    Log.sequenceNumber x = i + Z.of_nat n + 1
    /\ match match n with O => previous | S m => nth_error l m end with
       | Some p =>
           Log.timestamp p < Log.timestamp x
           /\ Log.hashChain x = Ledger.generateHash p
       | None => True
       end.
Proof.
  revert i previous. induction l as [|y rest IH]; intros i previous Hs Hc Hh n x Hn.
  - now destruct n.
  - cbn [Detect.misnumbered Detect.outOfOrder Detect.brokenLinks] in Hs, Hc, Hh.
    apply Nat.eq_add_0 in Hs as (Hs0 & Hs), Hc as (Hc0 & Hc), Hh as (Hh0 & Hh).
    destruct n as [|n].
    + injection Hn as <-. split.
      * destruct (Z.eqb_spec (Log.sequenceNumber y) (i + 1)); [lia|discriminate].
      * destruct previous as [p|]; [|exact I]. split.
        -- destruct (Z.leb_spec (Log.timestamp y) (Log.timestamp p));
             [discriminate|lia].
        -- destruct (String.eqb_spec (Log.hashChain y) (Ledger.generateHash p));
             [assumption|discriminate].
    + cbn [nth_error] in Hn.
      destruct (IH (i + 1) (Some y) Hs Hc Hh n x Hn) as (Hseq & Hlink).
      split; [lia|]. destruct n; exact Hlink.
Qed.

(** A ledger the auditor reports VALID is numbered 1, 2, 3, ... in its
    stored order, each event is later than the one before it and carries
    the digest of the one before it as [hashChain]. *)
Theorem valid_report_is_chained (id : string) (logs : list Log.Item)
    (now : Z) (by_ : option string)
    (Hvalid : Auditor.validationStatus (Auditor.report id logs now by_)
              = "VALID") :
  (forall n x,
      nth_error logs n = Some x -> Log.sequenceNumber x = Z.of_nat n + 1)
  /\ (forall n p x,
         nth_error logs n = Some p -> nth_error logs (S n) = Some x ->
         Log.timestamp p < Log.timestamp x
         /\ Log.hashChain x = Ledger.generateHash p).
Proof.
  destruct (report_fields id logs now by_) as (Hstatus & _).
  rewrite Hstatus in Hvalid.
  destruct (Auditor.overallValid (fst (Auditor.validate logs))) eqn:Hall;
    [clear Hvalid|discriminate Hvalid].
  unfold Auditor.overallValid in Hall.
  repeat (apply andb_true_iff in Hall as (Hall & ?)).
  repeat match goal with
         | H : (_ =? 0)%nat = true |- _ => apply Nat.eqb_eq in H
         end.
  destruct (loop_counts logs 0 None Auditor.initial) as (Hs & Hc & Hh).
  unfold Auditor.validate in *. cbn [fst Auditor.sequence Auditor.chronological
    Auditor.hash] in *.
  unfold Auditor.finalState in *.
  destruct (Auditor.flags (Auditor.loop 0 None logs Auditor.initial))
    as [ci ob].
  cbn [Auditor.sequence Auditor.chronological Auditor.hash] in *.
  cbn [Auditor.initial Auditor.errorDetails Auditor.sequence
       Auditor.chronological Auditor.hash List.length] in Hs, Hc, Hh.
  assert (Hm : Detect.misnumbered 0 logs = 0%nat) by lia.
  assert (Ho : Detect.outOfOrder None logs = 0%nat) by lia.
  assert (Hb : Detect.brokenLinks None logs = 0%nat) by lia.
  pose proof (nothing_detected logs 0 None Hm Ho Hb) as Hall'.
  split.
  - intros n x Hn. destruct (Hall' n x Hn) as (Hseq & _). lia.
  - intros n p x Hp Hx. destruct (Hall' (S n) x Hx) as (_ & Hlink).
    now rewrite Hp in Hlink.
Qed.

(** On the fixtures: the day with one break, as the ledger wrote it. *)
Lemma valid_report_is_chained_witness :
  let logs := Auditor.fetchAllTimestampLogs Fixtures.dayWithBreak "E1" in
  List.length logs = 4%nat
  /\ forall n x,
       nth_error logs n = Some x -> Log.sequenceNumber x = Z.of_nat n + 1.
Proof.
  intro logs. split; [vm_compute; reflexivity|].
  apply (valid_report_is_chained "E1" logs (Fixtures.clock 1 9 0) (Some "A1")).
  vm_compute. reflexivity.
Defined.

(** * The figures of an attendance record *)

(** The leave check passes exactly when no approved leave of the employee
    covers the date. *)
Lemma leave_check (u : Utils.t) (timeTable : Attendance.Table)
    (id date : string) :
  Attendance.validateLeaveConflict u timeTable id date = inr tt
  <-> ~ Leave.covers u timeTable id date.
Proof.
  unfold Attendance.validateLeaveConflict.
  match goal with
  | |- (if existsb ?f ?l then _ else _) = _ <-> _ =>
      set (conflict := f); set (approved := l)
  end.
  assert (Happ : forall l, In l approved
                           <-> In (Attendance.LeaveItem l) timeTable
                               /\ Attendance.l_employeeId l = id
                               /\ Attendance.approvalStatus l = "Approved").
  { intro l. unfold approved. rewrite in_flat_map. split.
    - intros ([a|l'] & Hin & Hl); [contradiction|].
      cbn [Attendance.GSI1PK] in Hl.
      destruct (("EMP#" ++ Attendance.l_employeeId l' =? "EMP#" ++ id)%string)
        eqn:E1; [|contradiction].
      destruct (Attendance.approvalStatus l' =? "Approved")%string eqn:E2;
        [|contradiction].
      destruct Hl as [<-|[]].
      apply String.eqb_eq in E1, E2. cbn in E1. injection E1 as E1.
      now repeat split.
    - intros (Hin & Hid & Hst). exists (Attendance.LeaveItem l).
      split; [exact Hin|]. cbn [Attendance.GSI1PK].
      rewrite Hid, Hst, !String.eqb_refl. now left. }
  assert (Hex : existsb conflict approved = true
                <-> Leave.covers u timeTable id date).
  { rewrite existsb_exists. split.
    - intros (l & Hin & Hc). apply Happ in Hin as (Hin & Hid & Hst).
      unfold conflict in Hc.
      destruct (Utils.dateOf u date) as [a|] eqn:Ea; [|discriminate Hc].
      destruct (Utils.dateOf u (Attendance.startDate l)) as [st|] eqn:Es;
        [|discriminate Hc].
      destruct (Utils.dateOf u (Attendance.endDate l)) as [en|] eqn:Ee;
        [|discriminate Hc].
      apply andb_true_iff in Hc as [H1 H2].
      apply Z.geb_le in H1. apply Z.leb_le in H2.
      exists l, a, st, en. repeat split; try assumption.
    - intros (l & a & st & en & Hin & Hid & Hst & Ea & Es & Ee & H1 & H2).
      exists l. split; [apply Happ; now repeat split|].
      unfold conflict. rewrite Ea, Es, Ee.
      apply andb_true_iff. split; [now apply Z.geb_le|now apply Z.leb_le]. }
  destruct (existsb conflict approved).
  - split; [discriminate|]. intro H. exfalso. apply H. now apply Hex.
  - split; [|reflexivity]. intros _ H. apply Hex in H. discriminate H.
Qed.

(** The three figures of a record, from the milliseconds worked. *)
Lemma hours2_figures (ms : Z) :
  let total := Hours.of_ms ms in
  let regular := Attendance.hours2 (Num.min total (Hours.of_int 8)) in
  let overtime :=
    Attendance.hours2 (Num.max 0 (Num.sub total (Hours.of_int 8))) in
  regular <= Hours.of_int 8
  /\ regular <= Attendance.hours2 total
  /\ 0 <= overtime
  /\ (ms <= 8 * 3600000 -> regular = Attendance.hours2 total /\ overtime = 0).
Proof.
  intros total regular overtime.
  assert (H8 : Attendance.hours2 (Hours.of_int 8) = Hours.of_int 8)
    by (vm_compute; reflexivity).
  assert (H0 : Attendance.hours2 0 = 0) by (vm_compute; reflexivity).
  assert (Hms8 : Hours.of_ms (8 * 3600000) = Hours.of_int 8)
    by (vm_compute; reflexivity).
  assert (Hsub8 : Num.sub (Hours.of_int 8) (Hours.of_int 8) = 0)
    by (vm_compute; reflexivity).
  assert (Hden : 0 < Num.of_Z 3600000) by (vm_compute; reflexivity).
  split; [|split; [|split]].
  - apply Z.le_trans with (Attendance.hours2 (Hours.of_int 8)); [|lia].
    apply toFixed_mono; [lia|]. unfold Num.min. lia.
  - apply toFixed_mono; [lia|]. unfold Num.min. lia.
  - apply Z.le_trans with (Attendance.hours2 0); [lia|].
    apply toFixed_mono; [lia|]. unfold Num.max. lia.
  - intro Hle.
    assert (Htot : total <= Hours.of_int 8).
    { rewrite <- Hms8. unfold total, Hours.of_ms.
      apply div_mono; [exact Hden|]. now apply of_Z_mono. }
    split.
    + unfold regular, Num.min. now rewrite Z.min_l.
    + unfold overtime, Num.max. rewrite Z.max_l; [exact H0|].
      rewrite <- Hsub8. now apply sub_mono.
Qed.

(** An attendance record is created only for the caller, when no record
    of that employee and date is stored, no approved leave of the employee
    covers the date (the dates as the engine reads their texts), and the
    day's events hold a CLOCK_IN and a CLOCK_OUT, the first of each at most
    12 hours apart, and no break over 30 minutes. The record holds those two
    events as check-in and check-out. Its total is the double of the
    milliseconds between them less the breaks, divided by 3600000, as
    [toFixed(2)] prints it; regular and overtime hours are the same of the
    part up to 8 and of the part above 8. Regular hours are at most 8 and at
    most the total, overtime is not negative, and up to eight hours of work
    the regular hours are the total and the overtime is zero. *)
Theorem attendance_record_is_checked (u : Utils.t) (org : Org.Table)
    (logTable : Log.Table) (timeTable : Attendance.Table) (uuid : string)
    (now : Z) (event : Attendance.Request)
    (Hok : Attendance.statusCode
             (fst (Attendance.handler u org logTable timeTable uuid now event))
           = 201) :
  exists a logs clockIn clockOut breakMs,
    snd (Attendance.handler u org logTable timeTable uuid now event)
    = Attendance.AttendanceItem a :: timeTable
    /\ Attendance.attendanceId a = uuid
    /\ Auth.getRequestingUser (Attendance.claims event)
       = Some (Attendance.employeeId a)
    /\ Attendance.existingAttendance timeTable (Attendance.employeeId a)
         (Attendance.attendanceDate a) = []
    /\ ~ Leave.covers u timeTable (Attendance.employeeId a)
          (Attendance.attendanceDate a)
    /\ Attendance.getLogsForDate logTable (Attendance.employeeId a)
         (Attendance.attendanceDate a) = inr logs
    /\ find (Attendance.isType "CLOCK_IN") logs = Some clockIn
    /\ find (Attendance.isType "CLOCK_OUT") logs = Some clockOut
    /\ Attendance.breakTotal logs None 0 = inr breakMs
    /\ let d := Attendance.details a in
       let ms := Log.timestamp clockOut - Log.timestamp clockIn - breakMs in
       Attendance.checkInTime d = Log.timestamp clockIn
       /\ Attendance.checkOutTime d = Log.timestamp clockOut
       /\ Log.timestamp clockOut - Log.timestamp clockIn <= 12 * 3600000
       /\ Attendance.totalHours d = Hours.toFixed 2 (Hours.of_ms ms)
       /\ Attendance.regularHours d
          = Hours.toFixed 2 (Num.min (Hours.of_ms ms) (Hours.of_int 8))
       /\ Attendance.overtimeHours d
          = Hours.toFixed 2
              (Num.max 0 (Num.sub (Hours.of_ms ms) (Hours.of_int 8)))
       /\ Attendance.regularHours d <= Hours.of_int 8
       /\ Attendance.regularHours d <= Attendance.totalHours d
       /\ 0 <= Attendance.overtimeHours d
       /\ (ms <= 8 * 3600000 ->
           Attendance.regularHours d = Attendance.totalHours d
           /\ Attendance.overtimeHours d = 0).
Proof.
  destruct (handler_cases u org logTable timeTable uuid now event)
    as [[Hno _]|(e & d & Hpass)]; [contradiction|].
  rewrite (passes_then_record _ _ _ _ _ _ _ _ _ Hpass) in Hok |- *.
  destruct (Attendance.createRecord u org logTable timeTable uuid now
              (Attendance.body event) (Some e) e d) as [err|[id tbl]] eqn:Hc;
    [discriminate Hok|]. clear Hok.
  unfold Attendance.createRecord in Hc.
  apply bind_inr in Hc as (x & Hexist & Hc).
  apply bind_inr in Hc as ([] & Hleave & Hc).
  apply bind_inr in Hc as (logs & Hlogs & Hc).
  apply bind_inr in Hc as (det & Hdet & Hc).
  unfold Attendance.putIfAbsent in Hc.
  destruct (existsb _ timeTable); [discriminate Hc|].
  injection Hc as <- <-. cbn [snd].
  unfold Attendance.processTimestampLogs in Hdet.
  destruct (find (Attendance.isType "CLOCK_IN") logs) as [clockIn|] eqn:Hin;
    [|discriminate Hdet].
  destruct (find (Attendance.isType "CLOCK_OUT") logs) as [clockOut|] eqn:Hout;
    [|discriminate Hdet].
  destruct (Log.timestamp clockOut - Log.timestamp clockIn
            >? 12 * 60 * 60 * 1000) eqn:Hlong; [discriminate Hdet|].
  apply bind_inr in Hdet as (breakMs & Hbreak & Hdet).
  injection Hdet as <-.
  eexists _, logs, clockIn, clockOut, breakMs.
  cbn [Attendance.attendanceId Attendance.employeeId Attendance.attendanceDate
       Attendance.details Attendance.checkInTime Attendance.checkOutTime
       Attendance.totalHours Attendance.regularHours Attendance.overtimeHours].
  destruct Hpass as (_ & _ & _ & _ & _ & _ & Hreq).
  destruct (hours2_figures
              (Log.timestamp clockOut - Log.timestamp clockIn - breakMs))
    as (Hreg & Hrt & Hover & Hshort).
  assert (Hnone : Attendance.existingAttendance timeTable e d = []).
  { destruct (Attendance.existingAttendance timeTable e d); [reflexivity|].
    discriminate Hexist. }
  apply leave_check in Hleave.
  rewrite Z.gtb_ltb in Hlong. apply Z.ltb_ge in Hlong.
  split; [reflexivity|]. split; [reflexivity|].
  split; [exact Hreq|]. split; [exact Hnone|]. split; [exact Hleave|].
  split; [exact Hlogs|]. split; [exact Hin|]. split; [exact Hout|].
  split; [exact Hbreak|]. cbv zeta.
  split; [reflexivity|]. split; [reflexivity|].
  split; [lia|].
  split; [reflexivity|]. split; [reflexivity|]. split; [reflexivity|].
  split; [exact Hreg|]. split; [exact Hrt|]. split; [exact Hover|exact Hshort].
Qed.

(** On the fixtures: E1's record of the day with one break, 7.75 hours. *)
Lemma attendance_record_is_checked_witness :
  exists a,
    Fixtures.attendanceOf "u1" = [Attendance.AttendanceItem a]
    /\ Attendance.regularHours (Attendance.details a) <= Hours.of_int 8
    /\ ~ Leave.covers Fixtures.utils [] (Attendance.employeeId a)
          (Attendance.attendanceDate a).
Proof.
  destruct (attendance_record_is_checked Fixtures.utils Fixtures.org
              Fixtures.dayWithBreak [] "u1" (Fixtures.clock 1 9 0)
              Fixtures.attend)
    as (a & logs & clockIn & clockOut & breakMs & Hsnd & _ & _ & _ & Hleave
        & _ & _ & _ & _ & _ & _ & _ & _ & _ & _ & Hreg & _).
  - vm_compute. reflexivity.
  - exists a. split; [exact Hsnd|]. split; [exact Hreg|exact Hleave].
Defined.

(** A leave stored with slash dates is read by the engine as any other:
    E1's approved leave from 2025/01/01 to 01/03/2025 covers 2025-01-01, and
    the record of that day is refused. *)
Example attendance_refused_on_slash_date_leave :
  let leave :=
    Attendance.LeaveItem
      {| Attendance.l_employeeId := "E1";
         Attendance.approvalStatus := "Approved";
         Attendance.startDate := "2025/01/01";
         Attendance.endDate := "01/03/2025" |} in
  let answer :=
    Attendance.handler Fixtures.utils Fixtures.org Fixtures.dayWithBreak
      [leave] "u1" (Fixtures.clock 1 9 0) Fixtures.attend in
  Attendance.validateLeaveConflict Fixtures.utils [leave] "E1" "2025-01-01"
  = inl (Attendance.LeaveConflict "2025-01-01")
  /\ Attendance.statusCode (fst answer) = 400
  /\ snd answer = [leave].
Proof. vm_compute. repeat split; reflexivity. Qed.

(** The aggregation does not ask that the day's first CLOCK_IN come before
    its first CLOCK_OUT. When the first CLOCK_OUT is the earlier one, as on
    the day a night shift ends and the next begins, the day is aggregated
    all the same: the total is negative, the regular hours equal it and the
    overtime is zero. *)
Theorem attendance_out_before_in (org : Org.Table) (logs : list Log.Item)
    (clockIn clockOut : Log.Item) (breakMs : Z)
    (Hin : find (Attendance.isType "CLOCK_IN") logs = Some clockIn)
    (Hout : find (Attendance.isType "CLOCK_OUT") logs = Some clockOut)
    (Hbreak : Attendance.breakTotal logs None 0 = inr breakMs)
    (Hb : 0 <= breakMs)
    (Hnight : Log.timestamp clockOut + 18000 <= Log.timestamp clockIn) :
  exists d,
    Attendance.processTimestampLogs org logs = inr d
    /\ Attendance.totalHours d < 0
    /\ Attendance.regularHours d = Attendance.totalHours d
    /\ Attendance.overtimeHours d = 0.
Proof.
  unfold Attendance.processTimestampLogs. rewrite Hin, Hout.
  destruct (Z.gtb_spec (Log.timestamp clockOut - Log.timestamp clockIn)
              (12 * 60 * 60 * 1000)) as [Hlong|_]; [lia|].
  rewrite Hbreak. cbn [Ledger.bind]. eexists. split; [reflexivity|].
  cbn [Attendance.totalHours Attendance.regularHours Attendance.overtimeHours].
  set (t := Log.timestamp clockOut - Log.timestamp clockIn - breakMs).
  assert (Ht : t <= -18000) by (unfold t; lia).
  assert (Hden : 0 < Num.of_Z 3600000) by (vm_compute; reflexivity).
  assert (Hneg : Hours.of_ms (-18000) < 0) by (vm_compute; reflexivity).
  assert (Hfix : Attendance.hours2 (Hours.of_ms (-18000)) < 0)
    by (vm_compute; reflexivity).
  assert (H8 : 0 <= Hours.of_int 8) by (vm_compute; discriminate).
  assert (Hsub : Num.sub 0 (Hours.of_int 8) <= 0) by (vm_compute; discriminate).
  assert (H0 : Attendance.hours2 0 = 0) by (vm_compute; reflexivity).
  assert (Hle : Hours.of_ms t <= Hours.of_ms (-18000)).
  { unfold Hours.of_ms. apply div_mono; [exact Hden|]. now apply of_Z_mono. }
  split; [|split].
  - apply Z.le_lt_trans with (Attendance.hours2 (Hours.of_ms (-18000)));
      [|exact Hfix].
    apply toFixed_mono; [lia|exact Hle].
  - unfold Num.min. rewrite Z.min_l by lia. reflexivity.
  - unfold Num.max. rewrite Z.max_l; [exact H0|].
    apply Z.le_trans with (Num.sub 0 (Hours.of_int 8)); [|exact Hsub].
    apply sub_mono. lia.
Qed.

(** On the fixtures: E1's night shifts, as the ledger accepted them; the
    record of 2025-01-02 is created with a total of minus twenty hours. *)
Lemma attendance_out_before_in_witness :
  exists logs d,
    Attendance.getLogsForDate Fixtures.nightShift "E1" "2025-01-02" = inr logs
    /\ Attendance.processTimestampLogs Fixtures.org logs = inr d
    /\ Attendance.totalHours d < 0.
Proof.
  assert (Hday : exists logs,
             Attendance.getLogsForDate Fixtures.nightShift "E1" "2025-01-02"
             = inr logs
             /\ find (Attendance.isType "CLOCK_IN") logs
                = Some (Fixtures.nthEvent Fixtures.nightShift 2)
             /\ find (Attendance.isType "CLOCK_OUT") logs
                = Some (Fixtures.nthEvent Fixtures.nightShift 1)
             /\ Attendance.breakTotal logs None 0 = inr 0).
  { eexists. split; [vm_compute; reflexivity|].
    split; [vm_compute; reflexivity|].
    split; vm_compute; reflexivity. }
  destruct Hday as (logs & Hlogs & Hin & Hout & Hbreak).
  destruct (attendance_out_before_in Fixtures.org logs _ _ 0 Hin Hout Hbreak)
    as (d & Hd & Hneg & _).
  - lia.
  - vm_compute. discriminate.
  - exists logs, d. repeat split; assumption.
Defined.

Example attendance_night_shift_record :
  let answer :=
    Attendance.handler Fixtures.utils Fixtures.org Fixtures.nightShift []
      "u1" (Fixtures.clock 2 9 0) (Fixtures.attendOn "2025-01-02") in
  Attendance.statusCode (fst answer) = 201
  /\ map (fun it => match it with
                    | Attendance.AttendanceItem a =>
                        Attendance.totalHours (Attendance.details a)
                    | Attendance.LeaveItem _ => 0
                    end) (snd answer)
     = [- Hours.of_int 20].
Proof. vm_compute. split; reflexivity. Qed.

(** A change of work category on the fixtures: recorded for E1 clocked in
    and holding the permission, refused without the permission, and
    answered 500 for a work category that does not exist. *)
Example wbs_change_on_fixtures :
  let run_ permitted code :=
    WbsChange.handler Fixtures.utils Fixtures.personnel Fixtures.org
      Fixtures.clockedIn (Fixtures.clock 0 9 0)
      (Fixtures.changeRequest permitted code) in
  WbsChange.statusCode (fst (run_ true "WBS-1")) = 200
  /\ List.length (snd (run_ true "WBS-1")) = 2%nat
  /\ WbsChange.statusCode (fst (run_ false "WBS-1")) = 403
  /\ WbsChange.statusCode (fst (run_ true "WBS-9")) = 500.
Proof. vm_compute. repeat split; reflexivity. Qed.

(** * The timesheet's segments *)

Section Segments.

(** What holds of every segment listed under a date. *)
Variable P : string -> Timesheet.Segment -> Prop.

Lemma listed_ensure (k : string) (m : Timesheet.DailyHours) :
  Listing.listed P m -> Listing.listed P (Timesheet.ensure k m).
Proof.
  intro H. unfold Timesheet.ensure. destruct (Timesheet.has k m); [exact H|].
  apply Forall_app. split; [exact H|]. repeat constructor.
Qed.

Lemma listed_update (k : string) (f : Timesheet.Day -> Timesheet.Day)
    (m : Timesheet.DailyHours) :
  (forall d, Forall (P k) (Timesheet.allocations d) ->
             Forall (P k) (Timesheet.allocations (f d))) ->
  Listing.listed P m -> Listing.listed P (Timesheet.update k f m).
Proof.
  intros Hf. induction m as [|[k' d] m IH]; intro H; [constructor|].
  inversion H as [|? ? Hd Hm]; subst. cbn [Timesheet.update].
  destruct (String.eqb_spec k' k) as [->|_].
  - constructor; [|exact Hm]. cbn [fst snd] in *. now apply Hf.
  - constructor; [exact Hd|]. now apply IH.
Qed.

Hypothesis closed_segment :
  forall (s : Z) (w : option string) (e : Z),
    P (Iso.dateOnly e)
      {| Timesheet.startTime := s; Timesheet.wbsCode := w;
         Timesheet.endTime := Some e;
         Timesheet.seg_totalHours := Hours.toFixed 3 (Hours.of_ms (e - s)) |}.

Lemma listed_segmentLoop (logs : list Log.Item)
    (seg : option Timesheet.Segment) (brk : option Z)
    (m : Timesheet.DailyHours) :
  Listing.listed P m -> Listing.listed P (Timesheet.segmentLoop logs seg brk m).
Proof.
  revert seg brk m. induction logs as [|log rest IH]; intros seg brk m H;
    [exact H|].
  cbn [Timesheet.segmentLoop]. cbv zeta.
  pose proof (listed_ensure (Iso.dateOnly (Log.timestamp log)) m H) as He.
  assert (Hpush : forall s,
             Listing.listed P (Timesheet.update (Iso.dateOnly (Log.timestamp log))
                       (Timesheet.pushAllocation
                          {| Timesheet.startTime := Timesheet.startTime s;
                             Timesheet.wbsCode := Timesheet.wbsCode s;
                             Timesheet.endTime := Some (Log.timestamp log);
                             Timesheet.seg_totalHours :=
                               Hours.toFixed 3
                                 (Hours.of_ms
                                    (Log.timestamp log
                                     - Timesheet.startTime s)) |})
                       (Timesheet.ensure (Iso.dateOnly (Log.timestamp log)) m))).
  { intro s. apply listed_update; [|exact He]. intros d Hd.
    cbn [Timesheet.pushAllocation Timesheet.allocations].
    apply Forall_app. split; [exact Hd|]. constructor; [|constructor].
    apply closed_segment. }
  assert (Hsub : forall b m',
             Listing.listed P m' ->
             Listing.listed P (Timesheet.update (Iso.dateOnly (Log.timestamp log))
                       (Timesheet.subtractBreak b) m')).
  { intros b m' Hm'. apply listed_update; [|exact Hm']. now intros d Hd. }
  destruct seg as [s|]; [destruct (Timesheet.closes (Log.timestampType log))|];
    destruct (Timesheet.opens (Log.timestampType log));
    destruct (Log.timestampType log =? "BREAK_START")%string;
    try (destruct brk as [start|]);
    try (destruct (Log.timestampType log =? "BREAK_END")%string);
    apply IH; auto.
Qed.

Lemma listed_payroll (logs : list Log.Item) :
  Listing.listed P (fst (Timesheet.calculatePayrollDetails logs)).
Proof.
  unfold Timesheet.calculatePayrollDetails. cbn [fst].
  pose proof (listed_segmentLoop (Log.sort_by_SK logs) None None []
                (Forall_nil _)) as H.
  unfold Listing.listed in *. apply Forall_forall. intros [k d] Hin.
  apply in_map_iff in Hin as [[k0 d0] [Heq Hin]]. injection Heq as <- <-.
  rewrite Forall_forall in H. exact (H _ Hin).
Qed.

End Segments.

(** Every segment of a timesheet is listed under the date on which it
    ends, whichever date it started on, with the hours from its start to its
    end: the double of the milliseconds between them divided by 3600000, as
    [toFixed(3)] prints it. A segment still open at the end of the range is
    not listed. *)
Theorem timesheet_segments_by_end_date (logs : list Log.Item) :
  Forall (fun kd =>
            Forall (fun seg =>
                      exists e,
                        Timesheet.endTime seg = Some e
                        /\ Iso.dateOnly e = fst kd
                        /\ Timesheet.seg_totalHours seg
                           = Hours.toFixed 3
                               (Hours.of_ms (e - Timesheet.startTime seg)))
                   (Timesheet.allocations (snd kd)))
         (fst (Timesheet.calculatePayrollDetails logs)).
Proof.
  apply (listed_payroll
           (fun k seg =>
              exists e,
                Timesheet.endTime seg = Some e
                /\ Iso.dateOnly e = k
                /\ Timesheet.seg_totalHours seg
                   = Hours.toFixed 3
                       (Hours.of_ms (e - Timesheet.startTime seg)))).
  intros s w e. exists e. repeat split; reflexivity.
Qed.

Section CsvExport.

Lemma csvRows_closed (rows : list (string * Timesheet.Segment)) :
  Forall (fun r => Timesheet.endTime (snd r) <> None) rows ->
  exists rs, Timesheet.csvRows rows = inr rs
             /\ List.length rs = List.length rows.
Proof.
  induction rows as [|[date alloc] rows IH]; intro H.
  - now exists [].
  - inversion H as [|? ? Ha Hrest]; subst. cbn [snd] in Ha.
    destruct (IH Hrest) as (rs & Hrs & Hlen).
    cbn [Timesheet.csvRows]. unfold Timesheet.csvRow.
    destruct (Timesheet.endTime alloc) as [e|]; [|contradiction].
    cbn [Ledger.bind]. rewrite Hrs. cbn [Ledger.bind].
    eexists. split; [reflexivity|]. cbn [List.length]. now rewrite Hlen.
Qed.

Lemma generateCsv_payroll (logs : list Log.Item) :
  exists text,
    Timesheet.generateCsv (fst (Timesheet.calculatePayrollDetails logs))
    = inr text.
Proof.
  unfold Timesheet.generateCsv.
  assert (Hc : forall (s : Z) (w : option string) (e : Z), Some e <> None)
    by (intros; discriminate).
  pose proof (listed_payroll (fun _ seg => Timesheet.endTime seg <> None)
                Hc logs) as H.
  match goal with
  | |- context [Timesheet.csvRows ?rows] =>
      destruct (csvRows_closed rows) as (rs & -> & _)
  end.
  - apply Forall_forall. intros [date alloc] Hin.
    apply in_flat_map in Hin as ([k d] & Hk & Hin).
    apply in_map_iff in Hin as (seg & Heq & Hseg). injection Heq as <- <-.
    unfold Listing.listed in H. rewrite Forall_forall in H.
    specialize (H _ Hk).
    rewrite Forall_forall in H. exact (H _ Hseg).
  - cbn [Ledger.bind]. eexists. reflexivity.
Qed.

End CsvExport.

(** The export of a timesheet never breaks on a segment without an end:
    the CSV text is produced whatever the logs, and the handler answers 200,
    400, 403 or 404, never 500. *)
Theorem timesheet_export_never_fails (personnel : Personnel.Table)
    (logTable : Log.Table) (event : Timesheet.Request) (logs : list Log.Item) :
  (exists text,
      Timesheet.generateCsv (fst (Timesheet.calculatePayrollDetails logs))
      = inr text)
  /\ In (Timesheet.statusCode (Timesheet.handler personnel logTable event))
        [200; 400; 403; 404].
Proof.
  split; [apply generateCsv_payroll|].
  unfold Timesheet.handler. cbv zeta.
  destruct (negb (Auth.isAuthorized _ _)); [cbn; tauto|].
  destruct (_ || _); [cbn; tauto|].
  destruct (_ && _); [cbn; tauto|].
  destruct (Personnel.personalData _ _); [|cbn; tauto].
  destruct (_ =? 0)%nat; [cbn; tauto|].
  match goal with
  | |- context [Timesheet.calculatePayrollDetails ?l] =>
      destruct (generateCsv_payroll l) as (text & Htext);
      destruct (Timesheet.calculatePayrollDetails l) as [daily w]
  end.
  cbn [fst] in Htext. rewrite Htext.
  destruct (_ =? "csv")%string; cbn; tauto.
Qed.

(** A shift over midnight on the fixtures: the four hours from 22:00 to
    02:00 are listed under the second date, none under the first. *)
Example timesheet_night_shift :
  map (fun kd => (fst kd, Timesheet.totalHours (snd kd)))
      (fst (Timesheet.calculatePayrollDetails
              (Log.queryPartition Fixtures.nightShift "EMP#E1")))
  = [("2025-01-01", 0); ("2025-01-02", Hours.of_int 4)].
Proof. vm_compute. reflexivity. Qed.

Section SummaryBounds.

Lemma sum_nonneg (l : list Num.t) : Forall (fun x => 0 <= x) l -> 0 <= Payroll.sum l.
Proof.
  unfold Payroll.sum.
  assert (H : forall a, 0 <= a -> Forall (fun x => 0 <= x) l ->
                        0 <= fold_left Num.add l a).
  { induction l as [|x l IH]; intros a Ha Hl; [exact Ha|].
    inversion Hl as [|? ? Hx Hrest]; subst. cbn [fold_left].
    apply IH; [|exact Hrest].
    rewrite <- (round_zero 1) by lia. unfold Num.add.
    apply round_mono; lia. }
  apply H. lia.
Qed.

End SummaryBounds.

(** The total of a timesheet summary is the sum of the days' totals, added
    as doubles in the order of the days, as [toFixed(2)] prints it. The
    overtime reported is never negative, and the regular hours reported are
    at most 40, however many days the range covers, as long as the days'
    regular hours sum to less than [2^56]. *)
Theorem timesheet_summary_bounds (logs : list Log.Item) :
  let days := map snd (fst (Timesheet.calculatePayrollDetails logs)) in
  let w := snd (Timesheet.calculatePayrollDetails logs) in
  Timesheet.w_totalHours w
  = Hours.toFixed 2 (Payroll.sum (map Timesheet.totalHours days))
  /\ 0 <= Timesheet.overtimeHours w
  /\ (Payroll.sum (map Timesheet.dailyRegularHours days)
      < Hours.of_int (2 ^ 56) ->
      Timesheet.regularHours w <= Hours.of_int 40).
Proof.
  intros days w.
  assert (H0 : Hours.toFixed 2 0 = 0) by (vm_compute; reflexivity).
  assert (H40 : Hours.toFixed 2 (Hours.of_int 40) = Hours.of_int 40)
    by (vm_compute; reflexivity).
  assert (Hreg : Timesheet.regularHours w
                 = Hours.toFixed 2 (Payroll.weeklyRegular days)).
  { subst w days. unfold Timesheet.calculatePayrollDetails.
    cbn [fst snd Timesheet.weekly Timesheet.regularHours].
    unfold Payroll.weeklyRegular, Payroll.weeklyOvertime.
    now rewrite !sumHours_sum. }
  assert (Hot : Timesheet.overtimeHours w
                = Hours.toFixed 2 (Payroll.totalOvertime days)).
  { subst w days. unfold Timesheet.calculatePayrollDetails.
    cbn [fst snd Timesheet.weekly Timesheet.overtimeHours].
    unfold Payroll.totalOvertime, Payroll.weeklyOvertime.
    now rewrite !sumHours_sum. }
  split; [|split].
  - subst w days. unfold Timesheet.calculatePayrollDetails.
    cbn [fst snd Timesheet.weekly Timesheet.w_totalHours].
    now rewrite sumHours_sum.
  - rewrite Hot, <- H0. apply toFixed_mono; [lia|].
    unfold Payroll.totalOvertime.
    rewrite <- (round_zero 1) by lia. unfold Num.add.
    apply round_mono; [lia|].
    assert (0 <= Payroll.weeklyOvertime days)
      by (unfold Payroll.weeklyOvertime, Num.max; lia).
    assert (0 <= Payroll.sum (map Timesheet.dailyOvertimeHours days)).
    { apply sum_nonneg. apply Forall_forall. intros x Hx.
      apply in_map_iff in Hx as (d & <- & Hd).
      subst days. rewrite payroll_days in Hd.
      apply in_map_iff in Hd as (d0 & <- & _).
      cbn [Timesheet.dailyTotals Timesheet.dailyOvertimeHours].
      unfold Num.max. lia. }
    lia.
  - intro Hmax. rewrite Hreg, <- H40. apply toFixed_mono; [lia|].
    destruct (weekly_threshold days) as [Hlow Hhigh].
    destruct (Z.le_gt_cases
                (Payroll.sum (map Timesheet.dailyRegularHours days))
                (Hours.of_int 40)) as [Hle|Hgt].
    + destruct (Hlow Hle) as [_ ->]. exact Hle.
    + destruct (Hhigh ltac:(lia)) as [_ ->]. lia.
Qed.

(** On the fixtures: the week of five nine-hour days, 40 regular hours. *)
Lemma timesheet_summary_bounds_witness :
  Timesheet.regularHours
    (snd (Timesheet.calculatePayrollDetails Fixtures.fiveDayWeek))
  <= Hours.of_int 40.
Proof.
  apply (timesheet_summary_bounds Fixtures.fiveDayWeek).
  vm_compute. reflexivity.
Defined.

(** A day of 7 h 30 min 18 s, which is 7.505 hours: the segment is listed
    with 7.505 hours, and the summary reports 7.5 hours, the double nearest
    to 7.505 being below it. *)
Example timesheet_half_hundredth :
  let logs :=
    Log.queryPartition
      (Ledger.run Fixtures.utils
         [Fixtures.at_ (Fixtures.clock 0 8 0) "CLOCK_IN";
          Fixtures.at_ (Fixtures.clock 0 15 30 + 18000) "CLOCK_OUT"] [])
      "EMP#E1" in
  let w := snd (Timesheet.calculatePayrollDetails logs) in
  map (fun kd => (fst kd, Timesheet.totalHours (snd kd)))
      (fst (Timesheet.calculatePayrollDetails logs))
  = [("2025-01-01", Num.decimal 7505 3)]
  /\ Timesheet.w_totalHours w = Num.decimal 75 1
  /\ Timesheet.regularHours w = Num.decimal 75 1
  /\ Timesheet.overtimeHours w = 0.
Proof. vm_compute. repeat split; reflexivity. Qed.

(** * The latest sequence after a history *)



(** * What a caller with the employee role can read *)

(** A caller whose role is employee gets the latest sequence and the
    timesheet of no employee but themself (any other target is not answered
    200), and is refused the audit of any ledger, their own included. *)
Theorem employee_reads_own_data_only (claims : option Auth.Claims)
    (Hrole : Auth.getUserRole claims = Some "employee") :
  (forall personnel logTable target,
      Sequence.statusCode
        (Sequence.handler personnel logTable
           {| Sequence.claims := claims; Sequence.employeeId := target |})
      = 200 ->
      Auth.getRequestingUser claims = target)
  /\ (forall personnel logTable target startDate endDate format,
         Timesheet.statusCode
           (Timesheet.handler personnel logTable
              {| Timesheet.claims := claims; Timesheet.employeeId := target;
                 Timesheet.startDate := startDate;
                 Timesheet.endDate := endDate;
                 Timesheet.format := format |})
         = 200 ->
         Auth.getRequestingUser claims = target)
  /\ (forall personnel logTable now target,
         Auditor.statusCode
           (Auditor.handler personnel logTable now
              {| Auditor.claims := claims; Auditor.employeeId := target |})
         = 403).
Proof.
  assert (Hgate : JS.strict_eq (Auth.getUserRole claims) (Some "employee")
                  = true) by (now rewrite Hrole).
  split; [|split].
  - intros personnel logTable target. unfold Sequence.handler.
    cbn [Sequence.claims Sequence.employeeId].
    destruct (negb (Auth.isAuthorized claims _)); [discriminate|].
    destruct target as [id|]; [|discriminate].
    destruct (id =? "")%string; [discriminate|].
    rewrite Hgate. cbn [andb].
    destruct (JS.strict_eq (Auth.getRequestingUser claims) (Some id)) eqn:Hown;
      [|discriminate].
    intros _. now apply strict_eq_true in Hown.
  - intros personnel logTable target startDate endDate format.
    unfold Timesheet.handler.
    cbn [Timesheet.claims Timesheet.employeeId Timesheet.startDate
         Timesheet.endDate Timesheet.format]. cbv zeta.
    destruct (negb (Auth.isAuthorized claims _)); [discriminate|].
    destruct (JS.truthy target) eqn:Htarget; [|discriminate].
    cbn [negb orb].
    destruct (_ || _); [discriminate|].
    rewrite Hgate. cbn [andb].
    destruct (JS.strict_eq (Auth.getRequestingUser claims)
                (Some (JS.or_empty target))) eqn:Hown; [|discriminate].
    intros _. apply strict_eq_true in Hown. rewrite Hown.
    destruct target as [id|]; [|discriminate Htarget].
    unfold JS.or_empty, JS.or_else. now rewrite Htarget.
  - intros personnel logTable now target. unfold Auditor.handler.
    cbn [Auditor.claims]. unfold Auth.isAuthorized. rewrite Hrole.
    reflexivity.
Qed.

(** On the fixtures: E1, an employee, asks for the latest sequence of E2. *)
Lemma employee_reads_own_data_only_witness :
  Sequence.statusCode
    (Sequence.handler Fixtures.personnel Fixtures.dayWithBreak
       {| Sequence.claims := Fixtures.claimsOf "E1" "employee";
          Sequence.employeeId := Some "E2" |})
  <> 200.
Proof.
  intro H.
  destruct (employee_reads_own_data_only (Fixtures.claimsOf "E1" "employee")
              eq_refl) as (Hseq & _).
  specialize (Hseq _ _ _ H). discriminate Hseq.
Defined.

(** * What the audit does not cover *)

Section Unaudited.

Lemma generateHash_same (a b : Log.Item) :
  Detect.sameAudited a b -> Auditor.generateHash a = Auditor.generateHash b.
Proof.
  intros (Ht & Hty & Hs & Hw & _). unfold Auditor.generateHash.
  now rewrite Ht, Hty, Hs, Hw.
Qed.

Lemma loopBody_same (i : Z) (p p' : option Log.Item) (x x' : Log.Item)
    (st : Auditor.LoopState) :
  Detect.sameBefore p p' -> Detect.sameAudited x x' ->
  Auditor.loopBody i p x st = Auditor.loopBody i p' x' st.
Proof.
  intros Hp Hx.
  assert (Hc : Auditor.chainErrors i p x = Auditor.chainErrors i p' x').
  { destruct Hx as (Ht & Hty & Hs & Hw & Hh). unfold Auditor.chainErrors.
    destruct p as [a|], p' as [b|]; try contradiction; cbn in Hp.
    - rewrite (generateHash_same a b Hp).
      destruct Hp as (Hpt & _). now rewrite Ht, Hs, Hh, Hpt.
    - now rewrite Hs, Hh. }
  unfold Auditor.loopBody. rewrite Hc.
  destruct Hx as (Ht & Hty & Hs & _). now rewrite Ht, Hty, Hs.
Qed.

Lemma loop_same (l l' : list Log.Item) :
  Forall2 Detect.sameAudited l l' ->
  forall i p p' st,
    Detect.sameBefore p p' -> Auditor.loop i p l st = Auditor.loop i p' l' st.
Proof.
  induction 1 as [|x x' l l' Hx _ IH]; intros i p p' st Hp; [reflexivity|].
  cbn [Auditor.loop]. rewrite (loopBody_same i p p' x x' st Hp Hx).
  apply IH. exact Hx.
Qed.

Lemma breakLoop_same (l l' : list Log.Item) :
  Forall2 Detect.sameAudited l l' ->
  forall start m, Auditor.breakLoop l start m = Auditor.breakLoop l' start m.
Proof.
  induction 1 as [|x x' l l' (Ht & Hty & _) _ IH]; intros start m;
    [reflexivity|].
  cbn [Auditor.breakLoop]. rewrite Ht, Hty.
  destruct (Log.timestampType x' =? "BREAK_START")%string; [apply IH|].
  destruct start as [s|]; [|apply IH].
  destruct (Log.timestampType x' =? "BREAK_END")%string; apply IH.
Qed.

End Unaudited.

(** The audit reads of a stored event its timestamp, type, sequence
    number, work category and [hashChain] only: two ledgers that agree on
    these, event by event, get the same report, whatever was done to the
    employee id, location, device, address, back link, change reason or
    previous work category of their events. *)
Theorem audit_ignores_other_fields (id : string) (logs logs' : list Log.Item)
    (now : Z) (by_ : option string)
    (Hsame : Forall2 Detect.sameAudited logs logs') :
  Auditor.report id logs now by_ = Auditor.report id logs' now by_.
Proof.
  unfold Auditor.report, Auditor.validate.
  rewrite (loop_same logs logs' Hsame 0 None None Auditor.initial I).
  rewrite (breakLoop_same logs logs' Hsame None []).
  now rewrite (Forall2_length Hsame).
Qed.

(** On the fixtures: the day with one break, every event overwritten
    outside the five fields, is still reported VALID. *)
Lemma audit_ignores_other_fields_witness :
  let logs := Log.queryPartition Fixtures.dayWithBreak "EMP#E1" in
  Auditor.validationStatus
    (Auditor.report "E1" (map Fixtures.overwritten logs)
       (Fixtures.clock 1 9 0) (Some "A1"))
  = "VALID"
  /\ map Log.ipAddress (map Fixtures.overwritten logs)
     <> map Log.ipAddress logs.
Proof.
  intro logs. split.
  - rewrite <- (audit_ignores_other_fields "E1" logs
                  (map Fixtures.overwritten logs)).
    + vm_compute. reflexivity.
    + clear. induction logs as [|x l IH]; [constructor|].
      constructor; [|exact IH]. repeat split.
  - vm_compute. discriminate.
Defined.

(** * The status of a refused work-category change *)

Section Words.

Lemma prefix_app (w s : string) :
  String.prefix w s = true <-> exists post, s = (w ++ post)%string.
Proof.
  revert s. induction w as [|c w IH]; intro s.
  - split; [intros _; now exists s|]. intros _. now destruct s.
  - destruct s as [|c' s]; cbn [String.prefix].
    + split; [discriminate|]. intros (post & H). discriminate H.
    + destruct (Ascii.ascii_dec c c') as [<-|Hne].
      * rewrite IH. split; intros (post & H); exists post.
        -- cbn. now rewrite H.
        -- cbn in H. now injection H.
      * split; [discriminate|]. intros (post & H). cbn in H.
        injection H as H _. congruence.
Qed.

(** A text includes a word when the word sits somewhere in it. *)
Lemma includes_app (s w : string) :
  JS.includes s w = true
  <-> exists pre post, s = (pre ++ w ++ post)%string.
Proof.
  induction s as [|c s IH]; cbn [JS.includes].
  - rewrite orb_false_r, prefix_app. split.
    + intros (post & H). now exists "", post.
    + intros ([|c pre] & post & H); [now exists post|discriminate H].
  - rewrite orb_true_iff, prefix_app, IH. split.
    + intros [(post & H)|(pre & post & H)].
      * now exists "", post.
      * exists (String c pre), post. cbn. now rewrite H.
    + intros ([|c' pre] & post & H).
      * left. now exists post.
      * right. cbn in H. injection H as _ H. now exists pre, post.
Qed.

Variable q : ascii.
Variable w : string.
Hypothesis q_not_in_w : ~ In q (list_ascii_of_string w).

Lemma word_before (w' X Y post : string) :
  (forall c, In c (list_ascii_of_string w') -> In c (list_ascii_of_string w)) ->
  (w' ++ post)%string = (X ++ String q Y)%string ->
  exists post', X = (w' ++ post')%string.
Proof.
  revert X. induction w' as [|c w' IH]; intros X Hsub H.
  - now exists X.
  - destruct X as [|c' X]; cbn in H.
    + injection H as -> _. exfalso. apply q_not_in_w. apply Hsub. now left.
    + injection H as <- H. destruct (IH X) as (post' & ->); [|exact H|].
      * intros a Ha. apply Hsub. now right.
      * now exists post'.
Qed.

Lemma word_beside (pre X Y post : string) :
  (pre ++ w ++ post)%string = (X ++ String q Y)%string ->
  (exists post', X = (pre ++ w ++ post')%string)
  \/ (exists pre', Y = (pre' ++ w ++ post)%string).
Proof.
  revert X. induction pre as [|c pre IH]; intros X H.
  - left. cbn in H |- *. apply (word_before w X Y post); auto.
  - destruct X as [|c' X]; cbn in H.
    + right. injection H as _ H. now exists pre.
    + injection H as <- H. destruct (IH X H) as [(post' & ->)|(pre' & ->)].
      * left. now exists post'.
      * right. now exists pre'.
Qed.

(** A word without the character [q] cannot sit across a [q]. *)
Lemma includes_across (X Y : string) :
  JS.includes (X ++ String q Y) w = true ->
  JS.includes X w = true \/ JS.includes Y w = true.
Proof.
  rewrite !includes_app. intros (pre & post & H). symmetry in H.
  destruct (word_beside pre X Y post H) as [(post' & ->)|(pre' & ->)].
  - left. now exists pre, post'.
  - right. now exists pre', post.
Qed.

(** The same for a text between two [q]. *)
Lemma includes_quoted (X code Y : string) :
  JS.includes X w = false -> JS.includes code w = false ->
  JS.includes Y w = false ->
  JS.includes (X ++ String q (code ++ String q Y)) w = false.
Proof.
  intros HX Hc HY.
  destruct (JS.includes (X ++ String q (code ++ String q Y)) w) eqn:E;
    [|reflexivity].
  apply includes_across in E as [E|E]; [congruence|].
  apply includes_across in E as [E|E]; congruence.
Qed.

End Words.

(** A change to a work category that does not exist, or is not active, is
    answered 500, the status of a server error, and writes nothing (for a
    code whose text holds neither 'permission' nor 'not valid'); a change to
    an active work category of another department is answered 400. *)
Theorem wbs_change_error_status (u : Utils.t) (personnel : Personnel.Table)
    (org : Org.Table) (tbl : Log.Table) (now : Z)
    (event : WbsChange.Request) (code id : string)
    (Hauth : Auth.isAuthorized (WbsChange.claims event) ["employee"] = true)
    (Hperm : WbsChange.hasWbsPermission event = true)
    (Hid : WbsChange.employeeId (WbsChange.body event) = Some id)
    (Hown : Auth.getRequestingUser (WbsChange.claims event) = Some id)
    (Hvalid : Utils.isValid
                (Utils.validateBody u (WbsChange.field (WbsChange.body event))
                   WbsChange.requiredFields) = true)
    (Hcode : WbsChange.newWbsCode (WbsChange.body event) = Some code)
    (Hp : JS.includes code "permission" = false)
    (Hv : JS.includes code "not valid" = false) :
  let answer := WbsChange.handler u personnel org tbl now event in
  (Org.wbsMetadata org code = None ->
   WbsChange.statusCode (fst answer) = 500 /\ snd answer = tbl)
  /\ (forall wbsData,
         Org.wbsMetadata org code = Some wbsData ->
         Org.isActive wbsData = false ->
         WbsChange.statusCode (fst answer) = 500 /\ snd answer = tbl)
  /\ (forall wbsData contract,
         Org.wbsMetadata org code = Some wbsData ->
         Org.isActive wbsData = true ->
         Personnel.contractDetails personnel id = Some contract ->
         Personnel.department contract <> Some (Org.departmentId wbsData) ->
         WbsChange.statusCode (fst answer) = 400 /\ snd answer = tbl).
Proof.
  cbv zeta. unfold WbsChange.handler.
  rewrite Hauth, Hperm, Hvalid, Hid, Hown, Hcode.
  cbn [negb JS.strict_eq WbsChange.text]. rewrite String.eqb_refl.
  cbn [negb]. unfold Ledger.validateWbsCodeForEmployee.
  assert (Hq : forall w,
             ~ In "'"%char (list_ascii_of_string w) ->
             JS.includes code w = false ->
             forall X Y,
               JS.includes X w = false -> JS.includes Y w = false ->
               JS.includes (X ++ String "'" (code ++ String "'" Y)) w = false).
  { intros w Hw Hc X Y HX HY. now apply includes_quoted. }
  assert (Hpq : ~ In "'"%char (list_ascii_of_string "permission"))
    by (cbn; intuition discriminate).
  assert (Hvq : ~ In "'"%char (list_ascii_of_string "not valid"))
    by (cbn; intuition discriminate).
  split; [|split].
  - intros ->. cbn [Ledger.throw fst snd WbsChange.statusCode].
    split; [|reflexivity].
    change ("The provided WBS code '" ++ code ++ "' does not exist.")%string
      with ("The provided WBS code "
            ++ String "'" (code ++ String "'" " does not exist."))%string.
    rewrite (Hq "permission" Hpq Hp), (Hq "not valid" Hvq Hv);
      reflexivity.
  - intros wbsData -> ->. cbn [negb Ledger.throw fst snd WbsChange.statusCode].
    split; [|reflexivity].
    change ("The provided WBS code '" ++ code ++ "' is not active.")%string
      with ("The provided WBS code "
            ++ String "'" (code ++ String "'" " is not active."))%string.
    rewrite (Hq "permission" Hpq Hp), (Hq "not valid" Hvq Hv);
      reflexivity.
  - intros wbsData contract -> -> -> Hdept. cbn [negb].
    destruct (JS.strict_eq (Some (Org.departmentId wbsData))
                (Personnel.department contract)) eqn:E.
    + exfalso. apply Hdept.
      destruct (Personnel.department contract) as [d|]; [|discriminate E].
      cbn in E. apply String.eqb_eq in E. now subst d.
    + cbn [negb Ledger.throw fst snd WbsChange.statusCode].
      split; [|reflexivity].
      change (JS.includes
                ("You do not have permission to use WBS code '" ++ code
                 ++ "'. It is not assigned to your department.") "permission")
        with true.
      reflexivity.
Qed.

(** On the fixtures: E1, permitted to change, asks for WBS-9, which does
    not exist. *)
Lemma wbs_change_error_status_witness :
  let answer :=
    WbsChange.handler Fixtures.utils Fixtures.personnel Fixtures.org
      Fixtures.clockedIn (Fixtures.clock 0 9 0)
      (Fixtures.changeRequest true "WBS-9") in
  WbsChange.statusCode (fst answer) = 500 /\ snd answer = Fixtures.clockedIn.
Proof.
  apply (wbs_change_error_status Fixtures.utils Fixtures.personnel
           Fixtures.org Fixtures.clockedIn (Fixtures.clock 0 9 0)
           (Fixtures.changeRequest true "WBS-9") "WBS-9" "E1");
    reflexivity.
Defined.

(** * The auditor's state check and the ledger's transition table *)

Section StateCheck.

(** One step, over the four clock types: a transition of the table passes
    the state check and leaves the flags of its type; any other is
    objected to. *)
Lemma clock_step (a : option string) (b : string) :
  match a with Some t => In t Detect.clockTypes | None => True end ->
  In b Detect.clockTypes ->
  let flags := match a with
               | Some t => Chain.flagsOfType t
               | None => (false, false)
               end in
  let allowed := match a with
                 | Some t => Ledger.transitionAllowed t b
                 | None => (b =? "CLOCK_IN")%string
                 end in
  if allowed
  then Auditor.stateStep flags b [] = ([], Chain.flagsOfType b)
  else (List.length (fst (Auditor.stateStep flags b [])) =? 0)%nat = false.
Proof.
  intros Ha Hb. unfold Detect.clockTypes in *. cbn [In] in Ha, Hb.
  destruct a as [t|];
    repeat match goal with
           | H : _ \/ _ |- _ => destruct H as [H|H]
           | H : False |- _ => destruct H
           end; subst; vm_compute; reflexivity.
Qed.

Lemma clock_rest (previous : option Log.Item) (l : list Log.Item) :
  match previous with
  | Some p => In (Log.timestampType p) Detect.clockTypes
  | None => True
  end ->
  Forall (fun x => In (Log.timestampType x) Detect.clockTypes) l ->
  Detect.stateFaults (Chain.flagsAfter previous) l = 0%nat
  <-> Chain.legal previous l
      /\ match Chain.lastOf previous l with
         | Some q => Log.timestampType q = "CLOCK_OUT"
         | None => True
         end.
Proof.
  intros Hp Hl. revert previous Hp.
  induction Hl as [|x rest Hx _ IH]; intros previous Hp.
  - cbn [Detect.stateFaults Chain.legal Chain.lastOf].
    destruct previous as [p|]; [|cbn; tauto].
    unfold Chain.flagsAfter. unfold Detect.clockTypes in Hp. cbn [In] in Hp.
    repeat match goal with
           | H : _ \/ _ |- _ => destruct H as [H|H]
           | H : False |- _ => destruct H
           end; rewrite <- Hp; cbn; split;
      try tauto; try discriminate; try lia; intros [_ H]; discriminate H.
  - cbn [Detect.stateFaults Chain.legal Chain.lastOf].
    pose proof (clock_step (option_map Log.timestampType previous)
                  (Log.timestampType x)) as Hstep.
    assert (Hflags : Chain.flagsAfter previous
                     = match option_map Log.timestampType previous with
                       | Some t => Chain.flagsOfType t
                       | None => (false, false)
                       end) by (now destruct previous).
    rewrite Hflags. cbv zeta in Hstep.
    specialize (Hstep ltac:(now destruct previous) Hx).
    assert (Hlegal :
              match previous with
              | Some p =>
                  Ledger.transitionAllowed (Log.timestampType p)
                    (Log.timestampType x) = true
              | None => Log.timestampType x = "CLOCK_IN"
              end
              <-> match option_map Log.timestampType previous with
                  | Some t => Ledger.transitionAllowed t (Log.timestampType x)
                  | None => (Log.timestampType x =? "CLOCK_IN")%string
                  end = true).
    { destruct previous; cbn [option_map]; [tauto|].
      now rewrite String.eqb_eq. }
    rewrite Hlegal. clear Hlegal Hflags.
    destruct (match option_map Log.timestampType previous with
              | Some t => Ledger.transitionAllowed t (Log.timestampType x)
              | None => (Log.timestampType x =? "CLOCK_IN")%string
              end).
    + rewrite Hstep. cbn [List.length Nat.eqb Nat.add].
      change (Chain.flagsOfType (Log.timestampType x))
        with (Chain.flagsAfter (Some x)).
      rewrite (IH (Some x) Hx). tauto.
    + destruct (Auditor.stateStep _ (Log.timestampType x) []) as [errs f].
      cbn [fst] in Hstep. rewrite Hstep. split; [discriminate|].
      intros [[H _] _]. discriminate H.
Qed.

End StateCheck.

(** On a ledger without work-category changes (every event of one of the
    four clock types) the auditor reports no state error exactly when the
    types follow the ledger's transition table from a first CLOCK_IN and the
    ledger is empty or ends with a CLOCK_OUT. *)
Theorem state_check_matches_table (id : string) (logs : list Log.Item)
    (now : Z) (by_ : option string)
    (Htypes : Forall (fun x => In (Log.timestampType x) Detect.clockTypes)
                     logs) :
  Auditor.stateErrors (Auditor.summary (Auditor.report id logs now by_)) = 0
  <-> Chain.legal None logs /\ Chain.closed logs.
Proof.
  destruct (report_fields id logs now by_) as (_ & ->).
  cbn [Auditor.stateErrors].
  pose proof (loop_state_count logs 0 None Auditor.initial) as Hst.
  unfold Auditor.validate. cbn [fst Auditor.state]. rewrite Hst.
  cbn [Auditor.initial Auditor.errorDetails Auditor.state Auditor.flags
       List.length Nat.add].
  rewrite <- (clock_rest None logs I Htypes). cbn [Chain.flagsAfter]. lia.
Qed.

(** On the fixtures: the day with one break, and the day left open. *)
Lemma state_check_matches_table_witness :
  Chain.legal None (Log.queryPartition Fixtures.dayWithBreak "EMP#E1")
  /\ Auditor.stateErrors
       (Auditor.summary
          (Auditor.report "E1" (Log.queryPartition Fixtures.openDay "EMP#E1")
             (Fixtures.clock 1 9 0) (Some "A1")))
     <> 0.
Proof.
  assert (Htypes : Forall (fun x => In (Log.timestampType x) Detect.clockTypes)
                     (Log.queryPartition Fixtures.dayWithBreak "EMP#E1")).
  { vm_compute. repeat constructor; tauto. }
  assert (Hnone : Auditor.stateErrors
                    (Auditor.summary
                       (Auditor.report "E1"
                          (Log.queryPartition Fixtures.dayWithBreak "EMP#E1")
                          (Fixtures.clock 1 9 0) (Some "A1"))) = 0).
  { vm_compute. reflexivity. }
  destruct (state_check_matches_table "E1" _ (Fixtures.clock 1 9 0)
              (Some "A1") Htypes) as [Hto _].
  destruct (Hto Hnone) as [Hlegal _].
  split; [exact Hlegal|]. vm_compute. discriminate.
Defined.

(** * The ledgers the handler builds *)

Section Rules.

Variable u : Utils.t.






End Rules.


